(** * lawbench: the control core, embedded and checked against its specification

  The development follows the Go sources of the library:
  - the constants, [SystemIntegrityMetrics], [CalculateSystemDNA] and
    [RDynamics] (the r-model and the recovery pulse);
  - the [Governor] and its decision function [CheckStructuralIntegrity];
  - the USL fitter [FitUSL] and the throughput model [uslModel];
  - the [TailDivergenceTracker] ring buffer and its percentiles;
  - the autoscaler policy [ShouldScale] and [CalculatePeakCapacity];
  - around them: the validation of metrics and of a change
    ([ValidateSystemDNA], [CriticalityScalingConstraint]), the simulated
    trajectories, [CalculateStatistics], the registry of verified types
    ([RuntimeLawChecker]) and the HTTP middleware of the example server,
    which calls the governor.

  Numbers.  A Go [int] is a [Z] (no wrap-around is modelled for the
  counts of the library, which stay far from 2^63).  A [time.Time] is the
  reading of the monotonic clock in nanoseconds, a [Z], and [time.Now()]
  is an explicit argument [now] of the functions that read the clock; a
  [time.Duration] is a [Z] of nanoseconds, and where the code adds
  durations up ([Mean], [CalculateStatistics]) the sum is an [int64] that
  wraps around ([Int64]).

  A [float64] is modelled twice.  [Runtime], [Gov], [Dynamics], [USL],
  [Tail] and [Middleware] give the formulas of the r-model, of the
  governor, of the throughput model and of the tail tracker over exact
  rationals ([Q]): the rounding of each operation is left out, and their
  theorems are theorems of the formulas the code evaluates.  [Runtime64],
  [Gov64], [Criticality], [USLFit], [Autoscaler] and the deviation of
  [CalculateStatistics] give the code in binary64, the [PrimFloat] numbers
  of the kernel with the IEEE 754 operations, comparisons, infinities and
  NaN: every operation rounds to nearest, ties to even, one operation at
  a time, as the compiled code does on amd64.  The properties that depend
  on the binary64 value itself (a comparison with a threshold, the
  quotient of the deployment gate, the determinants of the fitter, the
  square root of the autoscaler) are stated there.

  The first part holds the definitions, module by module; the second part
  holds the properties, in modules of the same names with [Facts]. *)

From Stdlib Require Import Floats String.
From Stdlib Require Import ZArith QArith Qabs Qminmax Qround.
From Stdlib Require Import List Bool Lia Lra Lqa Psatz.
From Stdlib Require Import Permutation Sorted Orders Mergesort.
Import ListNotations.

Set Implicit Arguments.
Set Warnings "-inexact-float".

(** ** Comparisons of rationals as the code writes them *)

Module QCmp.
Local Open Scope Q_scope.

Definition Qleb (x y : Q) : bool := Qle_bool x y.
Definition Qltb (x y : Q) : bool := negb (Qle_bool y x).
Definition Qgeb (x y : Q) : bool := Qle_bool y x.
Definition Qgtb (x y : Q) : bool := negb (Qle_bool x y).
Definition Qeqb (x y : Q) : bool := Qeq_bool x y.

End QCmp.
Import QCmp.

(** ** Constants and the r-model *)

Module Runtime.
Local Open Scope Q_scope.

(** [const FeigenbaumDelta = 4.6692] *)
Definition FeigenbaumDelta : Q := 46692 # 10000.

(** [const CriticalityScalingRatio = 1.0 / FeigenbaumDelta] *)
Definition CriticalityScalingRatio : Q := 1 / FeigenbaumDelta.

Record SystemDNAConstraint := {
  MinR : Q;
  MaxR : Q
}.

Definition StableDNAConstraint : SystemDNAConstraint :=
  {| MinR := 1; MaxR := 3 |}.

Record SystemIntegrityMetrics := {
  ImmutableOpsVerified : Z;
  MutableSharedState : Z;
  IsolationScore : Q;
  SupervisedProcesses : Z;
  UnsupervisedProcesses : Z;
  MeanTimeToRestart : Q;
  CriticalCoreLOC : Z;
  ExtensibleLOC : Z;
  ScalingRatio : Q;
  FeigenbaumCompliance : bool;
  DeltaCriticalCore : Q;
  DeltaComplexity : Q;
  EstimatedCoupling : Q;
  InstabilityBoundaryDistance : Q;
  StableEquilibrium : bool
}.

(** [func max(a, b int) int] *)
Definition max (a b : Z) : Z := if (a >? b)%Z then a else b.

(** [func CalculateSystemDNA(metrics SystemIntegrityMetrics) float64] *)
Definition CalculateSystemDNA (metrics : SystemIntegrityMetrics) : Q :=
  let isolationPenalty :=
    inject_Z (MutableSharedState metrics) /
    inject_Z (max (ImmutableOpsVerified metrics) 1) in
  let supervisionPenalty :=
    inject_Z (UnsupervisedProcesses metrics) /
    inject_Z (max (SupervisedProcesses metrics) 1) in
  let scalingPenalty := ScalingRatio metrics / CriticalityScalingRatio in
  let r := 1 + isolationPenalty + supervisionPenalty + scalingPenalty in
  r.

Record RDynamics := {
  InitialR : Q;
  CurrentR : Q;
  TargetR : Q;
  History : list Q;
  RecoveryEvents : Z;
  InSaturationZone : bool
}.

(** [func NewRDynamics(initialR float64) RDynamics] *)
Definition NewRDynamics (initialR : Q) : RDynamics :=
  let inInstability := Qgeb initialR (MaxR StableDNAConstraint) in
  {| InitialR := initialR;
     CurrentR := initialR;
     TargetR := MaxR StableDNAConstraint * (8 # 10);
     History := [initialR];
     RecoveryEvents := 0;
     InSaturationZone := inInstability |}.

(** [func (rd *RDynamics) ApplyRecovery(metrics) float64]: the receiver
    after the call, and the value returned. *)
Definition ApplyRecovery (metrics : SystemIntegrityMetrics) (rd : RDynamics)
  : RDynamics * Q :=
  if negb (InSaturationZone rd) then (rd, CurrentR rd)
  else
    let isolationRatio :=
      inject_Z (MutableSharedState metrics) /
      inject_Z (max (ImmutableOpsVerified metrics) 1) in
    let instabilityDepth := CurrentR rd - MaxR StableDNAConstraint in
    let correctionFactor := 1 / (1 + isolationRatio) in
    let maxSafePulse := CriticalityScalingRatio in
    let desiredPulse := instabilityDepth * correctionFactor * (5 # 10) in
    let correctionPulse := Qmin desiredPulse maxSafePulse in
    let newR := CurrentR rd - correctionPulse in
    let newR :=
      if Qltb (Qabs (newR - MaxR StableDNAConstraint)) (1 # 10000)
      then MaxR StableDNAConstraint * (999 # 1000)
      else newR in
    let newR :=
      if Qltb newR (MinR StableDNAConstraint)
      then MinR StableDNAConstraint
      else newR in
    ({| InitialR := InitialR rd;
        CurrentR := newR;
        TargetR := TargetR rd;
        History := History rd ++ [newR];
        RecoveryEvents := (RecoveryEvents rd + 1)%Z;
        InSaturationZone := Qgeb newR (MaxR StableDNAConstraint) |},
     newR).

(** The loop of [ApplyRecoveryUntilStable]:
    [for rd.InSaturationZone && iterations < maxIterations].  [budget] is
    the number of iterations still allowed, [maxIterations - iterations]. *)
Fixpoint recoveryLoop (budget : nat) (metrics : SystemIntegrityMetrics)
    (rd : RDynamics) (iterations : Z) : RDynamics * Z :=
  match budget with
  | O => (rd, iterations)
  | S budget' =>
      if InSaturationZone rd
      then recoveryLoop budget' metrics (fst (ApplyRecovery metrics rd))
             (iterations + 1)%Z
      else (rd, iterations)
  end.

(** [func (rd *RDynamics) ApplyRecoveryUntilStable(metrics, maxIterations)
    (float64, int)] *)
Definition ApplyRecoveryUntilStable (metrics : SystemIntegrityMetrics)
    (maxIterations : Z) (rd : RDynamics) : RDynamics * (Q * Z) :=
  let (rd', iterations) :=
    recoveryLoop (Z.to_nat maxIterations) metrics rd 0%Z in
  (rd', (CurrentR rd', iterations)).

(** [func (rd *RDynamics) ApplyFeigenbaumGovernance(scalingRatio) float64] *)
Definition ApplyFeigenbaumGovernance (scalingRatio : Q) (rd : RDynamics)
  : RDynamics * Q :=
  let rIncrement :=
    scalingRatio * (1 / (FeigenbaumDelta * FeigenbaumDelta)) in
  let newR := CurrentR rd + rIncrement in
  ({| InitialR := InitialR rd;
      CurrentR := newR;
      TargetR := TargetR rd;
      History := History rd ++ [newR];
      RecoveryEvents := RecoveryEvents rd;
      InSaturationZone := Qgeb newR (MaxR StableDNAConstraint) |},
   newR).

(** The saturation flag says what the current r says: every constructor
    and method of [RDynamics] keeps it so. *)
Definition flagConsistent (rd : RDynamics) : Prop :=
  InSaturationZone rd = Qgeb (CurrentR rd) (MaxR StableDNAConstraint).

(** One field of the metrics replaced, every other field kept. *)
Definition withMutableSharedState (v : Z) (m : SystemIntegrityMetrics)
  : SystemIntegrityMetrics :=
  {| ImmutableOpsVerified := ImmutableOpsVerified m;
     MutableSharedState := v;
     IsolationScore := IsolationScore m;
     SupervisedProcesses := SupervisedProcesses m;
     UnsupervisedProcesses := UnsupervisedProcesses m;
     MeanTimeToRestart := MeanTimeToRestart m;
     CriticalCoreLOC := CriticalCoreLOC m;
     ExtensibleLOC := ExtensibleLOC m;
     ScalingRatio := ScalingRatio m;
     FeigenbaumCompliance := FeigenbaumCompliance m;
     DeltaCriticalCore := DeltaCriticalCore m;
     DeltaComplexity := DeltaComplexity m;
     EstimatedCoupling := EstimatedCoupling m;
     InstabilityBoundaryDistance := InstabilityBoundaryDistance m;
     StableEquilibrium := StableEquilibrium m |}.

Definition withUnsupervisedProcesses (v : Z) (m : SystemIntegrityMetrics)
  : SystemIntegrityMetrics :=
  {| ImmutableOpsVerified := ImmutableOpsVerified m;
     MutableSharedState := MutableSharedState m;
     IsolationScore := IsolationScore m;
     SupervisedProcesses := SupervisedProcesses m;
     UnsupervisedProcesses := v;
     MeanTimeToRestart := MeanTimeToRestart m;
     CriticalCoreLOC := CriticalCoreLOC m;
     ExtensibleLOC := ExtensibleLOC m;
     ScalingRatio := ScalingRatio m;
     FeigenbaumCompliance := FeigenbaumCompliance m;
     DeltaCriticalCore := DeltaCriticalCore m;
     DeltaComplexity := DeltaComplexity m;
     EstimatedCoupling := EstimatedCoupling m;
     InstabilityBoundaryDistance := InstabilityBoundaryDistance m;
     StableEquilibrium := StableEquilibrium m |}.

Definition withScalingRatio (v : Q) (m : SystemIntegrityMetrics)
  : SystemIntegrityMetrics :=
  {| ImmutableOpsVerified := ImmutableOpsVerified m;
     MutableSharedState := MutableSharedState m;
     IsolationScore := IsolationScore m;
     SupervisedProcesses := SupervisedProcesses m;
     UnsupervisedProcesses := UnsupervisedProcesses m;
     MeanTimeToRestart := MeanTimeToRestart m;
     CriticalCoreLOC := CriticalCoreLOC m;
     ExtensibleLOC := ExtensibleLOC m;
     ScalingRatio := v;
     FeigenbaumCompliance := FeigenbaumCompliance m;
     DeltaCriticalCore := DeltaCriticalCore m;
     DeltaComplexity := DeltaComplexity m;
     EstimatedCoupling := EstimatedCoupling m;
     InstabilityBoundaryDistance := InstabilityBoundaryDistance m;
     StableEquilibrium := StableEquilibrium m |}.

(** The zero value of the metrics struct, and the metrics of a healthy
    service: 100 verified operations, 50 supervised processes, no
    violation. *)
Definition zeroMetrics : SystemIntegrityMetrics :=
  {| ImmutableOpsVerified := 0;
     MutableSharedState := 0;
     IsolationScore := 0;
     SupervisedProcesses := 0;
     UnsupervisedProcesses := 0;
     MeanTimeToRestart := 0;
     CriticalCoreLOC := 0;
     ExtensibleLOC := 0;
     ScalingRatio := 0;
     FeigenbaumCompliance := false;
     DeltaCriticalCore := 0;
     DeltaComplexity := 0;
     EstimatedCoupling := 0;
     InstabilityBoundaryDistance := 0;
     StableEquilibrium := false |}.

Definition healthyMetrics : SystemIntegrityMetrics :=
  {| ImmutableOpsVerified := 100;
     MutableSharedState := 0;
     IsolationScore := 1;
     SupervisedProcesses := 50;
     UnsupervisedProcesses := 0;
     MeanTimeToRestart := 0;
     CriticalCoreLOC := 0;
     ExtensibleLOC := 0;
     ScalingRatio := 0;
     FeigenbaumCompliance := true;
     DeltaCriticalCore := 0;
     DeltaComplexity := 0;
     EstimatedCoupling := 0;
     InstabilityBoundaryDistance := 0;
     StableEquilibrium := true |}.
End Runtime.

(** ** The governor *)

Module Gov.
Import Runtime.
Local Open Scope Q_scope.

(** [time.Second], in nanoseconds. *)
Definition Second : Z := 1000000000%Z.

Record Governor := {
  rdynamics : RDynamics;
  lastCheck : Z;
  checkInterval : Z;
  warningThreshold : Q;
  dangerThreshold : Q;
  saturationThreshold : Q;
  inThrottleMode : bool;
  throttleEnteredAt : Z;
  throttleMinDuration : Z;
  throttleExitThreshold : Q;
  warnings : Z;
  throttleEvents : Z;
  deployBlocked : Z
}.

Inductive ActionType :=
| ActionStable
| ActionWarning
| ActionPacing
| ActionThrottle
| ActionBlockDeploy
| ActionRestart.

(** The [Reason] and [Mitigation] of an [Action] are texts that
    [fmt.Sprintf] fills with the numbers of the evaluation.  The embedding
    keeps which of the seven texts was chosen; the velocity Δr/Δt, which the
    code computes for these texts alone, is not kept. *)
Inductive ReasonText :=
| PureTechnicalDebt
| GrowthRatioExceeded
| ThrottleHysteresis
| SaturationDetected
| DangerZone
| WarningZone
| StableZone.

(** The field [Type] of the source is [ActType] ([Type] is a keyword). *)
Record Action := {
  ActType : ActionType;
  Reason : ReasonText;
  Metrics : SystemIntegrityMetrics;
  Timestamp : Z
}.

(** [func NewGovernor(initialR float64) *Governor]; [now] is the clock
    reading that the constructor stores in [lastCheck], and the zero
    [time.Time] of [throttleEnteredAt] is the instant 0. *)
Definition NewGovernor (now : Z) (initialR : Q) : Governor :=
  {| rdynamics :=
       {| InitialR := initialR;
          CurrentR := initialR;
          TargetR := 24 # 10;
          History := [initialR];
          RecoveryEvents := 0;
          InSaturationZone := Qgeb initialR 3 |};
     lastCheck := now;
     checkInterval := Second;
     warningThreshold := 28 # 10;
     dangerThreshold := 29 # 10;
     saturationThreshold := 3;
     inThrottleMode := false;
     throttleEnteredAt := 0;
     throttleMinDuration := (60 * Second)%Z;
     throttleExitThreshold := 2;
     warnings := 0;
     throttleEvents := 0;
     deployBlocked := 0 |}.

(** Field updates of the receiver, as the assignments of the code. *)
Definition setRdynamics (rd : RDynamics) (g : Governor) : Governor :=
  {| rdynamics := rd;
     lastCheck := lastCheck g;
     checkInterval := checkInterval g;
     warningThreshold := warningThreshold g;
     dangerThreshold := dangerThreshold g;
     saturationThreshold := saturationThreshold g;
     inThrottleMode := inThrottleMode g;
     throttleEnteredAt := throttleEnteredAt g;
     throttleMinDuration := throttleMinDuration g;
     throttleExitThreshold := throttleExitThreshold g;
     warnings := warnings g;
     throttleEvents := throttleEvents g;
     deployBlocked := deployBlocked g |}.

Definition setLastCheck (t : Z) (g : Governor) : Governor :=
  {| rdynamics := rdynamics g;
     lastCheck := t;
     checkInterval := checkInterval g;
     warningThreshold := warningThreshold g;
     dangerThreshold := dangerThreshold g;
     saturationThreshold := saturationThreshold g;
     inThrottleMode := inThrottleMode g;
     throttleEnteredAt := throttleEnteredAt g;
     throttleMinDuration := throttleMinDuration g;
     throttleExitThreshold := throttleExitThreshold g;
     warnings := warnings g;
     throttleEvents := throttleEvents g;
     deployBlocked := deployBlocked g |}.

Definition setThrottle (mode : bool) (enteredAt : Z) (events : Z)
    (g : Governor) : Governor :=
  {| rdynamics := rdynamics g;
     lastCheck := lastCheck g;
     checkInterval := checkInterval g;
     warningThreshold := warningThreshold g;
     dangerThreshold := dangerThreshold g;
     saturationThreshold := saturationThreshold g;
     inThrottleMode := mode;
     throttleEnteredAt := enteredAt;
     throttleMinDuration := throttleMinDuration g;
     throttleExitThreshold := throttleExitThreshold g;
     warnings := warnings g;
     throttleEvents := events;
     deployBlocked := deployBlocked g |}.

Definition setWarnings (n : Z) (g : Governor) : Governor :=
  {| rdynamics := rdynamics g;
     lastCheck := lastCheck g;
     checkInterval := checkInterval g;
     warningThreshold := warningThreshold g;
     dangerThreshold := dangerThreshold g;
     saturationThreshold := saturationThreshold g;
     inThrottleMode := inThrottleMode g;
     throttleEnteredAt := throttleEnteredAt g;
     throttleMinDuration := throttleMinDuration g;
     throttleExitThreshold := throttleExitThreshold g;
     warnings := n;
     throttleEvents := throttleEvents g;
     deployBlocked := deployBlocked g |}.

Definition setDeployBlocked (n : Z) (g : Governor) : Governor :=
  {| rdynamics := rdynamics g;
     lastCheck := lastCheck g;
     checkInterval := checkInterval g;
     warningThreshold := warningThreshold g;
     dangerThreshold := dangerThreshold g;
     saturationThreshold := saturationThreshold g;
     inThrottleMode := inThrottleMode g;
     throttleEnteredAt := throttleEnteredAt g;
     throttleMinDuration := throttleMinDuration g;
     throttleExitThreshold := throttleExitThreshold g;
     warnings := warnings g;
     throttleEvents := throttleEvents g;
     deployBlocked := n |}.

Definition mkAction (t : ActionType) (why : ReasonText)
    (metrics : SystemIntegrityMetrics) (now : Z) : Action :=
  {| ActType := t; Reason := why; Metrics := metrics; Timestamp := now |}.

(** The first statements of [CheckStructuralIntegrity]: r is computed from
    the metrics, stored, appended to the history, and the clock reading
    replaces [lastCheck]. *)
Definition recordR (now : Z) (currentR : Q) (g : Governor) : Governor :=
  let rd := rdynamics g in
  setLastCheck now
    (setRdynamics
       {| InitialR := InitialR rd;
          CurrentR := currentR;
          TargetR := TargetR rd;
          History := History rd ++ [currentR];
          RecoveryEvents := RecoveryEvents rd;
          InSaturationZone := Qgeb currentR (saturationThreshold g) |}
       g).

(** Phase I of [CheckStructuralIntegrity], the deployment constraint:
    [Some why] when the evaluation returns [ActionBlockDeploy] there. *)
Definition deployGate (metrics : SystemIntegrityMetrics) : option ReasonText :=
  if Qgtb (DeltaCriticalCore metrics) 0 || Qgtb (DeltaComplexity metrics) 0
  then
    if Qeqb (DeltaCriticalCore metrics) 0 && Qgtb (DeltaComplexity metrics) 0
    then Some PureTechnicalDebt
    else
      let growthRatio := DeltaComplexity metrics / DeltaCriticalCore metrics in
      let maxRatio := FeigenbaumDelta in
      if Qgtb growthRatio maxRatio then Some GrowthRatioExceeded else None
  else None.

(** Phase II below the saturation branch: the danger, warning and stable
    zones. *)
Definition zoneAction (now : Z) (metrics : SystemIntegrityMetrics)
    (currentR : Q) (g : Governor) : Governor * Action :=
  if Qgeb currentR (dangerThreshold g)
  then (g, mkAction ActionPacing DangerZone metrics now)
  else if Qgeb currentR (warningThreshold g)
  then (setWarnings (warnings g + 1)%Z g,
        mkAction ActionWarning WarningZone metrics now)
  else (g, mkAction ActionStable StableZone metrics now).

(** The end of the saturation branch: throttle mode is entered when it is
    not set, and [ActionThrottle] is returned. *)
Definition enterThrottle (now : Z) (metrics : SystemIntegrityMetrics)
    (g : Governor) : Governor * Action :=
  let g :=
    if negb (inThrottleMode g)
    then setThrottle true now (throttleEvents g + 1)%Z g
    else g in
  (g, mkAction ActionThrottle SaturationDetected metrics now).

(** [func (g *Governor) CheckStructuralIntegrity(metrics) Action]: the
    governor after the call, and the action returned. *)
Definition CheckStructuralIntegrity (now : Z)
    (metrics : SystemIntegrityMetrics) (g : Governor) : Governor * Action :=
  let currentR := CalculateSystemDNA metrics in
  let g := recordR now currentR g in
  match deployGate metrics with
  | Some why =>
      (setDeployBlocked (deployBlocked g + 1)%Z g,
       mkAction ActionBlockDeploy why metrics now)
  | None =>
      if Qgeb currentR (saturationThreshold g) || inThrottleMode g
      then
        if inThrottleMode g
        then
          let timeSinceThrottle := (now - throttleEnteredAt g)%Z in
          if (timeSinceThrottle >=? throttleMinDuration g)%Z
             && Qltb currentR (throttleExitThreshold g)
          then
            let g := setThrottle false (throttleEnteredAt g)
                       (throttleEvents g) g in
            enterThrottle now metrics g
          else (g, mkAction ActionThrottle ThrottleHysteresis metrics now)
        else enterThrottle now metrics g
      else zoneAction now metrics currentR g
  end.

(** [func (g *Governor) ApplyRecovery(metrics) bool], with
    [const maxIterations = 20]. *)
Definition ApplyRecovery (metrics : SystemIntegrityMetrics) (g : Governor)
  : Governor * bool :=
  let maxIterations := 20%Z in
  let '(rd, (finalR, iterations)) :=
    ApplyRecoveryUntilStable metrics maxIterations (rdynamics g) in
  let g := setRdynamics rd g in
  if Qgeb finalR (saturationThreshold g)
  then (g, false)
  else (setThrottle (inThrottleMode g) (throttleEnteredAt g)
          (throttleEvents g + iterations)%Z g,
        true).

(** The map that [GetStatistics] returns, one field per key. *)
Record Statistics := {
  current_r : Q;
  initial_r : Q;
  in_saturation : bool;
  warnings_issued : Z;
  throttles_applied : Z;
  deploys_blocked : Z;
  recovery_events : Z;
  history_length : Z
}.

(** [func (g *Governor) GetStatistics() map[string]interface{}] *)
Definition GetStatistics (g : Governor) : Statistics :=
  {| current_r := CurrentR (rdynamics g);
     initial_r := InitialR (rdynamics g);
     in_saturation := InSaturationZone (rdynamics g);
     warnings_issued := warnings g;
     throttles_applied := throttleEvents g;
     deploys_blocked := deployBlocked g;
     recovery_events := RecoveryEvents (rdynamics g);
     history_length := Z.of_nat (length (History (rdynamics g))) |}.

(** The thresholds that [NewGovernor] sets; no method assigns them. *)
Definition standardThresholds (g : Governor) : Prop :=
  warningThreshold g = 28 # 10 /\
  dangerThreshold g = 29 # 10 /\
  saturationThreshold g = 3 /\
  throttleMinDuration g = (60 * Second)%Z /\
  throttleExitThreshold g = 2.

(** A sequence of evaluations of one governor, each with the clock reading
    at which it runs: the governor after the last one and the actions
    returned, in order. *)
Fixpoint evaluations (calls : list (Z * SystemIntegrityMetrics))
    (g : Governor) : Governor * list Action :=
  match calls with
  | [] => (g, [])
  | (now, metrics) :: rest =>
      let (g1, a) := CheckStructuralIntegrity now metrics g in
      let (g2, acts) := evaluations rest g1 in
      (g2, a :: acts)
  end.

(** Metrics of a saturated service (r = 1 + 220/100 = 3.2), and the governor
    that [NewGovernor(2.0)] gives once it has evaluated them at the instant
    0: it has entered throttle mode there. *)
Definition saturatedMetrics : SystemIntegrityMetrics :=
  withMutableSharedState 220 healthyMetrics.

Definition throttledGovernor : Governor :=
  fst (CheckStructuralIntegrity 0 saturatedMetrics (NewGovernor 0 2)).

(** A deployment that adds complexity [dComplexity] over a change
    [dCore] of the critical core, on a healthy service. *)
Definition deployment (dCore dComplexity : Q) : SystemIntegrityMetrics :=
  {| ImmutableOpsVerified := 100;
     MutableSharedState := 0;
     IsolationScore := 1;
     SupervisedProcesses := 50;
     UnsupervisedProcesses := 0;
     MeanTimeToRestart := 0;
     CriticalCoreLOC := 0;
     ExtensibleLOC := 0;
     ScalingRatio := 0;
     FeigenbaumCompliance := true;
     DeltaCriticalCore := dCore;
     DeltaComplexity := dComplexity;
     EstimatedCoupling := 0;
     InstabilityBoundaryDistance := 0;
     StableEquilibrium := true |}.


End Gov.

(** ** The USL fitter *)

Module USL.
Local Open Scope Q_scope.

Record Result := {
  N : Z;
  Duration : Z;
  Operations : Z;
  Throughput : Q;
  Latencies : list Z;
  Errors : Z
}.

Record USLCoefficients := {
  Lambda : Q;
  Alpha : Q;
  Beta : Q;
  RSquared : Q
}.

(** [func uslModel(n, lambda, alpha, beta float64) float64] *)
Definition uslModel (n lambda alpha beta : Q) : Q :=
  (lambda * n) / (1 + alpha * (n - 1) + beta * n * (n - 1)).

(** [func (c USLCoefficients) PredictThroughput(n int) float64] *)
Definition PredictThroughput (c : USLCoefficients) (n : Z) : Q :=
  uslModel (inject_Z n) (Lambda c) (Alpha c) (Beta c).


(** The specification compares throughputs at ⌊N_peak⌋, where
    [N_peak = sqrt ((1 - α) / β)] is what [CalculatePeakCapacity] returns
    for [β > 0] and [α < 1].  Over the rationals the floor of that square
    root is the integer square root of the floor of the quotient, and its
    ceiling is the least integer whose square reaches the quotient. *)
Definition peakFloor (alpha beta : Q) : Z :=
  Z.sqrt (Qfloor ((1 - alpha) / beta)).

Definition peakCeiling (alpha beta : Q) : Z :=
  Z.sqrt_up (Qceiling ((1 - alpha) / beta)).

(** Coefficients of a service with contention 0.3 and coherency 0.05
    ([N_peak = sqrt 14], about 3.74), and coefficients with a negative
    contention term. *)
Definition contended : USLCoefficients :=
  {| Lambda := 1000; Alpha := 3 # 10; Beta := 5 # 100; RSquared := 1 |}.

Definition superlinear : USLCoefficients :=
  {| Lambda := 1000; Alpha := - (10); Beta := 1; RSquared := 1 |}.

End USL.

(** ** The tail-divergence tracker *)

(** [sort.Slice(sorted, func(i, j int) bool { return sorted[i] < sorted[j] })]
    puts the durations in ascending order; the merge sort of the standard
    library does the same. *)
Module DurationOrder <: TotalLeBool.
Definition t : Type := Z.
Definition leb : t -> t -> bool := Z.leb.
Theorem leb_total : forall a1 a2, leb a1 a2 = true \/ leb a2 a1 = true.
Proof.
  intros a1 a2. unfold leb. destruct (Z.leb_spec a1 a2); [now left|].
  right. apply Z.leb_le. lia.
Qed.
End DurationOrder.

Module DurationSort := Sort DurationOrder.

Module Tail.
Local Open Scope Z_scope.

(** The mutex guards every access; one access at a time is what the
    embedding shows.  The cached percentiles are fields that no method
    reads. *)
Record TailDivergenceTracker := {
  samples : list Z;
  maxSamples : Z;
  writeIndex : Z;
  sampleCount : Z;
  cachedP50 : Z;
  cachedP99 : Z;
  cachedP999 : Z;
  cacheValid : bool
}.

(** [func NewTailDivergenceTracker(maxSamples int) *TailDivergenceTracker] *)
Definition NewTailDivergenceTracker (maxSamples : Z) : TailDivergenceTracker :=
  let maxSamples := if maxSamples <=? 0 then 1000 else maxSamples in
  {| samples := repeat 0 (Z.to_nat maxSamples);
     maxSamples := maxSamples;
     writeIndex := 0;
     sampleCount := 0;
     cachedP50 := 0;
     cachedP99 := 0;
     cachedP999 := 0;
     cacheValid := false |}.

(** [l[i] = x].  The index of the only caller is inside the slice; outside
    it (where Go panics) the list is returned as it is. *)
Fixpoint store (l : list Z) (i : nat) (x : Z) : list Z :=
  match l, i with
  | [], _ => []
  | _ :: rest, O => x :: rest
  | y :: rest, S i' => y :: store rest i' x
  end.

(** [func (t *TailDivergenceTracker) Record(latency time.Duration)]
    ([Record] is a keyword, hence the longer name). *)
Definition RecordLatency (latency : Z) (t : TailDivergenceTracker)
  : TailDivergenceTracker :=
  {| samples := store (samples t) (Z.to_nat (writeIndex t)) latency;
     maxSamples := maxSamples t;
     writeIndex := Z.rem (writeIndex t + 1) (maxSamples t);
     sampleCount := sampleCount t + 1;
     cachedP50 := cachedP50 t;
     cachedP99 := cachedP99 t;
     cachedP999 := cachedP999 t;
     cacheValid := false |}.

(** [func (t *TailDivergenceTracker) effectiveSampleCount() int] *)
Definition effectiveSampleCount (t : TailDivergenceTracker) : Z :=
  if sampleCount t <? maxSamples t then sampleCount t else maxSamples t.

(** [func (t *TailDivergenceTracker) percentile(p float64) time.Duration].
    [p] is the decimal that the source writes (0.50, 0.99, 0.999) and
    the index is the integer part of [(effectiveSamples - 1) * p]. *)
Definition percentile (p : Q) (t : TailDivergenceTracker) : Z :=
  let effectiveSamples := effectiveSampleCount t in
  if effectiveSamples =? 0 then 0
  else
    let sorted :=
      DurationSort.sort (firstn (Z.to_nat effectiveSamples) (samples t)) in
    let index := Qfloor (inject_Z (effectiveSamples - 1) * p) in
    let index := if index <? 0 then 0 else index in
    let index :=
      if index >=? effectiveSamples then effectiveSamples - 1 else index in
    nth (Z.to_nat index) sorted 0.

(** The index that [percentile] computes, after the two clamps. *)
Definition clampedIndex (k : Z) (p : Q) : Z :=
  let index := Qfloor (inject_Z (k - 1) * p) in
  let index := if index <? 0 then 0 else index in
  if index >=? k then k - 1 else index.

Definition P50 (t : TailDivergenceTracker) : Z := percentile (50 # 100) t.
Definition P99 (t : TailDivergenceTracker) : Z := percentile (99 # 100) t.
Definition P999 (t : TailDivergenceTracker) : Z := percentile (999 # 1000) t.

(** [func (t *TailDivergenceTracker) TailDivergenceRatio() float64] *)
Definition TailDivergenceRatio (t : TailDivergenceTracker) : Q :=
  let p50 := P50 t in
  let p99 := P99 t in
  if p50 =? 0 then 1%Q else (inject_Z p99 / inject_Z p50)%Q.




(** A tracker of capacity [capacity] after the calls [Record(x)] for the
    [x] of [latencies], in order. *)
Definition recorded (capacity : Z) (latencies : list Z)
  : TailDivergenceTracker :=
  fold_left (fun t x => RecordLatency x t) latencies
    (NewTailDivergenceTracker capacity).

(** What [NewTailDivergenceTracker] sets up and [Record] keeps: a buffer of
    [maxSamples] durations, none negative when no negative latency was
    recorded, and a write index inside it. *)
Definition wellFormed (t : TailDivergenceTracker) : Prop :=
  0 < maxSamples t /\
  length (samples t) = Z.to_nat (maxSamples t) /\
  0 <= writeIndex t < maxSamples t /\
  0 <= sampleCount t /\
  Forall (fun x => 0 <= x) (samples t).
End Tail.

(** ** The autoscaler policy *)

Module Autoscaler.
Local Open Scope float_scope.

(** [float64(n)] for an [int]: the nearest binary64 number. *)
Definition float64_of_int (n : Z) : float :=
  SF2Prim (binary_normalize prec emax n 0 false).

(** The integer part of a finite binary64 number [(-1)^s * m * 2^e],
    rounded down. *)
Definition floorZ (s : bool) (m : positive) (e : Z) : Z :=
  Z.shiftl (if s then Z.neg m else Z.pos m) e.

(** [math.Floor] and [math.Ceil]. *)
Definition Floor (x : float) : float :=
  match Prim2SF x with
  | S754_finite s m e =>
      if (e <? 0)%Z then float64_of_int (floorZ s m e) else x
  | _ => x
  end.

Definition Ceil (x : float) : float := - Floor (- x).

Definition minInt64 : Z := (- 2 ^ 63)%Z.
Definition maxInt64 : Z := (2 ^ 63 - 1)%Z.

(** [int(x)] for a [float64]: the fraction is discarded.  For a NaN, an
    infinity or a value outside [int64] Go leaves the result to the
    implementation; the value here is the one of amd64, [-2^63]. *)
Definition int_of_float64 (x : float) : Z :=
  match Prim2SF x with
  | S754_zero _ => 0%Z
  | S754_finite s m e =>
      let magnitude := Z.shiftl (Z.pos m) e in
      let v := if s then (- magnitude)%Z else magnitude in
      if ((minInt64 <=? v) && (v <=? maxInt64))%Z then v else minInt64
  | S754_infinity _ | S754_nan => minInt64
  end.

(** The zero value [""] of the string type [ScalingDecision] is
    [NoDecision]. *)
Inductive ScalingDecision :=
| NoDecision
| ScaleDown
| Maintain
| ScaleUp
| ShedLoad
| EmergencyStop.

Record AutoScalerMetrics := {
  R : float;
  CurrentN : Z;
  Alpha : float;
  Beta : float;
  Lambda : float;
  TargetR : float
}.

(** The [Reason] of a recommendation is one of seven fixed texts, or the
    empty string. *)
Inductive ReasonText :=
| NoReason
| EmergencyReason
| SaturationRetrogradeReason
| SaturationReason
| RetrogradeReason
| StressReason
| OptimalReason
| UnderutilizedReason.

Record ScalingRecommendation := {
  Decision : ScalingDecision;
  TargetN : Z;
  Reason : ReasonText;
  PeakN : float;
  InRetrograde : bool;
  CostSavings : float;
  RiskLevel : string
}.

(** [func ShouldScale(m AutoScalerMetrics) ScalingRecommendation] *)
Definition ShouldScale (m : AutoScalerMetrics) : ScalingRecommendation :=
  let peakN :=
    if 0 <? Beta m then sqrt ((1 - Alpha m) / Beta m) else infinity in
  let inRetrograde := peakN <=? float64_of_int (CurrentN m) in
  let targetR := if TargetR m =? 0 then 2 else TargetR m in
  let rec decision targetN reason savings risk :=
    {| Decision := decision; TargetN := targetN; Reason := reason;
       PeakN := peakN; InRetrograde := inRetrograde;
       CostSavings := savings; RiskLevel := risk |} in
  if 4 <=? R m
  then rec EmergencyStop (CurrentN m) EmergencyReason 0 "CRITICAL"%string
  else if 3 <=? R m
  then
    if inRetrograde
    then rec ShedLoad (int_of_float64 (Floor (peakN * 0.8)))
           SaturationRetrogradeReason 0 "HIGH"%string
    else rec ShedLoad (CurrentN m) SaturationReason 0 "HIGH"%string
  else if (2.5 <=? R m) && (R m <? 3)
  then
    if inRetrograde
    then rec ShedLoad (CurrentN m) RetrogradeReason 0 "MEDIUM"%string
    else
      let scaleFactor := R m / targetR in
      let targetN :=
        int_of_float64 (Ceil (float64_of_int (CurrentN m) * scaleFactor)) in
      let maxSafeN := int_of_float64 (Floor (peakN * 0.8)) in
      let targetN := if (targetN >? maxSafeN)%Z then maxSafeN else targetN in
      rec ScaleUp targetN StressReason 0 "MEDIUM"%string
  else if (1.5 <=? R m) && (R m <? 2.5)
  then rec Maintain (CurrentN m) OptimalReason 0 "LOW"%string
  else if R m <? 1.5
  then
    let scaleFactor := R m / targetR in
    let targetN :=
      int_of_float64 (Floor (float64_of_int (CurrentN m) * scaleFactor)) in
    let targetN := if (targetN <? 1)%Z then 1%Z else targetN in
    let nodeReduction := (CurrentN m - targetN)%Z in
    rec ScaleDown targetN UnderutilizedReason
      (float64_of_int nodeReduction / float64_of_int (CurrentN m) * 100)
      "LOW"%string
  else rec NoDecision 0%Z NoReason 0 EmptyString.

(** [func CalculatePeakCapacity(alpha, beta float64) float64] *)
Definition CalculatePeakCapacity (alpha beta : float) : float :=
  if beta <=? 0 then infinity
  else if 1 <=? alpha then 0
  else sqrt ((1 - alpha) / beta).

(** [func EstimateThroughput(N int, lambda, alpha, beta float64) float64] *)
Definition EstimateThroughput (N : Z) (lambda alpha beta : float) : float :=
  if (N <=? 0)%Z then 0
  else
    let numerator := lambda * float64_of_int N in
    let denominator :=
      1 + alpha * float64_of_int (N - 1) +
      beta * float64_of_int N * float64_of_int (N - 1) in
    numerator / denominator.

(** [func IsRetrograde(currentN int, alpha, beta float64) bool] *)
Definition IsRetrograde (currentN : Z) (alpha beta : float) : bool :=
  let peakN := CalculatePeakCapacity alpha beta in
  if peakN =? infinity then false
  else peakN <=? float64_of_int currentN.

(** [func KubernetesHPATarget(currentReplicas int, currentR, targetR, alpha,
    beta float64) int] *)
Definition KubernetesHPATarget (currentReplicas : Z)
    (currentR targetR alpha beta : float) : Z :=
  let metrics :=
    {| R := currentR; CurrentN := currentReplicas; Alpha := alpha;
       Beta := beta; Lambda := 0; TargetR := targetR |} in
  TargetN (ShouldScale metrics).

(** The system of the test "Billion Dollar Optimization": 50 nodes, r = 3.2,
    α = 0.3, β = 0.05; and the same system with a contention above 1. *)
Definition lockedDatabase : AutoScalerMetrics :=
  {| R := 3.2; CurrentN := 50; Alpha := 0.3; Beta := 0.05;
     Lambda := 1000; TargetR := 2 |}.

Definition deadlocked : AutoScalerMetrics :=
  {| R := 3.2; CurrentN := 50; Alpha := 1.5; Beta := 0.05;
     Lambda := 1000; TargetR := 2 |}.
End Autoscaler.

(** ** The r-dynamics beyond one pulse *)

Module Dynamics.
Import Runtime.
Local Open Scope Q_scope.

(** The errors of [PerpetualStructuralIntegrity]; [None] is the [nil]
    error. *)
Inductive DNAError :=
| CouplingTooLow
| CouplingUnstable
| ScalingViolation.



Record REvent := {
  EventType : string;
  EventScalingRatio : Q;
  EventMetrics : SystemIntegrityMetrics;
  Description : string
}.

Record RTrajectory := {
  Events : list REvent;
  R : list Q
}.

(** One iteration of the loop of [SimulateRTrajectory]: the [switch] on
    the type of the event, which leaves the dynamics alone for a type it
    does not know. *)
Definition applyEvent (rd : RDynamics) (event : REvent) : RDynamics :=
  if String.eqb (EventType event) "scaling"
  then fst (ApplyFeigenbaumGovernance (EventScalingRatio event) rd)
  else if String.eqb (EventType event) "recovery"
  then fst (ApplyRecovery (EventMetrics event) rd)
  else if String.eqb (EventType event) "violation"
  then
    let violationPenalty :=
      inject_Z (MutableSharedState (EventMetrics event)) /
      inject_Z (max (ImmutableOpsVerified (EventMetrics event)) 1) in
    let r := CurrentR rd + violationPenalty in
    {| InitialR := InitialR rd;
       CurrentR := r;
       TargetR := TargetR rd;
       History := History rd;
       RecoveryEvents := RecoveryEvents rd;
       InSaturationZone := Qgeb r (MaxR StableDNAConstraint) |}
  else rd.

(** The loop: the dynamics after the events, and the values of r appended
    to the trajectory, one per event. *)
Fixpoint simulate (rd : RDynamics) (events : list REvent)
  : RDynamics * list Q :=
  match events with
  | [] => (rd, [])
  | event :: rest =>
      let rd := applyEvent rd event in
      let (rd', rs) := simulate rd rest in
      (rd', CurrentR rd :: rs)
  end.

(** [func SimulateRTrajectory(initialR float64, events []REvent)
    RTrajectory] *)
Definition SimulateRTrajectory (initialR : Q) (events : list REvent)
  : RTrajectory :=
  let rd := NewRDynamics initialR in
  {| Events := events; R := initialR :: snd (simulate rd events) |}.

(** The depth above 3.0 that one pulse leaves, for a depth [d] and a
    correction factor [f], before the boundary nudge:
    [d - min (d * f * 0.5) (1/δ)]; and the same after [n] pulses. *)
Definition depthAfterPulse (f d : Q) : Q :=
  d - Qmin (d * f * (5 # 10)) CriticalityScalingRatio.

Fixpoint depthAfterPulses (n : nat) (f d : Q) : Q :=
  match n with
  | O => d
  | S n' => depthAfterPulses n' f (depthAfterPulse f d)
  end.

(** The same depth, with the fraction reduced after every pulse. *)
Fixpoint depthAfterPulsesRed (n : nat) (f d : Q) : Q :=
  match n with
  | O => d
  | S n' => depthAfterPulsesRed n' f (Qred (depthAfterPulse f d))
  end.

(** The correction factor of a pulse, [1 / (1 + isolationRatio)]. *)
Definition correctionFactor (metrics : SystemIntegrityMetrics) : Q :=
  1 / (1 + inject_Z (MutableSharedState metrics) /
           inject_Z (max (ImmutableOpsVerified metrics) 1)).

(** Metrics with [mutable] violations over 100 verified operations. *)
Definition violations_of (mutable : Z) : SystemIntegrityMetrics :=
  withMutableSharedState mutable healthyMetrics.

(** Events of a simulation. *)
Definition scalingEvent (ratio : Q) : REvent :=
  {| EventType := "scaling"; EventScalingRatio := ratio;
     EventMetrics := zeroMetrics; Description := EmptyString |}.

Definition recoveryEvent (metrics : SystemIntegrityMetrics) : REvent :=
  {| EventType := "recovery"; EventScalingRatio := 0;
     EventMetrics := metrics; Description := EmptyString |}.

Definition violationEvent (metrics : SystemIntegrityMetrics) : REvent :=
  {| EventType := "violation"; EventScalingRatio := 0;
     EventMetrics := metrics; Description := EmptyString |}.
End Dynamics.

(** ** [int64] arithmetic *)

Module Int64.
Local Open Scope Z_scope.

(** The [int64] that holds the low 64 bits of an integer: what an
    addition or a subtraction of [int64] leaves when the exact result is
    out of range. *)
Definition wrap (z : Z) : Z := (z + 2 ^ 63) mod 2 ^ 64 - 2 ^ 63.

Definition add (a b : Z) : Z := wrap (a + b).

Definition sub (a b : Z) : Z := wrap (a - b).

Definition maxInt64 : Z := 2 ^ 63 - 1.
End Int64.

(** ** The window of the tail tracker *)

Module TailWindow.
Import Tail.
Local Open Scope Z_scope.

(** [func (t *TailDivergenceTracker) Mean() time.Duration]; the sum is an
    [int64], which wraps around, and the division of [int64] truncates. *)
Definition Mean (t : TailDivergenceTracker) : Z :=
  if sampleCount t =? 0 then 0
  else
    let effectiveSamples := effectiveSampleCount t in
    let sum :=
      fold_left Int64.add
        (firstn (Z.to_nat effectiveSamples) (samples t)) 0 in
    Z.quot sum effectiveSamples.

(** The size of the buffer that [NewTailDivergenceTracker] allocates. *)
Definition capacityOf (maxSamples : Z) : Z :=
  if maxSamples <=? 0 then 1000 else maxSamples.

(** The last [size] latencies of a run, all of them when there are
    fewer. *)
Definition window (size : Z) (latencies : list Z) : list Z :=
  skipn (length latencies - Z.to_nat size) latencies.

(** The percentile of a list of latencies, with the index of
    [percentile]. *)
Definition percentileOf (p : Q) (w : list Z) : Z :=
  match w with
  | [] => 0
  | _ =>
      nth (Z.to_nat (clampedIndex (Z.of_nat (length w)) p))
          (DurationSort.sort w) 0
  end.

(** The mean of a list of latencies, with the truncating division of
    [Mean]. *)
Definition meanOf (w : list Z) : Z :=
  match w with
  | [] => 0
  | _ => Z.quot (fold_left Z.add w 0) (Z.of_nat (length w))
  end.

(** The buffer read from the write index on, around the end. *)
Definition unrolled (t : TailDivergenceTracker) : list Z :=
  skipn (Z.to_nat (writeIndex t)) (samples t) ++
  firstn (Z.to_nat (writeIndex t)) (samples t).
End TailWindow.

(** ** Runs of the governor *)

Module GovRuns.
Import Runtime Gov.
Local Open Scope Z_scope.

Definition ActionType_eqb (s t : ActionType) : bool :=
  match s, t with
  | ActionStable, ActionStable
  | ActionWarning, ActionWarning
  | ActionPacing, ActionPacing
  | ActionThrottle, ActionThrottle
  | ActionBlockDeploy, ActionBlockDeploy
  | ActionRestart, ActionRestart => true
  | _, _ => false
  end.

(** The number of actions of one type among the actions of a run. *)
Definition tally (t : ActionType) (acts : list Action) : Z :=
  Z.of_nat (length (filter (fun a => ActionType_eqb (ActType a) t) acts)).


End GovRuns.

(** ** The HTTP middleware of the example server *)

Module Middleware.
Import Runtime Gov.
Local Open Scope Q_scope.

(** The logger is left out: it writes and is never read.  [lastAction] is
    [None] for the zero value of [Action]. *)
Record LawBenchMiddleware := {
  governor : Governor;
  requestCount : Z;
  errorCount : Z;
  totalLatencyMs : Z;
  currentR : Q;
  lastAction : option Action
}.

(** [func NewLawBenchMiddleware(logger *slog.Logger) *LawBenchMiddleware];
    [now] is the clock reading of [NewGovernor]. *)
Definition NewLawBenchMiddleware (now : Z) : LawBenchMiddleware :=
  {| governor := NewGovernor now (15 # 10);
     requestCount := 0;
     errorCount := 0;
     totalLatencyMs := 0;
     currentR := 15 # 10;
     lastAction := None |}.

(** What the handler answers: the 503 of the middleware, or whatever the
    wrapped handler writes. *)
Inductive Response :=
| ServiceUnavailable
| Passed.

(** The metrics that the handler builds from the estimate of r. *)
Definition estimateMetrics (estimatedR : Q) : SystemIntegrityMetrics :=
  {| ImmutableOpsVerified := 0;
     MutableSharedState := 0;
     IsolationScore := 0;
     SupervisedProcesses := 0;
     UnsupervisedProcesses := 0;
     MeanTimeToRestart := 0;
     CriticalCoreLOC := 0;
     ExtensibleLOC := 0;
     ScalingRatio := 0;
     FeigenbaumCompliance := false;
     DeltaCriticalCore := 0;
     DeltaComplexity := 0;
     EstimatedCoupling := estimatedR;
     InstabilityBoundaryDistance := 3 - estimatedR;
     StableEquilibrium := Qltb estimatedR 3 |}.

(** The estimate of r at the start of a request. *)
Definition estimateR (m : LawBenchMiddleware) : Q :=
  let avgLatency :=
    if (requestCount m >? 0)%Z
    then inject_Z (totalLatencyMs m) / inject_Z (requestCount m)
    else 0 in
  let errorRate :=
    if (requestCount m >? 0)%Z
    then inject_Z (errorCount m) / inject_Z (requestCount m)
    else 0 in
  (15 # 10) + (avgLatency / 100) + (errorRate * 2).

(** The handler that [Wrap] returns, for one request: [now] is the clock
    reading of the evaluation, [elapsedMs] the milliseconds that
    [time.Since(start)] reports once the wrapped handler has returned. *)
Definition handle (now elapsedMs : Z) (m : LawBenchMiddleware)
  : LawBenchMiddleware * Response :=
  let estimatedR := estimateR m in
  let metrics := estimateMetrics estimatedR in
  let (g, action) := CheckStructuralIntegrity now metrics (governor m) in
  let requestCount := (requestCount m + 1)%Z in
  match ActType action with
  | ActionThrottle =>
      ({| governor := g;
          requestCount := requestCount;
          errorCount := (errorCount m + 1)%Z;
          totalLatencyMs := totalLatencyMs m;
          currentR := estimatedR;
          lastAction := Some action |},
       ServiceUnavailable)
  | _ =>
      ({| governor := g;
          requestCount := requestCount;
          errorCount := errorCount m;
          totalLatencyMs := (totalLatencyMs m + elapsedMs)%Z;
          currentR := estimatedR;
          lastAction := Some action |},
       Passed)
  end.

Inductive Status :=
| STABLE
| WARNING
| SATURATED.

(** The ["status"] of [GetStatus]. *)
Definition statusOf (m : LawBenchMiddleware) : Status :=
  if Qgeb (currentR m) 3 then SATURATED
  else if Qgeb (currentR m) (28 # 10) then WARNING
  else STABLE.

(** A run of requests, one after the other: the middleware after the last
    one and the responses, in order. *)
Fixpoint serve (requests : list (Z * Z)) (m : LawBenchMiddleware)
  : LawBenchMiddleware * list Response :=
  match requests with
  | [] => (m, [])
  | (now, elapsedMs) :: rest =>
      let (m1, response) := handle now elapsedMs m in
      let (m2, responses) := serve rest m1 in
      (m2, response :: responses)
  end.

(** The invariant of the runs of a new middleware. *)
Definition neverShed (m : LawBenchMiddleware) : Prop :=
  standardThresholds (governor m) /\
  inThrottleMode (governor m) = false /\
  errorCount m = 0%Z.
End Middleware.

(** ** The registry of verified types *)

Module Registry.
Local Open Scope string_scope.

Record LawVerified := {
  TypeName : string;
  Laws : list string;
  TestedAt : Z;
  TestPackage : string;
  Properties : list (string * string)
}.

(** The map [verified map[string]LawVerified], as the list of its
    entries, one per key. *)
Record RuntimeLawChecker := {
  verified : list (string * LawVerified)
}.

(** [func NewRuntimeLawChecker() *RuntimeLawChecker] *)
Definition NewRuntimeLawChecker : RuntimeLawChecker :=
  {| verified := [] |}.

(** [r.verified[typeName]], with the [ok] of the lookup. *)
Fixpoint lookup (typeName : string) (entries : list (string * LawVerified))
  : option LawVerified :=
  match entries with
  | [] => None
  | (k, v) :: rest => if String.eqb k typeName then Some v
                      else lookup typeName rest
  end.

(** [r.verified[v.TypeName] = v] *)
Definition assign (v : LawVerified) (entries : list (string * LawVerified))
  : list (string * LawVerified) :=
  (TypeName v, v) ::
  filter (fun e => negb (String.eqb (fst e) (TypeName v))) entries.

(** [func (r *RuntimeLawChecker) Register(v LawVerified)] *)
Definition Register (v : LawVerified) (r : RuntimeLawChecker)
  : RuntimeLawChecker :=
  {| verified := assign v (verified r) |}.

(** [func (r *RuntimeLawChecker) IsVerified(typeName string)
    (LawVerified, bool)] *)
Definition IsVerified (typeName : string) (r : RuntimeLawChecker)
  : option LawVerified :=
  lookup typeName (verified r).

(** What reflection reads of a value [v interface{}]: the name of its
    type, [None] for the nil interface, and the first field of type
    [LawVerified] when the value is a struct or points to one, with the
    mark it holds and whether the field is exported. *)
Inductive Embedded :=
| NoMark
| ExportedMark (lv : LawVerified)
| UnexportedMark (lv : LawVerified).

Record Value := {
  typeOf : option string;
  embedded : Embedded
}.

(** The outcome of a call: the value returned, or a panic. *)
Inductive Outcome (A : Type) :=
| Returns (a : A)
| Panics.

Arguments Returns {A} a.
Arguments Panics {A}.

(** [func (r *RuntimeLawChecker) extractEmbedded(v interface{})
    *LawVerified]: [val.Field(i).Interface()] panics on a field that is
    not exported. *)
Definition extractEmbedded (v : Value) : Outcome (option LawVerified) :=
  match embedded v with
  | NoMark => Returns None
  | ExportedMark lv => Returns (Some lv)
  | UnexportedMark _ => Panics
  end.

(** [func contains(slice []string, s string) bool] *)
Fixpoint contains (slice : list string) (s : string) : bool :=
  match slice with
  | [] => false
  | item :: rest => if String.eqb item s then true else contains rest s
  end.

(** The three errors of [CheckType]. *)
Inductive CheckError :=
| NilValue
| NotInRegistry (typeName : string)
| MissingLaw (typeName : string) (required : string).

(** The loop over the required laws: the first one that is missing. *)
Fixpoint firstMissing (laws requiredLaws : list string) : option string :=
  match requiredLaws with
  | [] => None
  | required :: rest =>
      if negb (contains laws required) then Some required
      else firstMissing laws rest
  end.

(** The loop of [CheckType] over the required laws, for the mark
    found. *)
Definition checkLaws (typeName : string) (verified : LawVerified)
    (requiredLaws : list string) : option CheckError :=
  match firstMissing (Laws verified) requiredLaws with
  | Some required => Some (MissingLaw typeName required)
  | None => None
  end.

(** [func (r *RuntimeLawChecker) CheckType(v interface{},
    requiredLaws []string) error] *)
Definition CheckType (v : Value) (requiredLaws : list string)
    (r : RuntimeLawChecker) : Outcome (option CheckError) :=
  match typeOf v with
  | None => Returns (Some NilValue)
  | Some typeName =>
      match lookup typeName (verified r) with
      | Some verified => Returns (checkLaws typeName verified requiredLaws)
      | None =>
          match extractEmbedded v with
          | Panics => Panics
          | Returns None => Returns (Some (NotInRegistry typeName))
          | Returns (Some verified) =>
              Returns (checkLaws typeName verified requiredLaws)
          end
      end
  end.

(** [func (r *RuntimeLawChecker) ValidateBoundary(v interface{},
    requiredLaws []string) error] *)
Definition ValidateBoundary (v : Value) (requiredLaws : list string)
    (r : RuntimeLawChecker) : Outcome (option CheckError) :=
  CheckType v requiredLaws r.

(** A registry after the calls [Register(v)] for the [v] of [entries], in
    order. *)
Definition registered (entries : list LawVerified) : RuntimeLawChecker :=
  fold_left (fun r v => Register v r) entries NewRuntimeLawChecker.

(** A mark for a type, with its laws. *)
Definition mark (typeName : string) (laws : list string) : LawVerified :=
  {| TypeName := typeName; Laws := laws; TestedAt := 0;
     TestPackage := EmptyString; Properties := [] |}.
End Registry.

(** ** The statistics of one benchmark result *)

Module Bench.
Import USL Autoscaler.
Local Open Scope Z_scope.

Record Statistics := {
  Mean : Z;
  Stddev : Z;
  P50 : Z;
  P95 : Z;
  P99 : Z
}.

(** [func CalculateStatistics(result Result) Statistics].  The sum of
    the latencies and the difference of a latency and the mean are
    [time.Duration], an [int64] that wraps around; the mean is the
    truncating division; the deviation goes through [float64] and
    back. *)
Definition CalculateStatistics (result : Result) : Statistics :=
  match Latencies result with
  | [] => {| Mean := 0; Stddev := 0; P50 := 0; P95 := 0; P99 := 0 |}
  | _ =>
      let sorted := DurationSort.sort (Latencies result) in
      let len := Z.of_nat (length sorted) in
      let sum := fold_left Int64.add sorted 0 in
      let mean := Z.quot sum len in
      let variance :=
        fold_left
          (fun variance lat =>
             let diff := float64_of_int (Int64.sub lat mean) in
             (variance + diff * diff)%float)
          sorted 0%float in
      let stddev :=
        int_of_float64 (sqrt (variance / float64_of_int len)) in
      let p50 := nth (Z.to_nat (len * 50 / 100)) sorted 0 in
      let p95 := nth (Z.to_nat (len * 95 / 100)) sorted 0 in
      let p99 := nth (Z.to_nat (len * 99 / 100)) sorted 0 in
      {| Mean := mean; Stddev := stddev; P50 := p50; P95 := p95;
         P99 := p99 |}
  end.

(** A result with the latencies [latencies]. *)
Definition measured (latencies : list Z) : Result :=
  {| N := 1; Duration := 0; Operations := Z.of_nat (length latencies);
     Throughput := 0; Latencies := latencies; Errors := 0 |}.
End Bench.

(** ** Binary64: [math.Min], [math.Abs] and the sign bit *)

Module Float64.
Local Open Scope float_scope.

(** [math.Signbit] *)
Definition Signbit (x : float) : bool :=
  match Prim2SF x with
  | S754_zero s | S754_infinity s | S754_finite s _ _ => s
  | S754_nan => false
  end.

(** [math.Abs] *)
Definition Abs (x : float) : float := abs x.

(** [math.Min], with its special cases: a negative infinity wins, then a
    NaN, and of two zeros the negative one. *)
Definition Min (x y : float) : float :=
  if (x =? neg_infinity) || (y =? neg_infinity) then neg_infinity
  else if is_nan x || is_nan y then nan
  else if (x =? 0) && (x =? y) then (if Signbit x then x else y)
  else if x <? y then x else y.

(** The sign of a binary64 number: [notNegative] holds of a NaN and of
    every number with the sign bit clear; [notPositive] of a NaN, of both
    zeros and of every number with the sign bit set. *)
Definition notNegative (x : spec_float) : Prop :=
  match x with
  | S754_nan => True
  | S754_zero s | S754_infinity s | S754_finite s _ _ => s = false
  end.

Definition notPositive (x : spec_float) : Prop :=
  match x with
  | S754_zero _ | S754_nan => True
  | S754_infinity s | S754_finite s _ _ => s = true
  end.

Definition strictlyNegative (x : spec_float) : Prop :=
  match x with
  | S754_infinity s | S754_finite s _ _ => s = true
  | _ => False
  end.

Definition strictlyPositive (x : spec_float) : Prop :=
  match x with
  | S754_infinity s | S754_finite s _ _ => s = false
  | _ => False
  end.

(** A zero or a finite number with the sign bit clear. *)
Definition finiteNotNegative (x : spec_float) : Prop :=
  match x with
  | S754_zero s | S754_finite s _ _ => s = false
  | _ => False
  end.
End Float64.

(** ** The r-model in binary64 *)

Module Runtime64.
Import Float64.
Local Open Scope float_scope.

(** [const FeigenbaumDelta = 4.6692]: where the constant is used as a
    [float64] it is the binary64 number nearest to the decimal. *)
Definition FeigenbaumDelta : float := 4.6692.

(** [const CriticalityScalingRatio = 1.0 / FeigenbaumDelta]: Go evaluates
    a constant expression exactly, here to 10000/46692, and rounds it once
    where it is used as a [float64].  The two integers below are binary64
    numbers, so the one rounding of their quotient is that rounding. *)
Definition CriticalityScalingRatio : float := 10000 / 46692.

Record SystemDNAConstraint := {
  MinR : float;
  MaxR : float
}.

Definition StableDNAConstraint : SystemDNAConstraint :=
  {| MinR := 1; MaxR := 3 |}.

Record SystemIntegrityMetrics := {
  ImmutableOpsVerified : Z;
  MutableSharedState : Z;
  IsolationScore : float;
  SupervisedProcesses : Z;
  UnsupervisedProcesses : Z;
  MeanTimeToRestart : float;
  CriticalCoreLOC : Z;
  ExtensibleLOC : Z;
  ScalingRatio : float;
  FeigenbaumCompliance : bool;
  DeltaCriticalCore : float;
  DeltaComplexity : float;
  EstimatedCoupling : float;
  InstabilityBoundaryDistance : float;
  StableEquilibrium : bool
}.

(** [func max(a, b int) int] *)
Definition max (a b : Z) : Z := if (a >? b)%Z then a else b.

(** [float64(n)] for an [int]. *)
Definition float64_of_int (n : Z) : float := Autoscaler.float64_of_int n.

(** [func CalculateSystemDNA(metrics SystemIntegrityMetrics) float64]:
    every quotient and every sum is rounded, the sum from left to
    right. *)
Definition CalculateSystemDNA (metrics : SystemIntegrityMetrics) : float :=
  let isolationPenalty :=
    float64_of_int (MutableSharedState metrics) /
    float64_of_int (max (ImmutableOpsVerified metrics) 1) in
  let supervisionPenalty :=
    float64_of_int (UnsupervisedProcesses metrics) /
    float64_of_int (max (SupervisedProcesses metrics) 1) in
  let scalingPenalty := ScalingRatio metrics / CriticalityScalingRatio in
  let r := 1 + isolationPenalty + supervisionPenalty + scalingPenalty in
  r.

(** The errors of [ValidateSystemDNA]; [None] is the [nil] error. *)
Inductive DNAError :=
| CouplingTooLow
| CouplingUnstable.

(** [func ValidateSystemDNA(metrics SystemIntegrityMetrics) error] *)
Definition ValidateSystemDNA (metrics : SystemIntegrityMetrics)
  : option DNAError :=
  let r := CalculateSystemDNA metrics in
  if r <? MinR StableDNAConstraint then Some CouplingTooLow
  else if MaxR StableDNAConstraint <=? r then Some CouplingUnstable
  else None.

Record RDynamics := {
  InitialR : float;
  CurrentR : float;
  TargetR : float;
  History : list float;
  RecoveryEvents : Z;
  InSaturationZone : bool
}.

(** [func NewRDynamics(initialR float64) RDynamics] *)
Definition NewRDynamics (initialR : float) : RDynamics :=
  let inInstability := MaxR StableDNAConstraint <=? initialR in
  {| InitialR := initialR;
     CurrentR := initialR;
     TargetR := MaxR StableDNAConstraint * 0.8;
     History := [initialR];
     RecoveryEvents := 0;
     InSaturationZone := inInstability |}.

(** The pulse of one recovery step, [correctionPulse] in the source. *)
Definition correctionPulse (metrics : SystemIntegrityMetrics)
    (rd : RDynamics) : float :=
  let isolationRatio :=
    float64_of_int (MutableSharedState metrics) /
    float64_of_int (max (ImmutableOpsVerified metrics) 1) in
  let instabilityDepth := CurrentR rd - MaxR StableDNAConstraint in
  let correctionFactor := 1 / (1 + isolationRatio) in
  let maxSafePulse := CriticalityScalingRatio in
  let desiredPulse := instabilityDepth * correctionFactor * 0.5 in
  Min desiredPulse maxSafePulse.

(** The two adjustments of the new r: the nudge under the boundary and
    the lower bound. *)
Definition settle (newR : float) : float :=
  let newR :=
    if Abs (newR - MaxR StableDNAConstraint) <? 0.0001
    then MaxR StableDNAConstraint * 0.999
    else newR in
  if newR <? MinR StableDNAConstraint then MinR StableDNAConstraint
  else newR.

(** [func (rd *RDynamics) ApplyRecovery(metrics) float64]: the receiver
    after the call, and the value returned. *)
Definition ApplyRecovery (metrics : SystemIntegrityMetrics) (rd : RDynamics)
  : RDynamics * float :=
  if negb (InSaturationZone rd) then (rd, CurrentR rd)
  else
    let correctionPulse := correctionPulse metrics rd in
    let newR := CurrentR rd - correctionPulse in
    let newR := settle newR in
    ({| InitialR := InitialR rd;
        CurrentR := newR;
        TargetR := TargetR rd;
        History := History rd ++ [newR];
        RecoveryEvents := (RecoveryEvents rd + 1)%Z;
        InSaturationZone := MaxR StableDNAConstraint <=? newR |},
     newR).

(** The metrics of a healthy service (100 verified operations, 50
    supervised processes, no violation), with the four counts of the
    r-model and the two deltas of a deployment left open. *)
Definition service (immutable mutable supervised unsupervised : Z)
    (dCore dComplexity : float) : SystemIntegrityMetrics :=
  {| ImmutableOpsVerified := immutable;
     MutableSharedState := mutable;
     IsolationScore := 1;
     SupervisedProcesses := supervised;
     UnsupervisedProcesses := unsupervised;
     MeanTimeToRestart := 0;
     CriticalCoreLOC := 0;
     ExtensibleLOC := 0;
     ScalingRatio := 0;
     FeigenbaumCompliance := true;
     DeltaCriticalCore := dCore;
     DeltaComplexity := dComplexity;
     EstimatedCoupling := 0;
     InstabilityBoundaryDistance := 0;
     StableEquilibrium := true |}.

Definition healthyMetrics : SystemIntegrityMetrics :=
  service 100 0 50 0 0 0.

(** [mutable] violations over 100 verified operations. *)
Definition violations (mutable : Z) : SystemIntegrityMetrics :=
  service 100 mutable 50 0 0 0.

(** A deployment that adds complexity [dComplexity] over a change [dCore]
    of the critical core, on a healthy service. *)
Definition deployment (dCore dComplexity : float) : SystemIntegrityMetrics :=
  service 100 0 50 0 dCore dComplexity.


End Runtime64.

(** ** The governor in binary64 *)

Module Gov64.
Import Runtime64.
Local Open Scope float_scope.

Record Governor := {
  rdynamics : RDynamics;
  lastCheck : Z;
  checkInterval : Z;
  warningThreshold : float;
  dangerThreshold : float;
  saturationThreshold : float;
  inThrottleMode : bool;
  throttleEnteredAt : Z;
  throttleMinDuration : Z;
  throttleExitThreshold : float;
  warnings : Z;
  throttleEvents : Z;
  deployBlocked : Z
}.

(** The field [Type] of the source is [ActType]; the action types and the
    texts are those of [Gov]. *)
Record Action := {
  ActType : Gov.ActionType;
  Reason : Gov.ReasonText;
  Metrics : SystemIntegrityMetrics;
  Timestamp : Z
}.

(** [func NewGovernor(initialR float64) *Governor]; [now] is the clock
    reading that the constructor stores in [lastCheck]. *)
Definition NewGovernor (now : Z) (initialR : float) : Governor :=
  {| rdynamics :=
       {| InitialR := initialR;
          CurrentR := initialR;
          TargetR := 2.4;
          History := [initialR];
          RecoveryEvents := 0;
          InSaturationZone := 3 <=? initialR |};
     lastCheck := now;
     checkInterval := Gov.Second;
     warningThreshold := 2.8;
     dangerThreshold := 2.9;
     saturationThreshold := 3;
     inThrottleMode := false;
     throttleEnteredAt := 0;
     throttleMinDuration := (60 * Gov.Second)%Z;
     throttleExitThreshold := 2;
     warnings := 0;
     throttleEvents := 0;
     deployBlocked := 0 |}.

(** Field updates of the receiver, as the assignments of the code. *)
Definition setThrottle (mode : bool) (enteredAt : Z) (events : Z)
    (g : Governor) : Governor :=
  {| rdynamics := rdynamics g;
     lastCheck := lastCheck g;
     checkInterval := checkInterval g;
     warningThreshold := warningThreshold g;
     dangerThreshold := dangerThreshold g;
     saturationThreshold := saturationThreshold g;
     inThrottleMode := mode;
     throttleEnteredAt := enteredAt;
     throttleMinDuration := throttleMinDuration g;
     throttleExitThreshold := throttleExitThreshold g;
     warnings := warnings g;
     throttleEvents := events;
     deployBlocked := deployBlocked g |}.

Definition setWarnings (n : Z) (g : Governor) : Governor :=
  {| rdynamics := rdynamics g;
     lastCheck := lastCheck g;
     checkInterval := checkInterval g;
     warningThreshold := warningThreshold g;
     dangerThreshold := dangerThreshold g;
     saturationThreshold := saturationThreshold g;
     inThrottleMode := inThrottleMode g;
     throttleEnteredAt := throttleEnteredAt g;
     throttleMinDuration := throttleMinDuration g;
     throttleExitThreshold := throttleExitThreshold g;
     warnings := n;
     throttleEvents := throttleEvents g;
     deployBlocked := deployBlocked g |}.

Definition setDeployBlocked (n : Z) (g : Governor) : Governor :=
  {| rdynamics := rdynamics g;
     lastCheck := lastCheck g;
     checkInterval := checkInterval g;
     warningThreshold := warningThreshold g;
     dangerThreshold := dangerThreshold g;
     saturationThreshold := saturationThreshold g;
     inThrottleMode := inThrottleMode g;
     throttleEnteredAt := throttleEnteredAt g;
     throttleMinDuration := throttleMinDuration g;
     throttleExitThreshold := throttleExitThreshold g;
     warnings := warnings g;
     throttleEvents := throttleEvents g;
     deployBlocked := n |}.

Definition mkAction (t : Gov.ActionType) (why : Gov.ReasonText)
    (metrics : SystemIntegrityMetrics) (now : Z) : Action :=
  {| ActType := t; Reason := why; Metrics := metrics; Timestamp := now |}.

(** The first statements of [CheckStructuralIntegrity]: r is stored,
    appended to the history, and the clock reading replaces
    [lastCheck]. *)
Definition recordR (now : Z) (currentR : float) (g : Governor) : Governor :=
  let rd := rdynamics g in
  {| rdynamics :=
       {| InitialR := InitialR rd;
          CurrentR := currentR;
          TargetR := TargetR rd;
          History := History rd ++ [currentR];
          RecoveryEvents := RecoveryEvents rd;
          InSaturationZone := saturationThreshold g <=? currentR |};
     lastCheck := now;
     checkInterval := checkInterval g;
     warningThreshold := warningThreshold g;
     dangerThreshold := dangerThreshold g;
     saturationThreshold := saturationThreshold g;
     inThrottleMode := inThrottleMode g;
     throttleEnteredAt := throttleEnteredAt g;
     throttleMinDuration := throttleMinDuration g;
     throttleExitThreshold := throttleExitThreshold g;
     warnings := warnings g;
     throttleEvents := throttleEvents g;
     deployBlocked := deployBlocked g |}.

(** Phase I of [CheckStructuralIntegrity], the deployment constraint:
    [Some why] when the evaluation returns [ActionBlockDeploy] there.
    [a > b] of the source is [b <? a], [a == b] is [a =? b]. *)
Definition deployGate (metrics : SystemIntegrityMetrics)
  : option Gov.ReasonText :=
  if (0 <? DeltaCriticalCore metrics) || (0 <? DeltaComplexity metrics)
  then
    if (DeltaCriticalCore metrics =? 0) && (0 <? DeltaComplexity metrics)
    then Some Gov.PureTechnicalDebt
    else
      let growthRatio := DeltaComplexity metrics / DeltaCriticalCore metrics in
      let maxRatio := FeigenbaumDelta in
      if maxRatio <? growthRatio then Some Gov.GrowthRatioExceeded else None
  else None.

(** Phase II below the saturation branch: the danger, warning and stable
    zones. *)
Definition zoneAction (now : Z) (metrics : SystemIntegrityMetrics)
    (currentR : float) (g : Governor) : Governor * Action :=
  if dangerThreshold g <=? currentR
  then (g, mkAction Gov.ActionPacing Gov.DangerZone metrics now)
  else if warningThreshold g <=? currentR
  then (setWarnings (warnings g + 1)%Z g,
        mkAction Gov.ActionWarning Gov.WarningZone metrics now)
  else (g, mkAction Gov.ActionStable Gov.StableZone metrics now).

(** The end of the saturation branch: throttle mode is entered when it is
    not set, and [ActionThrottle] is returned. *)
Definition enterThrottle (now : Z) (metrics : SystemIntegrityMetrics)
    (g : Governor) : Governor * Action :=
  let g :=
    if negb (inThrottleMode g)
    then setThrottle true now (throttleEvents g + 1)%Z g
    else g in
  (g, mkAction Gov.ActionThrottle Gov.SaturationDetected metrics now).

(** [func (g *Governor) CheckStructuralIntegrity(metrics) Action]: the
    governor after the call, and the action returned. *)
Definition CheckStructuralIntegrity (now : Z)
    (metrics : SystemIntegrityMetrics) (g : Governor) : Governor * Action :=
  let currentR := CalculateSystemDNA metrics in
  let g := recordR now currentR g in
  match deployGate metrics with
  | Some why =>
      (setDeployBlocked (deployBlocked g + 1)%Z g,
       mkAction Gov.ActionBlockDeploy why metrics now)
  | None =>
      if (saturationThreshold g <=? currentR) || inThrottleMode g
      then
        if inThrottleMode g
        then
          let timeSinceThrottle := (now - throttleEnteredAt g)%Z in
          if (timeSinceThrottle >=? throttleMinDuration g)%Z
             && (currentR <? throttleExitThreshold g)
          then
            let g := setThrottle false (throttleEnteredAt g)
                       (throttleEvents g) g in
            enterThrottle now metrics g
          else (g, mkAction Gov.ActionThrottle Gov.ThrottleHysteresis
                     metrics now)
        else enterThrottle now metrics g
      else zoneAction now metrics currentR g
  end.

(** The thresholds that [NewGovernor] sets; no method assigns them. *)
Definition standardThresholds (g : Governor) : Prop :=
  warningThreshold g = 2.8 /\
  dangerThreshold g = 2.9 /\
  saturationThreshold g = 3 /\
  throttleMinDuration g = (60 * Gov.Second)%Z /\
  throttleExitThreshold g = 2.
End Gov64.

(** ** The criticality scaling constraint *)

Module Criticality.
Import Runtime64.
Local Open Scope float_scope.

Record CriticalityScalingConstraint := {
  DeltaCriticalCore : float;
  DeltaComplexity : float;
  MaxRatio : float;
  CurrentCouplingR : float;
  TargetCouplingR : float
}.

(** [func NewCriticalityConstraint(deltaCritical, deltaComplex float64)
    CriticalityScalingConstraint] *)
Definition NewCriticalityConstraint (deltaCritical deltaComplex : float)
  : CriticalityScalingConstraint :=
  {| DeltaCriticalCore := deltaCritical;
     DeltaComplexity := deltaComplex;
     MaxRatio := CriticalityScalingRatio;
     CurrentCouplingR := 0;
     TargetCouplingR := MaxR StableDNAConstraint |}.

(** The errors of [Validate]; [None] is the [nil] error. *)
Inductive ValidateError :=
| ZeroCriticalCore
| CriticalityScalingViolation.

(** [func (c CriticalityScalingConstraint) Validate() error] *)
Definition Validate (c : CriticalityScalingConstraint)
  : option ValidateError :=
  if DeltaCriticalCore c =? 0 then Some ZeroCriticalCore
  else
    let ratio := DeltaComplexity c / DeltaCriticalCore c in
    if MaxRatio c <? ratio then Some CriticalityScalingViolation
    else None.

(** [func (c CriticalityScalingConstraint) Headroom() float64] *)
Definition Headroom (c : CriticalityScalingConstraint) : float :=
  let maxAllowed := DeltaCriticalCore c * MaxRatio c in
  maxAllowed - DeltaComplexity c.
End Criticality.

(** ** The USL fitter in binary64 *)

Module USLFit.
Import Float64.
Local Open Scope float_scope.

Record Result := {
  N : Z;
  Duration : Z;
  Operations : Z;
  Throughput : float;
  Latencies : list Z;
  Errors : Z
}.

Record USLCoefficients := {
  Lambda : float;
  Alpha : float;
  Beta : float;
  RSquared : float
}.

(** The error of [FitUSL]: "need at least 3 data points, got %d". *)
Inductive FitError :=
| InsufficientSamples (got : nat).

(** [float64(r.N)] *)
Definition float64_of_int (n : Z) : float := Autoscaler.float64_of_int n.

(** The nine accumulators of the first loop of [FitUSL]. *)
Record Sums := {
  sumY : float;
  sumX1 : float;
  sumX2 : float;
  sumX1X1 : float;
  sumX2X2 : float;
  sumX1X2 : float;
  sumYX1 : float;
  sumYX2 : float;
  sumOne : float
}.

Definition zeroSums : Sums :=
  {| sumY := 0; sumX1 := 0; sumX2 := 0; sumX1X1 := 0; sumX2X2 := 0;
     sumX1X2 := 0; sumYX1 := 0; sumYX2 := 0; sumOne := 0 |}.

(** One iteration of the first loop; a sample of zero throughput is
    skipped ([continue]).  Every product and every sum is rounded. *)
Definition accumulate (s : Sums) (r : Result) : Sums :=
  if Throughput r =? 0 then s
  else
    let n := float64_of_int (N r) in
    let Y := n / Throughput r in
    let X1 := n - 1 in
    let X2 := n * (n - 1) in
    {| sumY := sumY s + Y;
       sumX1 := sumX1 s + X1;
       sumX2 := sumX2 s + X2;
       sumX1X1 := sumX1X1 s + X1 * X1;
       sumX2X2 := sumX2X2 s + X2 * X2;
       sumX1X2 := sumX1X2 s + X1 * X2;
       sumYX1 := sumYX1 s + Y * X1;
       sumYX2 := sumYX2 s + Y * X2;
       sumOne := sumOne s + 1 |}.

(** The determinant of the 3x3 normal equations, as the code computes
    it. *)
Definition determinant (s : Sums) : float :=
  sumOne s * (sumX1X1 s * sumX2X2 s - sumX1X2 s * sumX1X2 s) -
  sumX1 s * (sumX1 s * sumX2X2 s - sumX1X2 s * sumX2 s) +
  sumX2 s * (sumX1 s * sumX1X2 s - sumX1X1 s * sumX2 s).

(** Cramer's rule, then [λ = 1/b0], [α = b1/b0], [β = b2/b0]: the
    coefficients of the primary, 3-parameter solve. *)
Definition primarySolve (s : Sums) : float * float * float :=
  let det := determinant s in
  let det0 :=
    sumY s * (sumX1X1 s * sumX2X2 s - sumX1X2 s * sumX1X2 s) -
    sumX1 s * (sumYX1 s * sumX2X2 s - sumX1X2 s * sumYX2 s) +
    sumX2 s * (sumYX1 s * sumX1X2 s - sumX1X1 s * sumYX2 s) in
  let det1 :=
    sumOne s * (sumYX1 s * sumX2X2 s - sumX1X2 s * sumYX2 s) -
    sumY s * (sumX1 s * sumX2X2 s - sumX1X2 s * sumX2 s) +
    sumX2 s * (sumX1 s * sumYX2 s - sumYX1 s * sumX2 s) in
  let det2 :=
    sumOne s * (sumX1X1 s * sumYX2 s - sumYX1 s * sumX1X2 s) -
    sumX1 s * (sumX1 s * sumYX2 s - sumYX1 s * sumX2 s) +
    sumY s * (sumX1 s * sumX1X2 s - sumX1X1 s * sumX2 s) in
  let b0 := det0 / det in
  let b1 := det1 / det in
  let b2 := det2 / det in
  let lambda := 1 / b0 in
  let alpha := b1 / b0 in
  let beta := b2 / b0 in
  (lambda, alpha, beta).

(** The five accumulators of the second loop, the one of the refit. *)
Record Sums2 := {
  sum2Y : float;
  sum2X1 : float;
  sum2X1X1 : float;
  sum2YX1 : float;
  sum2One : float
}.

Definition zeroSums2 : Sums2 :=
  {| sum2Y := 0; sum2X1 := 0; sum2X1X1 := 0; sum2YX1 := 0; sum2One := 0 |}.

Definition accumulate2 (s : Sums2) (r : Result) : Sums2 :=
  if Throughput r =? 0 then s
  else
    let n := float64_of_int (N r) in
    let Y := n / Throughput r in
    let X1 := n - 1 in
    {| sum2Y := sum2Y s + Y;
       sum2X1 := sum2X1 s + X1;
       sum2X1X1 := sum2X1X1 s + X1 * X1;
       sum2YX1 := sum2YX1 s + Y * X1;
       sum2One := sum2One s + 1 |}.

(** The block "CRITICAL FIX" of [FitUSL]: a negative β with a positive α
    is replaced by the 2-parameter refit [Y = b0 + b1*(N-1)], when the
    determinant of its 2x2 system (the inner [det2] of the code) is above
    1e-10 in absolute value. *)
Definition clampBeta (results : list Result) (c : float * float * float)
  : float * float * float :=
  let '(lambda, alpha, beta) := c in
  if (beta <? 0) && (0 <? alpha)
  then
    let s2 := fold_left accumulate2 results zeroSums2 in
    let det2 := sum2One s2 * sum2X1X1 s2 - sum2X1 s2 * sum2X1 s2 in
    if 1e-10 <? Abs det2
    then
      let b0_new :=
        (sum2X1X1 s2 * sum2Y s2 - sum2X1 s2 * sum2YX1 s2) / det2 in
      let b1_new :=
        (sum2One s2 * sum2YX1 s2 - sum2X1 s2 * sum2Y s2) / det2 in
      (1 / b0_new, b1_new / b0_new, 0)
    else (lambda, alpha, beta)
  else (lambda, alpha, beta).

(** [func uslModel(n, lambda, alpha, beta float64) float64] *)
Definition uslModel (n lambda alpha beta : float) : float :=
  (lambda * n) / (1 + alpha * (n - 1) + beta * n * (n - 1)).

(** R², the last part of [FitUSL]. *)
Definition rSquared (results : list Result) (lambda alpha beta : float)
  : float :=
  let meanThroughput :=
    fold_left (fun acc r => acc + Throughput r) results 0 /
    float64_of_int (Z.of_nat (length results)) in
  let '(ssRes, ssTot) :=
    fold_left
      (fun acc r =>
         let predicted := uslModel (float64_of_int (N r)) lambda alpha beta in
         (fst acc + (Throughput r - predicted) * (Throughput r - predicted),
          snd acc + (Throughput r - meanThroughput) *
                    (Throughput r - meanThroughput)))
      results (0, 0) in
  1 - ssRes / ssTot.

(** [results[0].Throughput]; the list has three elements or more where the
    code reads it. *)
Definition firstThroughput (results : list Result) : float :=
  match results with
  | r :: _ => Throughput r
  | [] => 0
  end.

(** [func FitUSL(results []Result) (USLCoefficients, error)] *)
Definition FitUSL (results : list Result) : FitError + USLCoefficients :=
  if (length results <? 3)%nat
  then inl (InsufficientSamples (length results))
  else
    let s := fold_left accumulate results zeroSums in
    let det := determinant s in
    if Abs det <? 1e-10
    then
      let lambda := firstThroughput results in
      inr {| Lambda := lambda; Alpha := 0.01; Beta := 0; RSquared := 0 |}
    else
      let '(lambda, alpha, beta) := clampBeta results (primarySolve s) in
      inr {| Lambda := lambda;
             Alpha := alpha;
             Beta := beta;
             RSquared := rSquared results lambda alpha beta |}.

(** A measurement of throughput [c] at concurrency [n]. *)
Definition sample (n : Z) (c : float) : Result :=
  {| N := n; Duration := 0; Operations := 0; Throughput := c;
     Latencies := []; Errors := 0 |}.


Definition repeated : list Result :=
  [sample 10470 430; sample 10470 193; sample 10470 1000].

End USLFit.

(** * Part II: properties *)

(** ** The comparisons decide the order of [Q] *)

Module QCmpFacts.
Local Open Scope Q_scope.

Lemma Qleb_iff x y : Qleb x y = true <-> x <= y.
Proof. apply Qle_bool_iff. Qed.

Lemma Qgeb_iff x y : Qgeb x y = true <-> y <= x.
Proof. apply Qle_bool_iff. Qed.

Lemma Qltb_iff x y : Qltb x y = true <-> x < y.
Proof.
  unfold Qltb. rewrite negb_true_iff, <- not_true_iff_false, Qle_bool_iff.
  split; [apply Qnot_le_lt | apply Qlt_not_le].
Qed.

Lemma Qgtb_iff x y : Qgtb x y = true <-> y < x.
Proof. apply (Qltb_iff y x). Qed.

Lemma Qeqb_iff x y : Qeqb x y = true <-> x == y.
Proof. apply Qeq_bool_iff. Qed.

Lemma Qleb_false x y : Qleb x y = false <-> y < x.
Proof.
  unfold Qleb. rewrite <- not_true_iff_false, Qle_bool_iff.
  split; [apply Qnot_le_lt | apply Qlt_not_le].
Qed.

Lemma Qgeb_false x y : Qgeb x y = false <-> x < y.
Proof. apply (Qleb_false y x). Qed.

Lemma Qltb_false x y : Qltb x y = false <-> y <= x.
Proof.
  unfold Qltb. rewrite negb_false_iff. apply Qle_bool_iff.
Qed.

Lemma Qgtb_false x y : Qgtb x y = false <-> x <= y.
Proof. apply (Qltb_false y x). Qed.

Lemma Qeqb_false x y : Qeqb x y = false <-> ~ x == y.
Proof.
  unfold Qeqb. rewrite <- not_true_iff_false, Qeq_bool_iff. tauto.
Qed.
End QCmpFacts.
Import QCmpFacts.

(** Turns every comparison the code made into the order fact it decided. *)
Ltac qcmp :=
  repeat match goal with
  | H : Qleb _ _ = true |- _ => apply Qleb_iff in H
  | H : Qleb _ _ = false |- _ => apply Qleb_false in H
  | H : Qgeb _ _ = true |- _ => apply Qgeb_iff in H
  | H : Qgeb _ _ = false |- _ => apply Qgeb_false in H
  | H : Qltb _ _ = true |- _ => apply Qltb_iff in H
  | H : Qltb _ _ = false |- _ => apply Qltb_false in H
  | H : Qgtb _ _ = true |- _ => apply Qgtb_iff in H
  | H : Qgtb _ _ = false |- _ => apply Qgtb_false in H
  | H : Qeqb _ _ = true |- _ => apply Qeqb_iff in H
  | H : Qeqb _ _ = false |- _ => apply Qeqb_false in H
  end.

(** ** The r-model and the recovery pulse *)

Module RuntimeFacts.
Import Runtime.
Local Open Scope Q_scope.

Lemma max_ge_1 (a : Z) : (1 <= max a 1)%Z.
Proof. unfold max. destruct (Z.gtb_spec a 1); lia. Qed.

Lemma max_denominator_pos (a : Z) : 0 < inject_Z (max a 1).
Proof.
  change 0 with (inject_Z 0). rewrite <- Zlt_Qlt.
  pose proof (max_ge_1 a). lia.
Qed.

Lemma Qdiv_le_mono (a b c : Q) : 0 < c -> a <= b -> a / c <= b / c.
Proof.
  intros Hc Hab. unfold Qdiv. apply Qmult_le_compat_r; [exact Hab|].
  apply Qlt_le_weak, Qinv_lt_0_compat, Hc.
Qed.

Lemma CriticalityScalingRatio_pos : 0 < CriticalityScalingRatio.
Proof. reflexivity. Qed.

Lemma CalculateSystemDNA_mutable_mono (m : SystemIntegrityMetrics) (x y : Z) :
  (x <= y)%Z ->
  CalculateSystemDNA (withMutableSharedState x m) <=
  CalculateSystemDNA (withMutableSharedState y m).
Proof.
  intros Hxy. unfold CalculateSystemDNA; cbn.
  assert (inject_Z x / inject_Z (max (ImmutableOpsVerified m) 1) <=
          inject_Z y / inject_Z (max (ImmutableOpsVerified m) 1)) as H.
  { apply Qdiv_le_mono; [apply max_denominator_pos | now rewrite <- Zle_Qle]. }
  lra.
Qed.

Lemma CalculateSystemDNA_unsupervised_mono (m : SystemIntegrityMetrics)
    (x y : Z) :
  (x <= y)%Z ->
  CalculateSystemDNA (withUnsupervisedProcesses x m) <=
  CalculateSystemDNA (withUnsupervisedProcesses y m).
Proof.
  intros Hxy. unfold CalculateSystemDNA; cbn.
  assert (inject_Z x / inject_Z (max (SupervisedProcesses m) 1) <=
          inject_Z y / inject_Z (max (SupervisedProcesses m) 1)) as H.
  { apply Qdiv_le_mono; [apply max_denominator_pos | now rewrite <- Zle_Qle]. }
  lra.
Qed.

Lemma CalculateSystemDNA_scaling_mono (m : SystemIntegrityMetrics) (x y : Q) :
  x <= y ->
  CalculateSystemDNA (withScalingRatio x m) <=
  CalculateSystemDNA (withScalingRatio y m).
Proof.
  intros Hxy. unfold CalculateSystemDNA; cbn.
  pose proof (Qdiv_le_mono CriticalityScalingRatio_pos Hxy) as H.
  lra.
Qed.

(** C8.  [CalculateSystemDNA] is non-decreasing in [MutableSharedState], in
    [UnsupervisedProcesses] and in [ScalingRatio], each taken alone with
    every other field of the metrics fixed (whatever their values, the
    non-negative ones included). *)
Theorem CalculateSystemDNA_monotone (m : SystemIntegrityMetrics) :
  (forall x y : Z, (x <= y)%Z ->
     CalculateSystemDNA (withMutableSharedState x m) <=
     CalculateSystemDNA (withMutableSharedState y m)) /\
  (forall x y : Z, (x <= y)%Z ->
     CalculateSystemDNA (withUnsupervisedProcesses x m) <=
     CalculateSystemDNA (withUnsupervisedProcesses y m)) /\
  (forall x y : Q, x <= y ->
     CalculateSystemDNA (withScalingRatio x m) <=
     CalculateSystemDNA (withScalingRatio y m)).
Proof.
  split; [|split]; intros x y Hxy.
  - now apply CalculateSystemDNA_mutable_mono.
  - now apply CalculateSystemDNA_unsupervised_mono.
  - now apply CalculateSystemDNA_scaling_mono.
Qed.

Lemma CalculateSystemDNA_monotone_witness :
  CalculateSystemDNA (withMutableSharedState 0 healthyMetrics) <=
  CalculateSystemDNA (withMutableSharedState 150 healthyMetrics) /\
  CalculateSystemDNA (withUnsupervisedProcesses 0 healthyMetrics) <=
  CalculateSystemDNA (withUnsupervisedProcesses 25 healthyMetrics) /\
  CalculateSystemDNA (withScalingRatio (20 # 100) healthyMetrics) <=
  CalculateSystemDNA (withScalingRatio (40 # 100) healthyMetrics).
Proof.
  destruct (CalculateSystemDNA_monotone healthyMetrics) as (H1 & H2 & H3).
  split; [|split].
  - apply H1. lia.
  - apply H2. lia.
  - apply H3. unfold Qle; simpl; lia.
Defined.

(** *** One recovery pulse *)

Lemma isolationRatio_nonneg (mutable immutable : Z) :
  (0 <= mutable)%Z ->
  0 <= inject_Z mutable / inject_Z (max immutable 1).
Proof.
  intros H. apply Qle_shift_div_l; [apply max_denominator_pos|].
  rewrite Qmult_0_l. change 0 with (inject_Z 0). now rewrite <- Zle_Qle.
Qed.

Lemma correctionFactor_bounds (ratio : Q) :
  0 <= ratio -> 0 < 1 / (1 + ratio) /\ 1 / (1 + ratio) <= 1.
Proof.
  intros H. split.
  - apply Qlt_shift_div_l; lra.
  - apply Qle_shift_div_r; lra.
Qed.

(** *** The saturation flag *)

Lemma NewRDynamics_flagConsistent (initialR : Q) :
  flagConsistent (NewRDynamics initialR).
Proof. reflexivity. Qed.

Lemma ApplyRecovery_flagConsistent (metrics : SystemIntegrityMetrics)
    (rd : RDynamics) :
  flagConsistent rd -> flagConsistent (fst (ApplyRecovery metrics rd)).
Proof.
  intros H. unfold ApplyRecovery.
  destruct (InSaturationZone rd); [reflexivity | exact H].
Qed.

Lemma ApplyFeigenbaumGovernance_flagConsistent (scalingRatio : Q)
    (rd : RDynamics) :
  flagConsistent (fst (ApplyFeigenbaumGovernance scalingRatio rd)).
Proof. reflexivity. Qed.

Lemma ApplyRecovery_not_saturated (metrics : SystemIntegrityMetrics)
    (rd : RDynamics) :
  InSaturationZone rd = false ->
  ApplyRecovery metrics rd = (rd, CurrentR rd).
Proof. intros H. unfold ApplyRecovery. now rewrite H. Qed.

Lemma recoveryLoop_not_saturated (budget : nat)
    (metrics : SystemIntegrityMetrics) (rd : RDynamics) (iterations : Z) :
  InSaturationZone rd = false ->
  recoveryLoop budget metrics rd iterations = (rd, iterations).
Proof. intros H. destruct budget; cbn; [|rewrite H]; reflexivity. Qed.

Lemma recoveryLoop_flagConsistent (budget : nat)
    (metrics : SystemIntegrityMetrics) :
  forall (rd : RDynamics) (iterations : Z),
  flagConsistent rd ->
  flagConsistent (fst (recoveryLoop budget metrics rd iterations)).
Proof.
  induction budget as [|budget IH]; intros rd iterations H; [exact H|].
  cbn [recoveryLoop]. destruct (InSaturationZone rd) eqn:Hz; [|exact H].
  apply IH. now apply ApplyRecovery_flagConsistent.
Qed.

Lemma ApplyRecoveryUntilStable_flagConsistent
    (metrics : SystemIntegrityMetrics) (maxIterations : Z) (rd : RDynamics) :
  flagConsistent rd ->
  flagConsistent (fst (ApplyRecoveryUntilStable metrics maxIterations rd)).
Proof.
  intros H. unfold ApplyRecoveryUntilStable.
  pose proof (@recoveryLoop_flagConsistent (Z.to_nat maxIterations) metrics
                rd 0%Z H) as Hloop.
  now destruct (recoveryLoop _ _ _ _).
Qed.

(** The loop stops below saturation or with its budget used up. *)
Lemma recoveryLoop_iterations (budget : nat)
    (metrics : SystemIntegrityMetrics) :
  forall (rd : RDynamics) (iterations : Z),
  let res := recoveryLoop budget metrics rd iterations in
  (iterations <= snd res <= iterations + Z.of_nat budget)%Z /\
  (InSaturationZone (fst res) = true ->
   snd res = (iterations + Z.of_nat budget)%Z).
Proof.
  induction budget as [|budget IH]; intros rd iterations; cbv zeta.
  - cbn. split; [lia | intros _; lia].
  - cbn [recoveryLoop]. destruct (InSaturationZone rd) eqn:Hz.
    + specialize (IH (fst (ApplyRecovery metrics rd)) (iterations + 1)%Z).
      cbv zeta in IH. destruct IH as [IH1 IH2].
      split; [lia | intros H; rewrite (IH2 H); lia].
    + cbn [fst snd]. split; [lia | congruence].
Qed.

Lemma below_saturation_flag (rd : RDynamics) :
  flagConsistent rd -> CurrentR rd < 3 -> InSaturationZone rd = false.
Proof.
  unfold flagConsistent. intros -> H. cbn. now apply Qgeb_false.
Qed.
End RuntimeFacts.

(** ** The governor *)

Module GovFacts.
Import Runtime RuntimeFacts Gov.
Local Open Scope Q_scope.

Lemma NewGovernor_standardThresholds (now : Z) (initialR : Q) :
  standardThresholds (NewGovernor now initialR).
Proof. repeat split. Qed.

Lemma NewGovernor_flagConsistent (now : Z) (initialR : Q) :
  flagConsistent (rdynamics (NewGovernor now initialR)).
Proof. reflexivity. Qed.

(** Splits an evaluation into the paths the code can take. *)
Ltac gov_paths :=
  unfold CheckStructuralIntegrity, enterThrottle, zoneAction;
  repeat match goal with
  | |- context [match deployGate ?m with _ => _ end] =>
      destruct (deployGate m) eqn:?
  | |- context [if ?b then _ else _] => destruct b eqn:?
  end.

Lemma CheckStructuralIntegrity_standardThresholds now metrics g :
  standardThresholds g ->
  standardThresholds (fst (CheckStructuralIntegrity now metrics g)).
Proof. intros H. gov_paths; exact H. Qed.

(** An evaluation leaves the saturation flag in step with the r it stored. *)
Lemma CheckStructuralIntegrity_flagConsistent now metrics g :
  saturationThreshold g = 3 ->
  flagConsistent (rdynamics (fst (CheckStructuralIntegrity now metrics g))).
Proof.
  intros H3. gov_paths; unfold flagConsistent; cbn; now rewrite H3.
Qed.

Lemma Governor_ApplyRecovery_flagConsistent metrics g :
  flagConsistent (rdynamics g) ->
  flagConsistent (rdynamics (fst (Gov.ApplyRecovery metrics g))).
Proof.
  intros H. unfold Gov.ApplyRecovery.
  pose proof (@ApplyRecoveryUntilStable_flagConsistent metrics 20%Z _ H)
    as Hrd.
  destruct (ApplyRecoveryUntilStable metrics 20 (rdynamics g))
    as [rd [finalR iterations]].
  cbn [fst] in Hrd. now destruct (Qgeb finalR _).
Qed.

(** C10.  Below saturation (current r under 3.0, the saturation flag in
    step with it) [RDynamics.ApplyRecovery] returns the current r and
    leaves the receiver as it was: same r, same history, same count of
    recovery events; the loop of [ApplyRecoveryUntilStable] makes no
    iteration; and [Governor.ApplyRecovery] on a governor that holds such
    an instance returns true and leaves the governor, hence its r and its
    statistics, as they were. *)
Theorem recovery_below_saturation_frame (metrics : SystemIntegrityMetrics) :
  (forall rd : RDynamics,
     flagConsistent rd -> CurrentR rd < 3 ->
     Runtime.ApplyRecovery metrics rd = (rd, CurrentR rd) /\
     (forall maxIterations : Z,
        ApplyRecoveryUntilStable metrics maxIterations rd =
        (rd, (CurrentR rd, 0%Z)))) /\
  (forall g : Governor,
     saturationThreshold g = 3 ->
     flagConsistent (rdynamics g) -> CurrentR (rdynamics g) < 3 ->
     Gov.ApplyRecovery metrics g = (g, true) /\
     GetStatistics (fst (Gov.ApplyRecovery metrics g)) = GetStatistics g).
Proof.
  split.
  - intros rd Hflag Hr.
    pose proof (below_saturation_flag Hflag Hr) as Hz. split.
    + now apply ApplyRecovery_not_saturated.
    + intros maxIterations. unfold ApplyRecoveryUntilStable.
      now rewrite recoveryLoop_not_saturated.
  - intros g H3 Hflag Hr.
    pose proof (below_saturation_flag Hflag Hr) as Hz.
    assert (Gov.ApplyRecovery metrics g = (g, true)) as Heq.
    { unfold Gov.ApplyRecovery, ApplyRecoveryUntilStable.
      rewrite recoveryLoop_not_saturated by exact Hz.
      cbn [setRdynamics saturationThreshold]. rewrite H3.
      apply Qgeb_false in Hr. rewrite Hr.
      destruct g; cbn. now rewrite Z.add_0_r. }
    split; [exact Heq | now rewrite Heq].
Qed.

Lemma recovery_below_saturation_frame_witness :
  let g := NewGovernor 0 (15 # 10) in
  Runtime.ApplyRecovery healthyMetrics (rdynamics g) =
    (rdynamics g, CurrentR (rdynamics g)) /\
  Gov.ApplyRecovery healthyMetrics g = (g, true).
Proof.
  destruct (recovery_below_saturation_frame healthyMetrics) as [Hrd Hg].
  split.
  - apply Hrd; [reflexivity | reflexivity].
  - apply Hg; reflexivity.
Defined.

(** *** Throttle hysteresis *)

(** How throttle mode is entered: outside throttle mode, metrics that pass
    the gate with r at or above the saturation threshold set the mode,
    stamp the entry with the clock reading and count one throttle event. *)
Lemma throttle_entry now metrics g :
  inThrottleMode g = false ->
  deployGate metrics = None ->
  saturationThreshold g <= CalculateSystemDNA metrics ->
  let res := CheckStructuralIntegrity now metrics g in
  ActType (snd res) = ActionThrottle /\
  Reason (snd res) = SaturationDetected /\
  inThrottleMode (fst res) = true /\
  throttleEnteredAt (fst res) = now /\
  throttleEvents (fst res) = (throttleEvents g + 1)%Z.
Proof.
  intros Hmode Hgate Hr. cbv zeta. unfold CheckStructuralIntegrity.
  rewrite Hgate.
  cbn [recordR setLastCheck setRdynamics saturationThreshold inThrottleMode
       throttleEnteredAt throttleMinDuration throttleExitThreshold].
  apply Qgeb_iff in Hr. rewrite Hr, Hmode. cbn [orb].
  unfold enterThrottle. cbn. now rewrite Hmode.
Qed.





(** What the same evaluation does return. *)
Lemma hysteresis_below_exit_threshold :
  let res := CheckStructuralIntegrity (1 * Second) zeroMetrics
               throttledGovernor in
  Qltb (CalculateSystemDNA zeroMetrics) 2 = true /\
  ActType (snd res) = ActionThrottle /\
  Reason (snd res) = ThrottleHysteresis /\
  inThrottleMode (fst res) = true.
Proof. repeat split. Qed.

(** The gate comes first in throttle mode too: 1 s after the entry, a
    deployment of pure debt is answered with [ActionBlockDeploy]. *)
Lemma hysteresis_gate_first :
  let res := CheckStructuralIntegrity (1 * Second) (deployment 0 100)
               throttledGovernor in
  ActType (snd res) = ActionBlockDeploy /\
  Reason (snd res) = PureTechnicalDebt /\
  inThrottleMode (fst res) = true.
Proof. repeat split. Qed.

End GovFacts.

(** ** The USL fitter *)

Module USLFacts.
Import USL.
Local Open Scope Z_scope.
Local Open Scope Q_scope.

(** *** Throughput beyond the peak *)








(** The floor in that example, and the two predictions. *)
Lemma peak_floor_example :
  peakFloor (3 # 10) (5 # 100) = 3%Z /\
  peakCeiling (3 # 10) (5 # 100) = 4%Z /\
  PredictThroughput contended 3 == 30000 # 19 /\
  PredictThroughput contended 4 == 1600.
Proof. repeat split. Qed.

(** Without 0 <= α the ceiling does not help either: with α = -10 and
    β = 1 the ceiling of [N_peak = sqrt 11] is 4, where the model is
    negative, and 10 workers are predicted to do more. *)
Lemma peak_agreement_needs_contention :
  peakCeiling (Alpha superlinear) (Beta superlinear) = 4%Z /\
  PredictThroughput superlinear 4 < PredictThroughput superlinear (4 + 6).
Proof. split; reflexivity. Qed.
End USLFacts.

(** ** The tail-divergence tracker *)

Module TailFacts.
Import Tail.
Local Open Scope Z_scope.

(** *** The ring buffer *)

Lemma store_length (l : list Z) (i : nat) (x : Z) :
  length (store l i x) = length l.
Proof.
  revert i. induction l as [|y l IH]; intros [|i]; cbn; auto.
Qed.

Lemma store_Forall (P : Z -> Prop) (l : list Z) (i : nat) (x : Z) :
  P x -> Forall P l -> Forall P (store l i x).
Proof.
  intros Hx. revert i. induction l as [|y l IH]; intros i H.
  - destruct i; constructor.
  - inversion H; subst. destruct i; cbn; constructor; auto.
Qed.

Lemma NewTailDivergenceTracker_wellFormed (capacity : Z) :
  wellFormed (NewTailDivergenceTracker capacity).
Proof.
  unfold wellFormed, NewTailDivergenceTracker. cbn.
  destruct (Z.leb_spec capacity 0); repeat split;
    try lia; try apply repeat_length;
    apply Forall_forall; intros x Hx; apply repeat_spec in Hx; lia.
Qed.

Lemma RecordLatency_wellFormed (latency : Z) (t : TailDivergenceTracker) :
  0 <= latency -> wellFormed t -> wellFormed (RecordLatency latency t).
Proof.
  intros Hx (Hm & Hlen & Hw & Hc & Hall). unfold wellFormed. cbn.
  repeat split; try lia.
  - now rewrite store_length.
  - apply Z.rem_nonneg; lia.
  - apply Z.rem_bound_pos; lia.
  - now apply store_Forall.
Qed.

Lemma recorded_wellFormed (capacity : Z) (latencies : list Z) :
  Forall (fun x => 0 <= x) latencies ->
  wellFormed (recorded capacity latencies).
Proof.
  unfold recorded.
  generalize (NewTailDivergenceTracker_wellFormed capacity).
  generalize (NewTailDivergenceTracker capacity).
  induction latencies as [|x l IH]; intros t Ht Hall; [exact Ht|].
  inversion Hall; subst. cbn [fold_left].
  apply IH; [now apply RecordLatency_wellFormed | assumption].
Qed.

(** *** Percentiles *)

Lemma sort_StronglySorted (l : list Z) :
  StronglySorted Z.le (DurationSort.sort l).
Proof.
  assert (StronglySorted (fun x y => is_true (x <=? y)) (DurationSort.sort l))
    as H.
  { apply DurationSort.StronglySorted_sort.
    intros x y z Hxy Hyz. apply Z.leb_le in Hxy, Hyz. apply Z.leb_le. lia. }
  induction H as [|a l' Hs IH Hf]; constructor; [exact IH|].
  eapply Forall_impl; [|exact Hf]. intros b Hb. now apply Z.leb_le.
Qed.

Lemma sort_length (l : list Z) : length (DurationSort.sort l) = length l.
Proof. symmetry. apply Permutation_length, DurationSort.Permuted_sort. Qed.

Lemma sort_Forall (P : Z -> Prop) (l : list Z) :
  Forall P l -> Forall P (DurationSort.sort l).
Proof.
  apply Permutation_Forall, DurationSort.Permuted_sort.
Qed.

(** In an ascending list a later position holds a larger element. *)
Lemma nth_sorted_mono (l : list Z) :
  StronglySorted Z.le l ->
  forall i j : nat, (i <= j)%nat -> (j < length l)%nat ->
  nth i l 0 <= nth j l 0.
Proof.
  induction 1 as [|a l Hs IH Hf]; intros i j Hij Hj; [cbn in Hj; lia|].
  destruct i as [|i], j as [|j]; cbn [nth]; cbn [length] in Hj; try lia.
  - rewrite Forall_forall in Hf. apply Hf, nth_In. lia.
  - apply IH; lia.
Qed.

Lemma clampedIndex_range (k : Z) (p : Q) :
  0 < k -> 0 <= clampedIndex k p < k.
Proof.
  intros Hk. unfold clampedIndex.
  destruct (Z.ltb_spec (Qfloor (inject_Z (k - 1) * p)) 0);
    match goal with |- context [?a >=? k] =>
      rewrite (Z.geb_leb a k); destruct (Z.leb_spec k a) end; lia.
Qed.

Lemma clampedIndex_mono (k : Z) (p1 p2 : Q) :
  0 < k -> (p1 <= p2)%Q -> clampedIndex k p1 <= clampedIndex k p2.
Proof.
  intros Hk Hp. unfold clampedIndex.
  assert (Qfloor (inject_Z (k - 1) * p1) <= Qfloor (inject_Z (k - 1) * p2))
    as Hfloor.
  { apply Qfloor_resp_le.
    assert (0 <= inject_Z (k - 1))%Q as H0.
    { change 0%Q with (inject_Z 0). rewrite <- Zle_Qle. lia. }
    nra. }
  generalize dependent (Qfloor (inject_Z (k - 1) * p1)).
  generalize dependent (Qfloor (inject_Z (k - 1) * p2)).
  intros f2 f1 Hfloor. cbv zeta.
  destruct (Z.ltb_spec f1 0), (Z.ltb_spec f2 0);
    repeat match goal with |- context [?a >=? k] =>
      rewrite (Z.geb_leb a k); destruct (Z.leb_spec k a) end; lia.
Qed.

Lemma percentile_unfold (p : Q) (t : TailDivergenceTracker) :
  percentile p t =
  let k := effectiveSampleCount t in
  if k =? 0 then 0
  else nth (Z.to_nat (clampedIndex k p))
           (DurationSort.sort (firstn (Z.to_nat k) (samples t))) 0.
Proof. reflexivity. Qed.

(** A tracker that [NewTailDivergenceTracker] and [Record] have produced
    from non-negative latencies. *)
Section WellFormedTracker.

Variable t : TailDivergenceTracker.
Hypothesis Hwf : wellFormed t.

Lemma effectiveSampleCount_range :
  0 <= effectiveSampleCount t <= maxSamples t.
Proof.
  destruct Hwf as (Hm & Hlen & Hw & Hc & Hall). unfold effectiveSampleCount.
  destruct (Z.ltb_spec (sampleCount t) (maxSamples t)); lia.
Qed.

Lemma live_region_length :
  length (DurationSort.sort
            (firstn (Z.to_nat (effectiveSampleCount t)) (samples t))) =
  Z.to_nat (effectiveSampleCount t).
Proof.
  pose proof effectiveSampleCount_range as Hk.
  destruct Hwf as (Hm & Hlen & Hw & Hc & Hall).
  rewrite sort_length. apply firstn_length_le. rewrite Hlen. lia.
Qed.

Lemma live_region_nonneg :
  Forall (fun x => 0 <= x)
    (DurationSort.sort
       (firstn (Z.to_nat (effectiveSampleCount t)) (samples t))).
Proof.
  apply sort_Forall. destruct Hwf as (_ & _ & _ & _ & Hall).
  rewrite <- (firstn_skipn (Z.to_nat (effectiveSampleCount t)) (samples t))
    in Hall.
  now apply Forall_app in Hall.
Qed.

(** Percentile monotonicity: a larger [p] never gives a smaller
    percentile. *)
Lemma percentile_mono (p1 p2 : Q) :
  (p1 <= p2)%Q -> percentile p1 t <= percentile p2 t.
Proof.
  intros Hp. rewrite !percentile_unfold. cbv zeta.
  pose proof effectiveSampleCount_range as Hk.
  destruct (Z.eqb_spec (effectiveSampleCount t) 0) as [Hz | Hz]; [lia|].
  assert (0 < effectiveSampleCount t) as Hpos by lia.
  pose proof (clampedIndex_range p2 Hpos) as H2.
  pose proof (clampedIndex_range p1 Hpos) as H1.
  pose proof (clampedIndex_mono Hpos Hp) as H12.
  apply nth_sorted_mono; [apply sort_StronglySorted | lia |].
  rewrite live_region_length. lia.
Qed.

Lemma percentile_nonneg (p : Q) : 0 <= percentile p t.
Proof.
  rewrite percentile_unfold. cbv zeta.
  pose proof effectiveSampleCount_range as Hk.
  destruct (Z.eqb_spec (effectiveSampleCount t) 0) as [Hz | Hz]; [lia|].
  assert (0 < effectiveSampleCount t) as Hpos by lia.
  pose proof (clampedIndex_range p Hpos) as H1.
  pose proof live_region_nonneg as Hall.
  rewrite Forall_forall in Hall. apply Hall, nth_In.
  rewrite live_region_length. lia.
Qed.

(** The ratio on a well-formed tracker. *)
Lemma TailDivergenceRatio_wellFormed :
  (1 <= TailDivergenceRatio t)%Q /\
  (P50 t = 0 -> TailDivergenceRatio t = 1%Q) /\
  (P50 t <> 0 ->
   0 < P50 t <= P99 t /\
   TailDivergenceRatio t = (inject_Z (P99 t) / inject_Z (P50 t))%Q).
Proof.
  unfold TailDivergenceRatio.
  assert (P50 t <= P99 t) as Hmono.
  { apply percentile_mono. unfold Qle; simpl; lia. }
  pose proof (percentile_nonneg (50 # 100)) as H50. fold (P50 t) in H50.
  destruct (Z.eqb_spec (P50 t) 0) as [Hz | Hz].
  - split; [apply Qle_refl|]. split; [reflexivity | contradiction].
  - assert (0 < P50 t) as Hpos by lia. split.
    + apply Qle_shift_div_l.
      * change 0%Q with (inject_Z 0). now rewrite <- Zlt_Qlt.
      * rewrite Qmult_1_l, <- Zle_Qle. exact Hmono.
    + split; [contradiction|]. intros _. split; [lia | reflexivity].
Qed.

End WellFormedTracker.

(** C9.  After any number of [Record] calls with non-negative latencies,
    on a tracker of any capacity, [TailDivergenceRatio] is at least 1: it
    is exactly 1 when P50 is 0, and otherwise it is P99 / P50 with
    0 < P50 <= P99. *)
Theorem tail_ratio_at_least_one (capacity : Z) (latencies : list Z) :
  Forall (fun x => 0 <= x) latencies ->
  let t := recorded capacity latencies in
  (1 <= TailDivergenceRatio t)%Q /\
  (P50 t = 0 -> TailDivergenceRatio t = 1%Q) /\
  (P50 t <> 0 ->
   0 < P50 t <= P99 t /\
   TailDivergenceRatio t = (inject_Z (P99 t) / inject_Z (P50 t))%Q).
Proof.
  intros Hall t. apply TailDivergenceRatio_wellFormed.
  now apply recorded_wellFormed.
Qed.

Lemma tail_ratio_at_least_one_witness :
  let t := recorded 4 [5; 10; 10000; 7; 3; 12] in
  (1 <= TailDivergenceRatio t)%Q /\
  (P50 t = 0 -> TailDivergenceRatio t = 1%Q) /\
  (P50 t <> 0 ->
   0 < P50 t <= P99 t /\
   TailDivergenceRatio t = (inject_Z (P99 t) / inject_Z (P50 t))%Q).
Proof.
  apply (@tail_ratio_at_least_one 4 [5; 10; 10000; 7; 3; 12]).
  repeat constructor; discriminate.
Defined.

(** The same run, evaluated: the ring of capacity 4 holds the last four
    samples, [3; 12; 10000; 7] by position, so P50 = 7 and P99 = 12. *)
Lemma tail_ratio_example :
  let t := recorded 4 [5; 10; 10000; 7; 3; 12] in
  samples t = [3; 12; 10000; 7] /\
  P50 t = 7 /\ P99 t = 12 /\ (TailDivergenceRatio t == 12 # 7)%Q.
Proof. repeat split. Qed.
End TailFacts.

(** ** The autoscaler policy *)

Module AutoscalerFacts.
Import Autoscaler.
Local Open Scope float_scope.

(** *** Comparisons of binary64 numbers *)

Lemma SFcompare_antisym (x y : spec_float) :
  SFcompare y x = option_map CompOpp (SFcompare x y).
Proof.
  destruct x as [sx | sx | | sx mx ex], y as [sy | sy | | sy my ey];
    cbn; try reflexivity;
    try (destruct sx; reflexivity); try (destruct sy; reflexivity);
    try (destruct sx, sy; reflexivity).
  rewrite (Z.compare_antisym ex ey).
  destruct sx, sy; cbn; try reflexivity;
    destruct (ex ?= ey)%Z; cbn; try reflexivity;
    rewrite ?CompOpp_involutive;
    now rewrite Pos.compare_cont_antisym.
Qed.

Lemma ltb_true_leb_false (x y : float) :
  (x <? y) = true -> (y <=? x) = false.
Proof.
  rewrite ltb_spec, leb_spec. unfold SFltb, SFleb.
  rewrite (SFcompare_antisym (Prim2SF x) (Prim2SF y)).
  destruct (SFcompare (Prim2SF x) (Prim2SF y)) as [[| |]|];
    cbn; congruence.
Qed.

Lemma leb_true_ltb_false (x y : float) :
  (x <=? y) = true -> (y <? x) = false.
Proof.
  rewrite ltb_spec, leb_spec. unfold SFltb, SFleb.
  rewrite (SFcompare_antisym (Prim2SF x) (Prim2SF y)).
  destruct (SFcompare (Prim2SF x) (Prim2SF y)) as [[| |]|];
    cbn; congruence.
Qed.

Lemma ShouldScale_PeakN (m : AutoScalerMetrics) :
  PeakN (ShouldScale m) =
  if 0 <? Beta m then sqrt ((1 - Alpha m) / Beta m) else infinity.
Proof.
  unfold ShouldScale.
  repeat match goal with
         | |- context [if ?b then _ else _] => destruct b
         end; reflexivity.
Qed.

Lemma ShouldScale_InRetrograde (m : AutoScalerMetrics) :
  InRetrograde (ShouldScale m) =
  (PeakN (ShouldScale m) <=? float64_of_int (CurrentN m)).
Proof.
  rewrite ShouldScale_PeakN. unfold ShouldScale.
  repeat match goal with
         | |- context [if ?b then _ else _] => destruct b
         end; reflexivity.
Qed.

(** [math.Floor], [math.Ceil] and the conversions on sample values. *)
Lemma rounding_examples :
  Floor 2.5 = 2 /\ Floor (-2.5) = -3 /\ Floor 0.3 = 0 /\ Floor (-0.3) = -1 /\
  Ceil 2.1 = 3 /\ Ceil (-2.1) = -2 /\ Floor infinity = infinity /\
  int_of_float64 (Floor 2.9933259094191533) = 2%Z /\
  int_of_float64 7 = 7%Z /\ int_of_float64 (-2.7) = (-2)%Z /\
  int_of_float64 infinity = minInt64 /\ int_of_float64 nan = minInt64 /\
  float64_of_int 50 = 50 /\ float64_of_int (-3) = -3 /\
  float64_of_int 9007199254740993 = 9007199254740992.
Proof. repeat split. Qed.

(** C3.  In the saturation band, 3.0 <= r < 4.0, with β > 0 and α < 1,
    so that the peak is N_peak = sqrt ((1 - α) / β), the value of
    [CalculatePeakCapacity], and with the current number of nodes at or
    above that peak, the recommendation is [ShedLoad] with the target
    ⌊0.8 · N_peak⌋ and the risk level HIGH; for α = 0.3, β = 0.05, 50
    nodes and r = 3.2 the peak is sqrt 14 (about 3.74) and the target is
    2.  For α >= 1 the row fails: with α = 1.5, β = 0.05, 50 nodes and
    r = 3.2 the peak of [CalculatePeakCapacity] is 0, the 50 nodes are
    beyond it, [IsRetrograde] says so, and [ShouldScale] sheds load with
    the target left at 50 nodes, not ⌊0.8 · 0⌋ = 0, and with the reason
    of the row outside the retrograde zone. *)
Theorem saturation_retrograde_row :
  (forall m : AutoScalerMetrics,
     (0 <? Beta m) = true -> (Alpha m <? 1) = true ->
     (3 <=? R m) = true -> (R m <? 4) = true ->
     let peak := sqrt ((1 - Alpha m) / Beta m) in
     (peak <=? float64_of_int (CurrentN m)) = true ->
     CalculatePeakCapacity (Alpha m) (Beta m) = peak /\
     Decision (ShouldScale m) = ShedLoad /\
     TargetN (ShouldScale m) = int_of_float64 (Floor (peak * 0.8)) /\
     Reason (ShouldScale m) = SaturationRetrogradeReason /\
     RiskLevel (ShouldScale m) = "HIGH"%string) /\
  (sqrt ((1 - 0.3) / 0.05) = 3.7416573867739413 /\
   Decision (ShouldScale lockedDatabase) = ShedLoad /\
   TargetN (ShouldScale lockedDatabase) = 2%Z /\
   RiskLevel (ShouldScale lockedDatabase) = "HIGH"%string) /\
  (CalculatePeakCapacity (Alpha deadlocked) (Beta deadlocked) = 0 /\
   (0 <=? float64_of_int (CurrentN deadlocked)) = true /\
   IsRetrograde (CurrentN deadlocked) (Alpha deadlocked) (Beta deadlocked)
     = true /\
   (3 <=? R deadlocked) = true /\ (R deadlocked <? 4) = true /\
   Decision (ShouldScale deadlocked) = ShedLoad /\
   int_of_float64 (Floor (0 * 0.8)) = 0%Z /\
   TargetN (ShouldScale deadlocked) = 50%Z /\
   Reason (ShouldScale deadlocked) = SaturationReason).
Proof.
  split; [|split].
  - intros m Hb Ha H3 H4 peak Hretro. subst peak.
    apply ltb_true_leb_false in H4.
    split.
    + unfold CalculatePeakCapacity.
      now rewrite (ltb_true_leb_false Hb), (ltb_true_leb_false Ha).
    + unfold ShouldScale. cbv zeta.
      rewrite Hb, H4, H3, Hretro. cbn. repeat split.
  - repeat split.
  - repeat split.
Qed.

Lemma saturation_retrograde_row_witness :
  CalculatePeakCapacity 0.3 0.05 = sqrt ((1 - 0.3) / 0.05) /\
  Decision (ShouldScale lockedDatabase) = ShedLoad /\
  TargetN (ShouldScale lockedDatabase) =
    int_of_float64 (Floor (sqrt ((1 - 0.3) / 0.05) * 0.8)) /\
  Reason (ShouldScale lockedDatabase) = SaturationRetrogradeReason /\
  RiskLevel (ShouldScale lockedDatabase) = "HIGH"%string.
Proof.
  apply (proj1 saturation_retrograde_row lockedDatabase); reflexivity.
Defined.

(** *** The peak that [ShouldScale] uses *)

(** Where β <= 0, and where β > 0 with α < 1, the peak of [ShouldScale] is
    the one of [CalculatePeakCapacity]. *)
Lemma ShouldScale_peak_agrees (m : AutoScalerMetrics) :
  (Beta m <=? 0) = true \/ ((0 <? Beta m) = true /\ (Alpha m <? 1) = true) ->
  PeakN (ShouldScale m) = CalculatePeakCapacity (Alpha m) (Beta m).
Proof.
  intros H.
  rewrite ShouldScale_PeakN. unfold CalculatePeakCapacity. destruct H as [Hb | [Hb Ha]].
  - rewrite Hb. now rewrite (leb_true_ltb_false Hb).
  - rewrite Hb. rewrite (ltb_true_leb_false Hb).
    now rewrite (ltb_true_leb_false Ha).
Qed.

(** C4 fails on the code: for α = 1.5 and β = 0.05 (50 nodes, r = 3.2)
    [ShouldScale] takes the square root of a negative quotient, so its peak
    is NaN and [InRetrograde] is false, where [CalculatePeakCapacity]
    returns 0 and [IsRetrograde] true; the target stays 50 nodes. *)
Theorem ShouldScale_peak_disagrees :
  is_nan (PeakN (ShouldScale deadlocked)) = true /\
  InRetrograde (ShouldScale deadlocked) = false /\
  TargetN (ShouldScale deadlocked) = 50%Z /\
  CalculatePeakCapacity (Alpha deadlocked) (Beta deadlocked) = 0 /\
  IsRetrograde (CurrentN deadlocked) (Alpha deadlocked) (Beta deadlocked)
    = true.
Proof. repeat split. Qed.

(** The peak of α = 0.3, β = 0.05 in binary64, its floor and its ceiling,
    and the throughput that [EstimateThroughput] gives at both: more at 4
    nodes than at 3. *)
Lemma floored_peak_in_binary64 :
  int_of_float64 (Floor (CalculatePeakCapacity 0.3 0.05)) = 3%Z /\
  int_of_float64 (Ceil (CalculatePeakCapacity 0.3 0.05)) = 4%Z /\
  (EstimateThroughput 3 1000 0.3 0.05 <? EstimateThroughput 4 1000 0.3 0.05)
    = true.
Proof. repeat split. Qed.
End AutoscalerFacts.

(** ** The r-dynamics beyond one pulse *)

Module DynamicsFacts.
Import Runtime Dynamics RuntimeFacts.
Local Open Scope Q_scope.

(** *** The depth that a pulse leaves *)

Lemma pulse_shape (c f d : Q) :
  0 < c -> 0 <= f -> f <= 1 -> 0 <= d ->
  d * (5 # 10) <= d - Qmin (d * f * (5 # 10)) c /\
  d - Qmin (d * f * (5 # 10)) c <= d.
Proof.
  intros Hc Hf0 Hf1 Hd.
  assert (0 <= d * f) as Hdf by (apply Qmult_le_0_compat; assumption).
  assert (d * f <= d) as Hdf1 by nra.
  destruct (Q.min_spec (d * f * (5 # 10)) c) as [[H1 H2] | [H1 H2]]; lra.
Qed.

Lemma pulse_mono_depth (c f d1 d2 : Q) :
  0 <= f -> f <= 1 -> d1 <= d2 ->
  d1 - Qmin (d1 * f * (5 # 10)) c <= d2 - Qmin (d2 * f * (5 # 10)) c.
Proof.
  intros Hf0 Hf1 Hd.
  assert (d1 * f <= d2 * f) as Hm by nra.
  assert (d1 - d1 * f * (5 # 10) <= d2 - d2 * f * (5 # 10)) as Hk by nra.
  destruct (Q.min_spec (d1 * f * (5 # 10)) c) as [[H1 E1] | [H1 E1]];
    destruct (Q.min_spec (d2 * f * (5 # 10)) c) as [[H2 E2] | [H2 E2]]; lra.
Qed.

Lemma pulse_mono_factor (c f1 f2 d : Q) :
  0 <= d -> f1 <= f2 ->
  d - Qmin (d * f2 * (5 # 10)) c <= d - Qmin (d * f1 * (5 # 10)) c.
Proof.
  intros Hd Hf.
  assert (d * f1 <= d * f2) as Hm by nra.
  destruct (Q.min_spec (d * f1 * (5 # 10)) c) as [[H1 E1] | [H1 E1]];
    destruct (Q.min_spec (d * f2 * (5 # 10)) c) as [[H2 E2] | [H2 E2]]; lra.
Qed.

Lemma depthAfterPulse_bounds (f d : Q) :
  0 <= f -> f <= 1 -> 0 <= d ->
  d * (5 # 10) <= depthAfterPulse f d /\ depthAfterPulse f d <= d.
Proof.
  intros. unfold depthAfterPulse.
  apply pulse_shape; auto using CriticalityScalingRatio_pos.
Qed.

Lemma depthAfterPulse_mono (f1 f2 d1 d2 : Q) :
  0 <= f1 -> f1 <= f2 -> f2 <= 1 -> 0 <= d1 -> d1 <= d2 ->
  depthAfterPulse f2 d1 <= depthAfterPulse f1 d2.
Proof.
  intros Hf0 Hf Hf1 Hd0 Hd. unfold depthAfterPulse.
  apply Qle_trans with (d1 - Qmin (d1 * f1 * (5 # 10)) CriticalityScalingRatio).
  - now apply pulse_mono_factor.
  - apply pulse_mono_depth; lra.
Qed.

Lemma depthAfterPulses_nonneg (n : nat) (f : Q) :
  0 <= f -> f <= 1 ->
  forall d, 0 <= d ->
  0 <= depthAfterPulses n f d /\ depthAfterPulses n f d <= d.
Proof.
  intros Hf0 Hf1. induction n as [|n IH]; intros d Hd; cbn.
  - lra.
  - destruct (depthAfterPulse_bounds Hf0 Hf1 Hd) as [Hlo Hhi].
    assert (0 <= depthAfterPulse f d) as H0 by lra.
    destruct (IH _ H0). lra.
Qed.

Lemma depthAfterPulses_mono (n : nat) (f1 f2 : Q) :
  0 <= f1 -> f1 <= f2 -> f2 <= 1 ->
  forall d1 d2, 0 <= d1 -> d1 <= d2 ->
  depthAfterPulses n f2 d1 <= depthAfterPulses n f1 d2.
Proof.
  intros Hf0 Hf Hf1. induction n as [|n IH]; intros d1 d2 Hd0 Hd; cbn.
  - exact Hd.
  - apply IH.
    + assert (0 <= f2) as Hf2 by lra.
      destruct (depthAfterPulse_bounds Hf2 Hf1 Hd0). lra.
    + now apply depthAfterPulse_mono.
Qed.

Lemma depthAfterPulsesRed_correct (n : nat) (f : Q) :
  0 <= f -> f <= 1 ->
  forall d, 0 <= d ->
  depthAfterPulsesRed n f d == depthAfterPulses n f d.
Proof.
  intros Hf0 Hf1. induction n as [|n IH]; intros d Hd; cbn.
  - reflexivity.
  - destruct (depthAfterPulse_bounds Hf0 Hf1 Hd) as [Hlo _].
    assert (0 <= depthAfterPulse f d) as H0 by lra.
    assert (Qred (depthAfterPulse f d) == depthAfterPulse f d) as Hred
      by apply Qred_correct.
    assert (0 <= Qred (depthAfterPulse f d)) as H0' by lra.
    rewrite (IH _ H0'). apply Qle_antisym.
    + apply depthAfterPulses_mono; lra.
    + apply depthAfterPulses_mono; lra.
Qed.

Lemma correctionFactor_range (metrics : SystemIntegrityMetrics) :
  (0 <= MutableSharedState metrics)%Z ->
  0 < correctionFactor metrics /\ correctionFactor metrics <= 1.
Proof.
  intros Hm. unfold correctionFactor.
  apply correctionFactor_bounds. now apply isolationRatio_nonneg.
Qed.
(** *** One pulse, from inside the saturation zone *)

(** A pulse applied at r >= 3 leaves the depth [depthAfterPulse] above 3.0
    when that is at least 0.0001, and otherwise sets r to 3.0 * 0.999. *)
Lemma ApplyRecovery_pulse (metrics : SystemIntegrityMetrics)
    (rd : RDynamics) :
  InSaturationZone rd = true ->
  3 <= CurrentR rd ->
  (0 <= MutableSharedState metrics)%Z ->
  let d' := depthAfterPulse (correctionFactor metrics) (CurrentR rd - 3) in
  let rd' := fst (ApplyRecovery metrics rd) in
  RecoveryEvents rd' = (RecoveryEvents rd + 1)%Z /\
  History rd' = History rd ++ [CurrentR rd'] /\
  InitialR rd' = InitialR rd /\
  ((d' < 1 # 10000 /\ CurrentR rd' == 2997 # 1000 /\
    InSaturationZone rd' = false) \/
   ((1 # 10000) <= d' /\ CurrentR rd' == 3 + d' /\
    InSaturationZone rd' = true)).
Proof.
  intros Hflag Hr Hm d' rd'.
  destruct (correctionFactor_range metrics Hm) as [Hf0 Hf1].
  assert (0 <= CurrentR rd - 3) as Hd by lra.
  assert (0 <= correctionFactor metrics) as Hf0' by lra.
  destruct (depthAfterPulse_bounds Hf0' Hf1 Hd) as [Hlo Hhi].
  fold d' in Hlo, Hhi.
  assert (0 <= d') as Hd' by lra.
  subst rd'. unfold ApplyRecovery. rewrite Hflag. cbn [negb].
  cbv zeta. cbn [fst RecoveryEvents History InitialR CurrentR
                 InSaturationZone].
  change (MaxR StableDNAConstraint) with 3.
  change (MinR StableDNAConstraint) with 1.
  set (newR := CurrentR rd -
                 Qmin ((CurrentR rd - 3) *
                       (1 / (1 + inject_Z (MutableSharedState metrics) /
                                 inject_Z (max (ImmutableOpsVerified metrics)
                                             1))) * (5 # 10))
                   CriticalityScalingRatio).
  assert (newR - 3 == d') as Hnew.
  { subst newR d'. unfold depthAfterPulse, correctionFactor. ring. }
  clearbody newR d'.
  assert (Qabs (newR - 3) == d') as Habs.
  { rewrite Hnew. apply Qabs_pos. exact Hd'. }
  repeat split.
  destruct (Qltb (Qabs (newR - 3)) (1 # 10000)) eqn:Hnudge.
  - left. apply Qltb_iff in Hnudge.
    change (Qltb (3 * (999 # 1000)) 1) with false. cbv iota.
    split; [lra|]. split; [reflexivity|].
    reflexivity.
  - right. apply Qltb_false in Hnudge.
    assert (Qltb newR 1 = false) as H1 by (apply Qltb_false; lra).
    rewrite H1. split; [lra|]. split; [lra|].
    apply Qgeb_iff. lra.
Qed.
(** *** The loop of pulses *)

(** The loop counts its pulses in the recovery events and in the history;
    the initial r stays. *)
Lemma recoveryLoop_bookkeeping (budget : nat)
    (metrics : SystemIntegrityMetrics) :
  forall (rd : RDynamics) (iterations : Z),
  let res := recoveryLoop budget metrics rd iterations in
  RecoveryEvents (fst res) =
    (RecoveryEvents rd + (snd res - iterations))%Z /\
  Z.of_nat (length (History (fst res))) =
    (Z.of_nat (length (History rd)) + (snd res - iterations))%Z /\
  InitialR (fst res) = InitialR rd.
Proof.
  induction budget as [|budget IH]; intros rd iterations; cbn.
  - rewrite Z.sub_diag, !Z.add_0_r. auto.
  - destruct (InSaturationZone rd) eqn:Hflag; cbn.
    + specialize (IH (fst (ApplyRecovery metrics rd)) (iterations + 1)%Z).
      cbv zeta in IH. destruct IH as (He & Hh & Hi).
      rewrite He, Hh, Hi. unfold ApplyRecovery. rewrite Hflag.
      cbn. rewrite length_app. cbn. repeat split; lia.
    + rewrite Z.sub_diag, !Z.add_0_r. auto.
Qed.

(** With a correction factor of at least [F], from a depth of at most [B]
    whose bound falls under 0.0001 with the pulse [k + 1], the loop ends
    within [k + 1] pulses, at r = 2.997. *)
Lemma recoveryLoop_reaches (metrics : SystemIntegrityMetrics) (F : Q) :
  (0 <= MutableSharedState metrics)%Z ->
  0 <= F -> F <= correctionFactor metrics ->
  forall (k budget : nat) (B : Q) (rd : RDynamics) (iterations : Z),
  InSaturationZone rd = true ->
  3 <= CurrentR rd -> CurrentR rd - 3 <= B ->
  (k < budget)%nat ->
  depthAfterPulses (S k) F B < 1 # 10000 ->
  let res := recoveryLoop budget metrics rd iterations in
  InSaturationZone (fst res) = false /\
  CurrentR (fst res) == 2997 # 1000 /\
  (iterations + 1 <= snd res <= iterations + Z.of_nat k + 1)%Z.
Proof.
  intros Hm HF0 HF.
  destruct (correctionFactor_range metrics Hm) as [Hf0 Hf1].
  induction k as [|k IH]; intros budget B rd iterations Hflag Hr HB Hk Hend;
    (destruct budget as [|budget]; [lia|]); cbn [recoveryLoop];
    rewrite Hflag;
    destruct (ApplyRecovery_pulse metrics rd Hflag Hr Hm)
      as (_ & _ & _ & [(Hd & Hr' & Hflag') | (Hd & Hr' & Hflag')]).
  - rewrite recoveryLoop_not_saturated by exact Hflag'.
    cbn [fst snd]. repeat split; [exact Hflag' | exact Hr' | lia | lia].
  - exfalso. cbn in Hend.
    assert (depthAfterPulse (correctionFactor metrics) (CurrentR rd - 3)
            <= depthAfterPulse F B)
      by (apply depthAfterPulse_mono; lra).
    lra.
  - rewrite recoveryLoop_not_saturated by exact Hflag'.
    cbn [fst snd]. repeat split; [exact Hflag' | exact Hr' | lia | lia].
  - assert (depthAfterPulse (correctionFactor metrics) (CurrentR rd - 3)
            <= depthAfterPulse F B) as Hstep
      by (apply depthAfterPulse_mono; lra).
    destruct (IH budget (depthAfterPulse F B)
                (fst (ApplyRecovery metrics rd)) (iterations + 1)%Z)
      as (H1 & H2 & H3).
    + exact Hflag'.
    + lra.
    + lra.
    + lia.
    + exact Hend.
    + repeat split; [exact H1 | exact H2 | lia | lia].
Qed.

(** With a correction factor of at most [F], from a depth of at least [A]
    whose bound is still 0.0001 or more after [budget] pulses, the loop
    uses its whole budget and ends inside the saturation zone. *)
Lemma recoveryLoop_exhausts (metrics : SystemIntegrityMetrics) (F : Q) :
  (0 <= MutableSharedState metrics)%Z ->
  correctionFactor metrics <= F -> F <= 1 ->
  forall (budget : nat) (A : Q) (rd : RDynamics) (iterations : Z),
  InSaturationZone rd = true ->
  0 <= A -> A <= CurrentR rd - 3 ->
  (1 # 10000) <= depthAfterPulses budget F A ->
  let res := recoveryLoop budget metrics rd iterations in
  InSaturationZone (fst res) = true /\
  3 + depthAfterPulses budget F A <= CurrentR (fst res) /\
  snd res = (iterations + Z.of_nat budget)%Z.
Proof.
  intros Hm HF HF1.
  destruct (correctionFactor_range metrics Hm) as [Hf0 Hf1].
  assert (0 <= F) as HF0 by lra.
  induction budget as [|budget IH]; intros A rd iterations Hflag HA0 HA Hend.
  - cbn. repeat split; [exact Hflag | lra | lia].
  - cbn [recoveryLoop]. rewrite Hflag.
    assert (3 <= CurrentR rd) as Hr by lra.
    assert (depthAfterPulse F A <=
            depthAfterPulse (correctionFactor metrics) (CurrentR rd - 3))
      as Hstep by (apply depthAfterPulse_mono; lra).
    destruct (depthAfterPulse_bounds HF0 HF1 HA0) as [Hlo Hhi].
    assert (0 <= depthAfterPulse F A) as HA' by lra.
    cbn [depthAfterPulses] in Hend |- *.
    destruct (depthAfterPulses_nonneg budget HF0 HF1 HA') as [_ Hdec].
    destruct (ApplyRecovery_pulse metrics rd Hflag Hr Hm)
      as (_ & _ & _ & [(Hd & Hr' & Hflag') | (Hd & Hr' & Hflag')]).
    + exfalso. lra.
    + destruct (IH (depthAfterPulse F A) (fst (ApplyRecovery metrics rd))
                  (iterations + 1)%Z) as (H1 & H2 & H3).
      * exact Hflag'.
      * exact HA'.
      * lra.
      * exact Hend.
      * repeat split; [exact H1 | exact H2 | lia].
Qed.
End DynamicsFacts.

(** ** Recovery, from the saturation zone *)

Module RecoveryFacts.
Import Runtime Gov Dynamics RuntimeFacts DynamicsFacts.
Local Open Scope Q_scope.

Lemma saturated_flag (rd : RDynamics) :
  flagConsistent rd -> 3 <= CurrentR rd -> InSaturationZone rd = true.
Proof.
  intros Hflag Hr. rewrite Hflag. apply Qgeb_iff. exact Hr.
Qed.

Lemma correctionFactor_perfect (metrics : SystemIntegrityMetrics) :
  MutableSharedState metrics = 0%Z -> correctionFactor metrics == 1.
Proof.
  intros Hm. unfold correctionFactor. rewrite Hm.
  pose proof (max_denominator_pos (ImmutableOpsVerified metrics)) as Hpos.
  field. lra.
Qed.

Lemma correctionFactor_poor (metrics : SystemIntegrityMetrics) :
  (4 * max (ImmutableOpsVerified metrics) 1 <=
   5 * MutableSharedState metrics)%Z ->
  correctionFactor metrics <= 5 # 9.
Proof.
  intros Hm. unfold correctionFactor.
  pose proof (max_denominator_pos (ImmutableOpsVerified metrics)) as Hpos.
  assert (4 * inject_Z (max (ImmutableOpsVerified metrics) 1) <=
          5 * inject_Z (MutableSharedState metrics)) as Hle.
  { change 4 with (inject_Z 4). change 5 with (inject_Z 5).
    rewrite <- !inject_Z_mult, <- Zle_Qle. exact Hm. }
  set (a := inject_Z (MutableSharedState metrics)) in *.
  set (b := inject_Z (max (ImmutableOpsVerified metrics) 1)) in *.
  clearbody a b.
  assert (1 / (1 + a / b) == b / (b + a)) as -> by (field; split; lra).
  apply Qle_shift_div_r; lra.
Qed.

(** The loop from inside the zone: it ends at 2.997 or inside the zone. *)
Lemma recoveryLoop_outcome (metrics : SystemIntegrityMetrics) :
  (0 <= MutableSharedState metrics)%Z ->
  forall (budget : nat) (rd : RDynamics) (iterations : Z),
  InSaturationZone rd = true -> 3 <= CurrentR rd ->
  let res := recoveryLoop budget metrics rd iterations in
  (InSaturationZone (fst res) = false /\ CurrentR (fst res) == 2997 # 1000) \/
  (InSaturationZone (fst res) = true /\ 3 <= CurrentR (fst res) /\
   CurrentR (fst res) <= CurrentR rd /\
   (budget <> O -> 3 + (1 # 10000) <= CurrentR (fst res))).
Proof.
  intros Hm.
  destruct (correctionFactor_range metrics Hm) as [Hf0 Hf1].
  induction budget as [|budget IH]; intros rd iterations Hflag Hr.
  - right. cbn. repeat split; [exact Hflag | exact Hr | lra | congruence].
  - cbn [recoveryLoop]. rewrite Hflag.
    assert (0 <= CurrentR rd - 3) as Hd by lra.
    assert (0 <= correctionFactor metrics) as Hf0' by lra.
    destruct (depthAfterPulse_bounds Hf0' Hf1 Hd) as [Hlo Hhi].
    destruct (ApplyRecovery_pulse metrics rd Hflag Hr Hm)
      as (_ & _ & _ & [(Hd' & Hr' & Hflag') | (Hd' & Hr' & Hflag')]).
    + left. rewrite recoveryLoop_not_saturated by exact Hflag'.
      cbn [fst]. split; assumption.
    + assert (3 <= CurrentR (fst (Runtime.ApplyRecovery metrics rd))) as Hr3 by lra.
      destruct (IH (fst (Runtime.ApplyRecovery metrics rd)) (iterations + 1)%Z
                  Hflag' Hr3) as [Hout | (H1 & H2 & H3 & H4)].
      * left. exact Hout.
      * right. repeat split; [exact H1 | exact H2 | lra |].
        intros _. destruct budget as [|budget'].
        -- cbn [recoveryLoop fst]. lra.
        -- apply H4. discriminate.
Qed.
(** X1.  [ApplyRecoveryUntilStable] from inside the saturation zone (flag
    set, r >= 3, no negative violation count) has two outcomes only.
    Either it leaves the zone, and then the r it returns is exactly
    3.0 * 0.999 = 2.997, whatever the metrics and the starting r; or it
    stays inside the zone with r between 3.0 and the starting r, having
    used all of [maxIterations].  Either way the iterations it reports are
    between 0 and [maxIterations], and the recovery events and the
    history have grown by that number. *)
Theorem recovery_until_stable_outcome (metrics : SystemIntegrityMetrics)
    (maxIterations : Z) (rd : RDynamics) :
  (0 <= MutableSharedState metrics)%Z ->
  flagConsistent rd ->
  3 <= CurrentR rd ->
  let res := ApplyRecoveryUntilStable metrics maxIterations rd in
  let rd' := fst res in
  let finalR := fst (snd res) in
  let iterations := snd (snd res) in
  finalR = CurrentR rd' /\
  (0 <= iterations <= Z.max 0 maxIterations)%Z /\
  RecoveryEvents rd' = (RecoveryEvents rd + iterations)%Z /\
  Z.of_nat (length (History rd')) =
    (Z.of_nat (length (History rd)) + iterations)%Z /\
  ((InSaturationZone rd' = false /\ finalR == 2997 # 1000) \/
   (InSaturationZone rd' = true /\ 3 <= finalR /\ finalR <= CurrentR rd /\
    iterations = Z.max 0 maxIterations)).
Proof.
  intros Hm Hcons Hr.
  pose proof (saturated_flag Hcons Hr) as Hflag.
  unfold ApplyRecoveryUntilStable.
  pose proof (recoveryLoop_iterations (Z.to_nat maxIterations) metrics
                rd 0%Z) as Hit.
  pose proof (recoveryLoop_bookkeeping (Z.to_nat maxIterations) metrics
                rd 0%Z) as Hbk.
  pose proof (@recoveryLoop_outcome metrics Hm (Z.to_nat maxIterations)
                rd 0%Z Hflag Hr) as Hout.
  cbv zeta in Hit, Hbk, Hout.
  destruct (recoveryLoop (Z.to_nat maxIterations) metrics rd 0%Z)
    as [rd' iterations].
  cbn [fst snd] in *.
  destruct Hit as [Hrange Hfull]. destruct Hbk as (He & Hh & _).
  split; [reflexivity|]. split; [lia|]. split; [lia|]. split; [lia|].
  destruct Hout as [[H1 H2] | (H1 & H2 & H3 & _)].
  - left. split; assumption.
  - right. specialize (Hfull H1). repeat split; try assumption. lia.
Qed.

Lemma recovery_until_stable_outcome_witness :
  let res := ApplyRecoveryUntilStable healthyMetrics 20
               (NewRDynamics (35 # 10)) in
  fst (snd res) = CurrentR (fst res) /\
  (0 <= snd (snd res) <= Z.max 0 20)%Z /\
  RecoveryEvents (fst res) = (0 + snd (snd res))%Z /\
  Z.of_nat (length (History (fst res))) = (1 + snd (snd res))%Z /\
  ((InSaturationZone (fst res) = false /\ fst (snd res) == 2997 # 1000) \/
   (InSaturationZone (fst res) = true /\ 3 <= fst (snd res) /\
    fst (snd res) <= 35 # 10 /\ snd (snd res) = Z.max 0 20)).
Proof.
  apply (@recovery_until_stable_outcome healthyMetrics 20
           (NewRDynamics (35 # 10))).
  - simpl; lia.
  - reflexivity.
  - unfold Qle; simpl; lia.
Defined.

(** X2.  [Governor.ApplyRecovery] with perfect isolation (no mutable
    shared state in the metrics) on a governor whose r is between 3.0 and
    4.0: it returns true, after at least one and at most 15 pulses; r is
    then exactly 2.997 and the saturation flag is down; and the counter
    of throttle events has grown by the number of pulses, as the count of
    recovery events has. *)
Theorem governor_recovery_succeeds (metrics : SystemIntegrityMetrics)
    (g : Governor) :
  MutableSharedState metrics = 0%Z ->
  saturationThreshold g = 3 ->
  flagConsistent (rdynamics g) ->
  3 <= CurrentR (rdynamics g) -> CurrentR (rdynamics g) <= 4 ->
  let g' := fst (Gov.ApplyRecovery metrics g) in
  let pulses :=
    (RecoveryEvents (rdynamics g') - RecoveryEvents (rdynamics g))%Z in
  snd (Gov.ApplyRecovery metrics g) = true /\
  CurrentR (rdynamics g') == 2997 # 1000 /\
  InSaturationZone (rdynamics g') = false /\
  (1 <= pulses <= 15)%Z /\
  throttleEvents g' = (throttleEvents g + pulses)%Z.
Proof.
  intros Hm0 H3 Hcons Hr Hr4.
  pose proof (saturated_flag Hcons Hr) as Hflag.
  assert (0 <= MutableSharedState metrics)%Z as Hm by lia.
  pose proof (correctionFactor_perfect metrics Hm0) as Hf.
  assert (depthAfterPulses 15 1 1 < 1 # 10000) as Hend.
  { rewrite <- depthAfterPulsesRed_correct by lra. vm_compute. reflexivity. }
  assert (0 <= 1) as H01 by lra.
  assert (1 <= correctionFactor metrics) as Hf1 by lra.
  assert (CurrentR (rdynamics g) - 3 <= 1) as HB by lra.
  pose proof (@recoveryLoop_reaches metrics 1 Hm H01 Hf1 14%nat 20%nat 1
                (rdynamics g) 0%Z Hflag Hr HB ltac:(lia) Hend) as Hloop.
  pose proof (recoveryLoop_bookkeeping 20 metrics (rdynamics g) 0%Z) as Hbk.
  cbv zeta in Hloop, Hbk.
  unfold Gov.ApplyRecovery, ApplyRecoveryUntilStable.
  change (Z.to_nat 20) with 20%nat.
  destruct (recoveryLoop 20 metrics (rdynamics g) 0%Z) as [rd' iterations].
  cbn [fst snd] in *.
  destruct Hloop as (H1 & H2 & H4). destruct Hbk as (He & _).
  cbn [setRdynamics saturationThreshold]. rewrite H3.
  assert (Qgeb (CurrentR rd') 3 = false) as Hlt by (apply Qgeb_false; lra).
  rewrite Hlt. cbn.
  repeat split; [exact H2 | exact H1 | lia | lia | lia].
Qed.

Lemma governor_recovery_succeeds_witness :
  let g := NewGovernor 0 (35 # 10) in
  let g' := fst (Gov.ApplyRecovery healthyMetrics g) in
  snd (Gov.ApplyRecovery healthyMetrics g) = true /\
  CurrentR (rdynamics g') == 2997 # 1000 /\
  InSaturationZone (rdynamics g') = false /\
  (1 <= RecoveryEvents (rdynamics g') - 0 <= 15)%Z /\
  throttleEvents g' = (0 + (RecoveryEvents (rdynamics g') - 0))%Z.
Proof.
  apply (@governor_recovery_succeeds healthyMetrics
           (NewGovernor 0 (35 # 10))).
  - reflexivity.
  - reflexivity.
  - reflexivity.
  - unfold Qle; simpl; lia.
  - unfold Qle; simpl; lia.
Defined.
(** X3.  [Governor.ApplyRecovery] fails, whatever the isolation, from
    r >= 7.3, and with violations at four fifths of the verified
    operations or more already from r >= 3.1: it returns false after
    exactly 20 pulses, r is still at 3.0 or above with the saturation flag
    up, and the counter of throttle events is as it was. *)
Theorem governor_recovery_fails (metrics : SystemIntegrityMetrics)
    (g : Governor) :
  (0 <= MutableSharedState metrics)%Z ->
  saturationThreshold g = 3 ->
  flagConsistent (rdynamics g) ->
  (73 # 10) <= CurrentR (rdynamics g) \/
  ((4 * max (ImmutableOpsVerified metrics) 1 <=
    5 * MutableSharedState metrics)%Z /\
   (31 # 10) <= CurrentR (rdynamics g)) ->
  let g' := fst (Gov.ApplyRecovery metrics g) in
  snd (Gov.ApplyRecovery metrics g) = false /\
  RecoveryEvents (rdynamics g') = (RecoveryEvents (rdynamics g) + 20)%Z /\
  InSaturationZone (rdynamics g') = true /\
  3 <= CurrentR (rdynamics g') /\
  throttleEvents g' = throttleEvents g.
Proof.
  intros Hm H3 Hcons Hcase.
  destruct (correctionFactor_range metrics Hm) as [Hf0 Hf1].
  assert (exists F A, correctionFactor metrics <= F /\ F <= 1 /\ 0 <= A /\
                      A <= CurrentR (rdynamics g) - 3 /\
                      (1 # 10000) <= depthAfterPulses 20 F A)
    as (F & A & HF & HF1 & HA0 & HA & Hend).
  { destruct Hcase as [Hr | [Hpoor Hr]].
    - exists 1, (43 # 10). repeat split; try lra.
      rewrite <- depthAfterPulsesRed_correct by lra.
      vm_compute. discriminate.
    - exists (5 # 9), (1 # 10). repeat split; try lra.
      + now apply correctionFactor_poor.
      + rewrite <- depthAfterPulsesRed_correct by lra.
        vm_compute. discriminate. }
  assert (3 <= CurrentR (rdynamics g)) as Hr by lra.
  pose proof (saturated_flag Hcons Hr) as Hflag.
  pose proof (@recoveryLoop_exhausts metrics F Hm HF HF1 20%nat A
                (rdynamics g) 0%Z Hflag HA0 HA Hend) as Hloop.
  pose proof (recoveryLoop_bookkeeping 20 metrics (rdynamics g) 0%Z) as Hbk.
  cbv zeta in Hloop, Hbk.
  unfold Gov.ApplyRecovery, ApplyRecoveryUntilStable.
  change (Z.to_nat 20) with 20%nat.
  destruct (recoveryLoop 20 metrics (rdynamics g) 0%Z) as [rd' iterations].
  cbn [fst snd] in *.
  destruct Hloop as (H1 & H2 & H4). destruct Hbk as (He & _).
  cbn [setRdynamics saturationThreshold]. rewrite H3.
  assert (0 <= F) as HF0 by lra.
  destruct (depthAfterPulses_nonneg 20 HF0 HF1 HA0) as [Hpos _].
  assert (Qgeb (CurrentR rd') 3 = true) as Hge by (apply Qgeb_iff; lra).
  rewrite Hge. cbn.
  repeat split; [lia | exact H1 | lra].
Qed.

Lemma governor_recovery_fails_witness :
  let metrics := withMutableSharedState 80 healthyMetrics in
  let g := NewGovernor 0 (38 # 10) in
  let g' := fst (Gov.ApplyRecovery metrics g) in
  snd (Gov.ApplyRecovery metrics g) = false /\
  RecoveryEvents (rdynamics g') = (0 + 20)%Z /\
  InSaturationZone (rdynamics g') = true /\
  3 <= CurrentR (rdynamics g') /\
  throttleEvents g' = 0%Z.
Proof.
  apply (@governor_recovery_fails (withMutableSharedState 80 healthyMetrics)
           (NewGovernor 0 (38 # 10))).
  - simpl; lia.
  - reflexivity.
  - reflexivity.
  - right. split; [simpl; lia | unfold Qle; simpl; lia].
Defined.
End RecoveryFacts.

(** ** Runs of the governor *)

Module GovRunFacts.
Import Runtime Gov GovRuns RuntimeFacts GovFacts.
Local Open Scope Q_scope.

Lemma tally_cons (t : ActionType) (a : Action) (acts : list Action) :
  tally t (a :: acts) =
  ((if ActionType_eqb (ActType a) t then 1 else 0) + tally t acts)%Z.
Proof.
  unfold tally. cbn [filter].
  destruct (ActionType_eqb (ActType a) t); cbn [length]; lia.
Qed.

Lemma last_cons_default (A : Type) (l : list A) :
  forall x d : A, last (x :: l) d = last l x.
Proof.
  induction l as [|y l IH]; intros x d; [reflexivity|].
  change (last (x :: y :: l) d) with (last (y :: l) d).
  now rewrite !IH.
Qed.

(** What one evaluation does to the counters, the history and the clock
    reading, and what the action carries. *)
Lemma CheckStructuralIntegrity_counters now metrics g :
  let res := CheckStructuralIntegrity now metrics g in
  let g' := fst res in
  let a := snd res in
  deployBlocked g' = (deployBlocked g + tally ActionBlockDeploy [a])%Z /\
  warnings g' = (warnings g + tally ActionWarning [a])%Z /\
  (throttleEvents g <= throttleEvents g' <=
   throttleEvents g + tally ActionThrottle [a])%Z /\
  RecoveryEvents (rdynamics g') = RecoveryEvents (rdynamics g) /\
  InitialR (rdynamics g') = InitialR (rdynamics g) /\
  History (rdynamics g') =
    History (rdynamics g) ++ [CalculateSystemDNA metrics] /\
  CurrentR (rdynamics g') = CalculateSystemDNA metrics /\
  lastCheck g' = now /\
  Metrics a = metrics /\ Timestamp a = now.
Proof.
  cbv zeta. gov_paths; cbn; repeat split; lia.
Qed.

(** X5.  The statistics of a governor after a run of evaluations are the
    tallies of the actions it returned: [deploys_blocked] has grown by the
    number of [ActionBlockDeploy], [warnings_issued] by the number of
    [ActionWarning], [throttles_applied] by no more than the number of
    [ActionThrottle]; [history_length] has grown by one per evaluation,
    [current_r] is the r of the last metrics, [recovery_events] and
    [initial_r] are as before; and every action carries the metrics and
    the clock reading of its evaluation, in order. *)
Theorem statistics_tally (calls : list (Z * SystemIntegrityMetrics))
    (g : Governor) :
  let g' := fst (evaluations calls g) in
  let acts := snd (evaluations calls g) in
  let s := GetStatistics g in
  let s' := GetStatistics g' in
  deploys_blocked s' = (deploys_blocked s + tally ActionBlockDeploy acts)%Z /\
  warnings_issued s' = (warnings_issued s + tally ActionWarning acts)%Z /\
  (throttles_applied s <= throttles_applied s' <=
   throttles_applied s + tally ActionThrottle acts)%Z /\
  history_length s' = (history_length s + Z.of_nat (length calls))%Z /\
  current_r s' =
    last (map (fun c => CalculateSystemDNA (snd c)) calls) (current_r s) /\
  recovery_events s' = recovery_events s /\
  initial_r s' = initial_r s /\
  map Metrics acts = map snd calls /\
  map Timestamp acts = map fst calls.
Proof.
  revert g. induction calls as [|[now metrics] rest IH]; intros g.
  - cbn. unfold tally. cbn. repeat split; lia.
  - cbn [evaluations].
    pose proof (CheckStructuralIntegrity_counters now metrics g) as Hstep.
    cbv zeta in Hstep.
    destruct (CheckStructuralIntegrity now metrics g) as [g1 a].
    specialize (IH g1). cbv zeta in IH.
    destruct (evaluations rest g1) as [g2 acts].
    cbn [fst snd] in *.
    destruct Hstep as (S1 & S2 & S3 & S4 & S5 & S6 & S7 & _ & S9 & S10).
    destruct IH as (I1 & I2 & I3 & I4 & I5 & I6 & I7 & I8 & I9).
    unfold GetStatistics in *.
    cbn [deploys_blocked warnings_issued throttles_applied history_length
         current_r recovery_events initial_r] in *.
    rewrite S6, length_app in I4. cbn [length] in I4.
    rewrite !tally_cons. rewrite tally_cons in S1, S2, S3.
    change (tally _ []) with 0%Z in S1, S2, S3.
    cbn [map length fst snd].
    repeat split; try lia; try congruence.
    rewrite I5, S7. symmetry. apply last_cons_default.
Qed.


End GovRunFacts.

(** ** Simulated trajectories *)

Module TrajectoryFacts.
Import Runtime Dynamics RuntimeFacts DynamicsFacts.
Local Open Scope Q_scope.

Lemma applyEvent_floor (floor : Q) (rd : RDynamics) (event : REvent) :
  floor <= 2997 # 1000 ->
  (0 <= MutableSharedState (EventMetrics event))%Z ->
  0 <= EventScalingRatio event ->
  flagConsistent rd -> floor <= CurrentR rd ->
  flagConsistent (applyEvent rd event) /\
  floor <= CurrentR (applyEvent rd event).
Proof.
  intros Hfloor Hm Hs Hcons Hr. unfold applyEvent.
  destruct (String.eqb (EventType event) "scaling").
  - split; [apply ApplyFeigenbaumGovernance_flagConsistent|].
    cbn [ApplyFeigenbaumGovernance fst CurrentR].
    assert (0 <= 1 / (FeigenbaumDelta * FeigenbaumDelta)) as Hk
      by (vm_compute; discriminate).
    set (k := 1 / (FeigenbaumDelta * FeigenbaumDelta)) in *. clearbody k.
    nra.
  - destruct (String.eqb (EventType event) "recovery").
    + split; [now apply ApplyRecovery_flagConsistent|].
      destruct (InSaturationZone rd) eqn:Hflag.
      * assert (3 <= CurrentR rd) as H3
          by (rewrite Hcons in Hflag; now apply Qgeb_iff in Hflag).
        destruct (ApplyRecovery_pulse (EventMetrics event) rd Hflag H3 Hm)
          as (_ & _ & _ & [(_ & Hr' & _) | (Hd & Hr' & _)]); lra.
      * rewrite ApplyRecovery_not_saturated by exact Hflag. exact Hr.
    + destruct (String.eqb (EventType event) "violation").
      * cbv zeta. split; [reflexivity|]. cbn [CurrentR].
        pose proof (@isolationRatio_nonneg _
                      (ImmutableOpsVerified (EventMetrics event)) Hm).
        lra.
      * split; assumption.
Qed.

Lemma simulate_floor (floor : Q) (events : list REvent) :
  floor <= 2997 # 1000 ->
  Forall (fun e => (0 <= MutableSharedState (EventMetrics e))%Z /\
                   0 <= EventScalingRatio e) events ->
  forall rd : RDynamics,
  flagConsistent rd -> floor <= CurrentR rd ->
  Forall (fun r => floor <= r) (snd (simulate rd events)) /\
  length (snd (simulate rd events)) = length events.
Proof.
  intros Hfloor Hall. induction Hall as [|event rest [Hm Hs] _ IH];
    intros rd Hcons Hr.
  - cbn. split; [constructor | reflexivity].
  - cbn [simulate]. cbv zeta.
    destruct (@applyEvent_floor floor rd event Hfloor Hm Hs Hcons Hr)
      as [Hcons' Hr'].
    specialize (IH (applyEvent rd event) Hcons' Hr').
    destruct (simulate (applyEvent rd event) rest) as [rd' rs].
    cbn [snd length] in *. destruct IH as [IH1 IH2].
    split; [constructor; assumption | now rewrite IH2].
Qed.

(** X10.  A trajectory of [SimulateRTrajectory] over events with no
    negative violation count and no negative scaling ratio holds one
    value of r per event after the initial one, starts at the initial r,
    and never goes below the smaller of the initial r and 2.997: no
    sequence of scaling, recovery and violation events brings r under
    the value that the boundary nudge of a recovery sets. *)
Theorem trajectory_floor (initialR : Q) (events : list REvent) :
  Forall (fun e => (0 <= MutableSharedState (EventMetrics e))%Z /\
                   0 <= EventScalingRatio e) events ->
  let t := SimulateRTrajectory initialR events in
  Events t = events /\
  length (R t) = S (length events) /\
  hd 0 (R t) = initialR /\
  Forall (fun r => Qmin initialR (2997 # 1000) <= r) (R t).
Proof.
  intros Hall. cbv zeta. unfold SimulateRTrajectory. cbn [Events R hd].
  destruct (@simulate_floor (Qmin initialR (2997 # 1000)) events
              (Q.le_min_r _ _) Hall (NewRDynamics initialR)
              (NewRDynamics_flagConsistent initialR) (Q.le_min_l _ _))
    as [Hfl Hlen].
  repeat split.
  - cbn [length]. now rewrite Hlen.
  - constructor; [apply Q.le_min_l | exact Hfl].
Qed.

Lemma trajectory_floor_witness :
  let events := [violationEvent (violations_of 250);
                 recoveryEvent healthyMetrics;
                 scalingEvent (2 # 10);
                 recoveryEvent healthyMetrics] in
  let t := SimulateRTrajectory 1 events in
  Events t = events /\
  length (R t) = 5%nat /\
  hd 0 (R t) = 1 /\
  Forall (fun r => Qmin 1 (2997 # 1000) <= r) (R t).
Proof.
  apply (@trajectory_floor 1).
  repeat constructor; cbn; try lia; unfold Qle; cbn; lia.
Defined.

End TrajectoryFacts.

(** ** Predictions of the fitted model *)

Module PredictFacts.
Import USL USLFacts.
Local Open Scope Q_scope.









End PredictFacts.

(** ** The window of the tail tracker *)

Module TailWindowFacts.
Import Tail TailWindow TailFacts.
Local Open Scope Z_scope.

Lemma store_middle (A B : list Z) (y x : Z) :
  store (A ++ y :: B) (length A) x = A ++ x :: B.
Proof.
  induction A as [|a A IH]; [reflexivity|].
  cbn. now rewrite IH.
Qed.

Lemma split_at (l : list Z) (i : nat) :
  (i < length l)%nat ->
  exists A y B, l = A ++ y :: B /\ length A = i.
Proof.
  intros Hi. exists (firstn i l), (nth i l 0), (skipn (S i) l). split.
  - rewrite <- (firstn_skipn i l) at 1. f_equal.
    clear - Hi. revert i Hi. induction l as [|a l IH]; intros [|i] Hi;
      cbn in *; try lia; [reflexivity|].
    apply IH. lia.
  - apply firstn_length_le. lia.
Qed.

Lemma skipn_prefix (A L : list Z) : skipn (length A) (A ++ L) = L.
Proof.
  induction A as [|a A IH]; [reflexivity | exact IH].
Qed.

Lemma firstn_prefix (A L : list Z) : firstn (length A) (A ++ L) = A.
Proof.
  induction A as [|a A IH]; [now destruct L | cbn; now rewrite IH].
Qed.

Lemma skipn_prefix_cons (A B : list Z) (x : Z) :
  skipn (S (length A)) (A ++ x :: B) = B.
Proof.
  induction A as [|a A IH]; [reflexivity | exact IH].
Qed.

Lemma firstn_prefix_cons (A B : list Z) (x : Z) :
  firstn (S (length A)) (A ++ x :: B) = A ++ [x].
Proof.
  induction A as [|a A IH]; [reflexivity|].
  cbn [length app]. rewrite firstn_cons. now rewrite IH.
Qed.

(** [Record] drops the oldest latency of the unrolled buffer and appends
    the new one. *)
Lemma RecordLatency_unrolled (x : Z) (t : TailDivergenceTracker) :
  0 < maxSamples t ->
  length (samples t) = Z.to_nat (maxSamples t) ->
  0 <= writeIndex t < maxSamples t ->
  unrolled (RecordLatency x t) = tl (unrolled t) ++ [x].
Proof.
  intros HM Hlen Hi. unfold unrolled, RecordLatency.
  cbn [samples writeIndex maxSamples].
  destruct (@split_at (samples t) (Z.to_nat (writeIndex t)))
    as (A & y & B & Hs & HA); [lia|].
  assert (length (samples t) = (length A + S (length B))%nat) as Hl
    by (rewrite Hs, length_app; reflexivity).
  rewrite Hs, <- HA, store_middle, skipn_prefix, firstn_prefix.
  cbn [tl app].
  destruct (Z.eq_dec (writeIndex t + 1) (maxSamples t)) as [Hwrap | Hno].
  - rewrite Hwrap, Z.rem_same by lia.
    assert (B = []) as -> by (destruct B; [reflexivity | cbn in *; lia]).
    cbn. now rewrite app_nil_r.
  - rewrite Z.rem_small by lia.
    replace (Z.to_nat (writeIndex t + 1)) with (S (length A)) by lia.
    rewrite skipn_prefix_cons, firstn_prefix_cons.
    now rewrite app_assoc.
Qed.
Lemma capacityOf_pos (capacity : Z) : 0 < capacityOf capacity.
Proof.
  unfold capacityOf. destruct (capacity <=? 0) eqn:H; [lia|].
  apply Z.leb_gt in H. exact H.
Qed.

Lemma recorded_snoc (capacity : Z) (latencies : list Z) (x : Z) :
  recorded capacity (latencies ++ [x]) =
  RecordLatency x (recorded capacity latencies).
Proof.
  unfold recorded. now rewrite fold_left_app.
Qed.

Lemma skipn_snoc (L : list Z) (x : Z) :
  forall n : nat, (n < length L)%nat ->
  tl (skipn n L) ++ [x] = skipn (S n) (L ++ [x]).
Proof.
  induction L as [|a L IH]; intros n Hn; [cbn in Hn; lia|].
  destruct n as [|n]; [reflexivity|].
  cbn [length] in Hn. rewrite skipn_cons. rewrite IH by lia. reflexivity.
Qed.

(** After the latencies [l] the buffer, unrolled, is the end of the
    latencies behind the zeros of the allocation. *)
Lemma recorded_shape (capacity : Z) (latencies : list Z) :
  let t := recorded capacity latencies in
  let size := capacityOf capacity in
  maxSamples t = size /\
  length (samples t) = Z.to_nat size /\
  writeIndex t = Z.of_nat (length latencies) mod size /\
  sampleCount t = Z.of_nat (length latencies) /\
  unrolled t =
    skipn (length latencies) (repeat 0 (Z.to_nat size) ++ latencies).
Proof.
  cbv zeta. pose proof (capacityOf_pos capacity) as Hpos.
  induction latencies as [|x l IH] using rev_ind.
  - unfold recorded, NewTailDivergenceTracker, unrolled. cbn.
    fold (capacityOf capacity).
    rewrite repeat_length. auto.
  - destruct IH as (HM & Hlen & Hi & Hc & Hu).
    rewrite recorded_snoc, length_app. cbn [length].
    assert (0 <= writeIndex (recorded capacity l) <
            maxSamples (recorded capacity l)) as Hrange
      by (rewrite Hi, HM; apply Z.mod_pos_bound; lia).
    rewrite RecordLatency_unrolled by (rewrite ?HM; assumption || lia).
    unfold RecordLatency. cbn [maxSamples samples writeIndex sampleCount].
    rewrite store_length, HM, Hi, Hc, Hu.
    repeat split; try lia.
    + rewrite Z.rem_mod_nonneg by (rewrite <- ?Hi; lia).
      rewrite Zplus_mod_idemp_l. f_equal. lia.
    + rewrite Nat.add_1_r, app_assoc. apply skipn_snoc.
      rewrite length_app, repeat_length. lia.
Qed.
Lemma app_same_length (A B A' B' : list Z) :
  A ++ B = A' ++ B' -> length A = length A' -> B = B'.
Proof.
  revert A'. induction A as [|a A IH]; intros [|a' A'] Heq Hlen;
    cbn in *; try lia; [exact Heq|].
  injection Heq as _ Heq. apply (IH A'); [exact Heq | lia].
Qed.

(** The part of the buffer that the percentiles and the mean read holds
    the last latencies, as many as the buffer takes. *)
Lemma live_region (capacity : Z) (latencies : list Z) :
  let t := recorded capacity latencies in
  let size := capacityOf capacity in
  effectiveSampleCount t = Z.min (Z.of_nat (length latencies)) size /\
  Z.of_nat (length (window size latencies)) = effectiveSampleCount t /\
  Permutation (firstn (Z.to_nat (effectiveSampleCount t)) (samples t))
              (window size latencies).
Proof.
  cbv zeta. pose proof (capacityOf_pos capacity) as Hpos.
  destruct (recorded_shape capacity latencies) as (HM & Hlen & Hi & Hc & Hu).
  cbv zeta in *. unfold effectiveSampleCount, window. rewrite Hc, HM.
  set (t := recorded capacity latencies) in *.
  set (size := capacityOf capacity) in *.
  destruct (Z.of_nat (length latencies) <? size) eqn:Hcmp.
  - apply Z.ltb_lt in Hcmp.
    replace (length latencies - Z.to_nat size)%nat with 0%nat by lia.
    cbn [skipn]. split; [lia|]. split; [reflexivity|].
    unfold unrolled in Hu. rewrite Hi, Z.mod_small, Nat2Z.id in Hu by lia.
    rewrite skipn_app in Hu.
    apply app_same_length in Hu.
    + rewrite repeat_length in Hu.
      replace (length latencies - Z.to_nat size)%nat with 0%nat in Hu
        by lia.
      cbn [skipn] in Hu. rewrite Nat2Z.id, Hu. apply Permutation_refl.
    + rewrite !length_skipn, repeat_length. lia.
  - apply Z.ltb_ge in Hcmp. split; [lia|]. split.
    + rewrite length_skipn. lia.
    + rewrite firstn_all2 by lia.
      unfold unrolled in Hu. rewrite skipn_app, repeat_length in Hu.
      rewrite (skipn_all2 (repeat 0 (Z.to_nat size))) in Hu
        by (rewrite repeat_length; lia).
      cbn [app] in Hu. rewrite <- Hu.
      rewrite <- (firstn_skipn (Z.to_nat (writeIndex t)) (samples t)) at 1.
      apply Permutation_app_comm.
Qed.

Lemma sorted_permutation_eq (l1 : list Z) :
  forall l2 : list Z,
  StronglySorted Z.le l1 -> StronglySorted Z.le l2 ->
  Permutation l1 l2 -> l1 = l2.
Proof.
  induction l1 as [|a l1 IH]; intros l2 H1 H2 Hperm.
  - apply Permutation_nil in Hperm. now subst.
  - destruct l2 as [|b l2];
      [apply Permutation_sym, Permutation_nil in Hperm; discriminate|].
    apply StronglySorted_inv in H1. destruct H1 as [H1 Ha].
    apply StronglySorted_inv in H2. destruct H2 as [H2 Hb].
    rewrite Forall_forall in Ha, Hb.
    assert (a = b) as ->.
    { assert (In a (b :: l2)) as Hin
        by (eapply Permutation_in; [exact Hperm | now left]).
      assert (In b (a :: l1)) as Hin'
        by (eapply Permutation_in;
            [apply Permutation_sym; exact Hperm | now left]).
      destruct Hin as [-> | Hin]; [reflexivity|].
      destruct Hin' as [-> | Hin']; [reflexivity|].
      pose proof (Ha _ Hin'). pose proof (Hb _ Hin). lia. }
    f_equal. apply IH; try assumption.
    now apply Permutation_cons_inv in Hperm.
Qed.

Lemma sort_permutation (l1 l2 : list Z) :
  Permutation l1 l2 -> DurationSort.sort l1 = DurationSort.sort l2.
Proof.
  intros Hperm. apply sorted_permutation_eq; try apply sort_StronglySorted.
  eapply Permutation_trans;
    [apply Permutation_sym, DurationSort.Permuted_sort|].
  eapply Permutation_trans; [exact Hperm|].
  apply DurationSort.Permuted_sort.
Qed.
Lemma fold_left_add (l : list Z) :
  forall a : Z, fold_left Z.add l a = a + fold_left Z.add l 0.
Proof.
  induction l as [|x l IH]; intros a; cbn; [lia|].
  rewrite (IH (a + x)), (IH x). lia.
Qed.

Lemma total_permutation (l1 l2 : list Z) :
  Permutation l1 l2 -> fold_left Z.add l1 0 = fold_left Z.add l2 0.
Proof.
  induction 1 as [|x l1 l2 _ IH|x y l|l1 l2 l3 _ IH1 _ IH2]; cbn.
  - reflexivity.
  - rewrite (fold_left_add l1 x), (fold_left_add l2 x). lia.
  - rewrite (fold_left_add l (y + x)), (fold_left_add l (x + y)). lia.
  - congruence.
Qed.

Lemma total_bounds (lo hi : Z) (l : list Z) :
  Forall (fun x => lo <= x <= hi) l ->
  Z.of_nat (length l) * lo <= fold_left Z.add l 0 <=
  Z.of_nat (length l) * hi.
Proof.
  induction 1 as [|x l Hx _ IH]; cbn [fold_left length]; [lia|].
  rewrite (fold_left_add l (0 + x)), Nat2Z.inj_succ. lia.
Qed.

Lemma quot_between (lo hi total k : Z) :
  0 < k -> k * lo <= total <= k * hi -> lo <= Z.quot total k <= hi.
Proof.
  intros Hk Hb.
  pose proof (Z.quot_rem' total k) as Hqr.
  destruct (Z_le_gt_dec 0 total) as [Hpos | Hneg].
  - pose proof (Z.rem_bound_pos total k Hpos Hk). nia.
  - assert (0 <= - total) as Hn by lia.
    pose proof (Z.rem_bound_pos (- total) k Hn Hk) as Hr.
    rewrite Z.rem_opp_l in Hr by lia. nia.
Qed.

(** An [int64] sum of durations that are not negative does not wrap
    around while their exact sum is within [int64]. *)
Lemma wrap_in_range (z : Z) :
  - 2 ^ 63 <= z < 2 ^ 63 -> Int64.wrap z = z.
Proof.
  intros Hz. unfold Int64.wrap. rewrite Z.mod_small; lia.
Qed.

Lemma total_nonneg (l : list Z) :
  Forall (fun x => 0 <= x) l -> 0 <= fold_left Z.add l 0.
Proof.
  induction 1 as [|x l Hx _ IH]; cbn [fold_left]; [lia|].
  rewrite (fold_left_add l (0 + x)). lia.
Qed.

Lemma sum_without_overflow (l : list Z) :
  forall acc : Z,
  0 <= acc -> Forall (fun x => 0 <= x) l ->
  acc + fold_left Z.add l 0 <= Int64.maxInt64 ->
  fold_left Int64.add l acc = fold_left Z.add l acc.
Proof.
  unfold Int64.maxInt64.
  induction l as [|x l IH]; intros acc Hacc Hall Hsum; [reflexivity|].
  inversion Hall as [|? ? Hx Hl]; subst.
  cbn [fold_left] in *. rewrite (fold_left_add l (0 + x)) in Hsum.
  pose proof (total_nonneg Hl) as Hrest.
  unfold Int64.add at 2. rewrite wrap_in_range by lia.
  apply IH; [lia | exact Hl | lia].
Qed.

Lemma window_In (size : Z) (latencies : list Z) (x : Z) :
  In x (window size latencies) -> In x latencies.
Proof.
  unfold window. intros Hin.
  rewrite <- (firstn_skipn (length latencies - Z.to_nat size) latencies).
  apply in_or_app. now right.
Qed.

(** X16.  The tracker is a sliding window.  After any run of [Record]
    calls on a new tracker, [sampleCount] is the number of calls, and
    every percentile ([P50], [P99], [P999]) is the percentile of the last
    [maxSamples] latencies recorded, of all of them while there are
    fewer: older latencies have no influence, and the zeros of the
    allocation have none either. *)
Theorem percentiles_of_window (capacity : Z) (latencies : list Z) (p : Q) :
  let t := recorded capacity latencies in
  let w := window (capacityOf capacity) latencies in
  sampleCount t = Z.of_nat (length latencies) /\
  Z.of_nat (length w) =
    Z.min (Z.of_nat (length latencies)) (capacityOf capacity) /\
  percentile p t = percentileOf p w /\
  P50 t = percentileOf (50 # 100) w /\
  P99 t = percentileOf (99 # 100) w /\
  P999 t = percentileOf (999 # 1000) w.
Proof.
  cbv zeta.
  destruct (live_region capacity latencies) as (Heff & Hlen & Hperm).
  destruct (recorded_shape capacity latencies) as (_ & _ & _ & Hc & _).
  cbv zeta in *.
  assert (forall q, percentile q (recorded capacity latencies) =
                    percentileOf q (window (capacityOf capacity) latencies))
    as Hall.
  { intros q. rewrite percentile_unfold. cbv zeta.
    rewrite (sort_permutation Hperm), <- Hlen. unfold percentileOf.
    destruct (window (capacityOf capacity) latencies) as [|x w];
      [reflexivity|].
    cbn [length]. rewrite Nat2Z.inj_succ.
    destruct (Z.succ (Z.of_nat (length w)) =? 0) eqn:H0;
      [apply Z.eqb_eq in H0; lia|].
    reflexivity. }
  repeat split; try apply Hall; [exact Hc | lia].
Qed.

(** X17.  [Mean] of a tracker after a run of [Record] calls of latencies
    that are not negative, when the sum of the last [maxSamples] of them
    (of all of them while there are fewer) is within [int64]: it is that
    sum divided, with truncation, by their number, and 0 when nothing
    was recorded; it lies within any bounds that hold for the latencies
    recorded. *)
Theorem Mean_of_window (capacity : Z) (latencies : list Z) :
  Forall (fun x => 0 <= x) latencies ->
  fold_left Z.add (window (capacityOf capacity) latencies) 0
    <= Int64.maxInt64 ->
  let t := recorded capacity latencies in
  Mean t = meanOf (window (capacityOf capacity) latencies) /\
  (forall lo hi : Z,
     Forall (fun x => lo <= x <= hi) latencies -> latencies <> [] ->
     lo <= Mean t <= hi).
Proof.
  intros Hnonneg Hfits. cbv zeta.
  destruct (live_region capacity latencies) as (Heff & Hlen & Hperm).
  destruct (recorded_shape capacity latencies) as (_ & _ & _ & Hc & _).
  pose proof (capacityOf_pos capacity) as Hpos.
  cbv zeta in *.
  assert (Mean (recorded capacity latencies) =
          meanOf (window (capacityOf capacity) latencies)) as Hmean.
  { unfold Mean. cbv zeta.
    rewrite sum_without_overflow.
    2: lia.
    2: { rewrite Forall_forall in Hnonneg |- *. intros y Hy.
         apply Hnonneg. eapply window_In.
         apply (Permutation_in _ Hperm). exact Hy. }
    2: { rewrite (total_permutation Hperm). lia. }
    rewrite Hc, (total_permutation Hperm), <- Hlen.
    unfold meanOf.
    destruct (window (capacityOf capacity) latencies) as [|x w] eqn:Hw.
    - destruct (Z.of_nat (length latencies) =? 0) eqn:H0; [reflexivity|].
      apply Z.eqb_neq in H0. cbn [length] in Hlen. lia.
    - destruct (Z.of_nat (length latencies) =? 0) eqn:H0; [|reflexivity].
      apply Z.eqb_eq in H0. cbn [length] in Hlen. lia. }
  split; [exact Hmean|].
  intros lo hi Hall Hne. rewrite Hmean. unfold meanOf.
  destruct (window (capacityOf capacity) latencies) as [|x w] eqn:Hw.
  - exfalso. cbn [length] in Hlen.
    destruct latencies; [now apply Hne | cbn [length] in *; lia].
  - apply quot_between; [cbn [length]; lia|].
    apply total_bounds. rewrite <- Hw.
    rewrite Forall_forall in Hall |- *.
    intros y Hy. apply Hall. eapply window_In. exact Hy.
Qed.

Lemma Mean_of_window_witness :
  let t := recorded 4 [5; 10; 10000; 7; 3; 12] in
  Mean t = meanOf [10000; 7; 3; 12] /\ 3 <= Mean t <= 10000.
Proof.
  destruct (@Mean_of_window 4 [5; 10; 10000; 7; 3; 12]) as [Hm Hb].
  - repeat constructor; lia.
  - vm_compute. discriminate.
  - split; [exact Hm|]. apply Hb.
    + repeat constructor; lia.
    + discriminate.
Defined.

(** The sum wraps around: two latencies of 2^63 - 1 ns have the mean
    -1 ns. *)
Lemma Mean_wraps_around :
  Mean (recorded 4 [Int64.maxInt64; Int64.maxInt64]) = -1.
Proof. reflexivity. Qed.

End TailWindowFacts.

(** ** The decisions of the autoscaler *)

Module ScalingFacts.
Import Autoscaler AutoscalerFacts.
Local Open Scope float_scope.

(** *** The order of binary64 numbers *)

Lemma SFcompare_refl (x : spec_float) :
  SFcompare x x = match x with S754_nan => None | _ => Some Eq end.
Proof.
  destruct x as [s | s | | s m e]; cbn; try reflexivity.
  - now destruct s.
  - rewrite Z.compare_refl, Pos.compare_cont_refl. now destruct s.
Qed.

Lemma SFleb_trans (x y z : spec_float) :
  SFleb x y = true -> SFleb y z = true -> SFleb x z = true.
Proof.
  unfold SFleb.
  destruct x as [sx | sx | | sx mx ex], y as [sy | sy | | sy my ey],
           z as [sz | sz | | sz mz ez]; cbn;
    try discriminate; try reflexivity;
    try (destruct sx; cbn; congruence);
    try (destruct sy; cbn; congruence);
    try (destruct sz; cbn; congruence);
    try (destruct sx, sy; cbn; congruence);
    try (destruct sx, sz; cbn; congruence);
    try (destruct sy, sz; cbn; congruence);
    try (destruct sx, sy, sz; cbn; congruence).
  destruct sx, sy, sz; cbn; try congruence;
    rewrite !Pos.compare_cont_spec;
    destruct (Z.compare_spec ex ey), (Z.compare_spec ey ez),
             (Z.compare_spec ex ez); subst; cbn; try congruence; try lia;
    try (destruct (Pos.compare_spec mx my), (Pos.compare_spec my mz),
                  (Pos.compare_spec mx mz); subst; cbn; congruence || lia).
Qed.

Lemma leb_trans (x y z : float) :
  (x <=? y) = true -> (y <=? z) = true -> (x <=? z) = true.
Proof.
  rewrite !leb_spec. apply SFleb_trans.
Qed.

Lemma is_nan_Prim2SF (x : float) :
  is_nan x = true <-> Prim2SF x = S754_nan.
Proof.
  unfold is_nan. rewrite FloatAxioms.eqb_spec. unfold SFeqb.
  rewrite SFcompare_refl.
  destruct (Prim2SF x); cbn; split; congruence.
Qed.

(** A NaN compares false with everything. *)
Lemma nan_unordered (x y : float) :
  is_nan x = true ->
  (x <=? y) = false /\ (y <=? x) = false /\
  (x <? y) = false /\ (y <? x) = false.
Proof.
  intros Hnan. apply is_nan_Prim2SF in Hnan.
  rewrite !leb_spec, !ltb_spec. unfold SFleb, SFltb. rewrite Hnan.
  cbn. destruct (Prim2SF y); cbn; auto.
Qed.

(** Two numbers, neither a NaN, are ordered one way or the other. *)
Lemma leb_or_ltb (x y : float) :
  is_nan x = false -> is_nan y = false ->
  ((x <=? y) = true /\ (y <? x) = false) \/
  ((x <=? y) = false /\ (y <? x) = true).
Proof.
  intros Hx Hy.
  assert (Prim2SF x <> S754_nan) as Hx'
    by (intros H; apply is_nan_Prim2SF in H; congruence).
  assert (Prim2SF y <> S754_nan) as Hy'
    by (intros H; apply is_nan_Prim2SF in H; congruence).
  rewrite leb_spec, ltb_spec. unfold SFleb, SFltb.
  rewrite (SFcompare_antisym (Prim2SF x) (Prim2SF y)).
  destruct (Prim2SF x) as [sx | sx | | sx mx ex];
    destruct (Prim2SF y) as [sy | sy | | sy my ey];
    try congruence; cbn;
    repeat match goal with
           | |- context [match ?c with _ => _ end] => destruct c; cbn
           end; auto.
Qed.

(** Below a threshold is below every threshold above it. *)
Lemma ltb_below (x a b : float) :
  (x <? a) = true -> (a <=? b) = true ->
  (b <=? x) = false /\ (x <? b) = true.
Proof.
  intros Hxa Hab.
  assert (is_nan x = false) as Hx.
  { destruct (is_nan x) eqn:E; [|reflexivity].
    destruct (@nan_unordered x a E) as (_ & _ & H & _). congruence. }
  assert (is_nan b = false) as Hb.
  { destruct (is_nan b) eqn:E; [|reflexivity].
    destruct (@nan_unordered b a E) as (_ & H & _). congruence. }
  destruct (@leb_or_ltb b x Hb Hx) as [[Hle _] | [Hle Hlt]].
  - exfalso. pose proof (@leb_trans a b x Hab Hle) as Hax.
    rewrite (@ltb_true_leb_false x a Hxa) in Hax. discriminate.
  - split; assumption.
Qed.

(** At a threshold is at every threshold below it. *)
Lemma leb_above (x a b : float) :
  (a <=? x) = true -> (b <=? a) = true ->
  (b <=? x) = true /\ (x <? b) = false.
Proof.
  intros Hax Hba. pose proof (@leb_trans b a x Hba Hax) as Hbx.
  split; [exact Hbx | now apply leb_true_ltb_false].
Qed.
(** *** The band of r *)

(** Every r is a NaN or lies in one of five bands, and the band fixes
    the outcome of each test of [ShouldScale]. *)
Lemma band_of (r : float) :
  (is_nan r = true /\
   (4 <=? r) = false /\ (3 <=? r) = false /\ (2.5 <=? r) = false /\
   (1.5 <=? r) = false /\ (r <? 4) = false /\ (r <? 3) = false /\
   (r <? 2.5) = false /\ (r <? 1.5) = false) \/
  (is_nan r = false /\
   (4 <=? r) = true /\ (3 <=? r) = true /\ (2.5 <=? r) = true /\
   (1.5 <=? r) = true /\ (r <? 4) = false /\ (r <? 3) = false /\
   (r <? 2.5) = false /\ (r <? 1.5) = false) \/
  (is_nan r = false /\
   (4 <=? r) = false /\ (3 <=? r) = true /\ (2.5 <=? r) = true /\
   (1.5 <=? r) = true /\ (r <? 4) = true /\ (r <? 3) = false /\
   (r <? 2.5) = false /\ (r <? 1.5) = false) \/
  (is_nan r = false /\
   (4 <=? r) = false /\ (3 <=? r) = false /\ (2.5 <=? r) = true /\
   (1.5 <=? r) = true /\ (r <? 4) = true /\ (r <? 3) = true /\
   (r <? 2.5) = false /\ (r <? 1.5) = false) \/
  (is_nan r = false /\
   (4 <=? r) = false /\ (3 <=? r) = false /\ (2.5 <=? r) = false /\
   (1.5 <=? r) = true /\ (r <? 4) = true /\ (r <? 3) = true /\
   (r <? 2.5) = true /\ (r <? 1.5) = false) \/
  (is_nan r = false /\
   (4 <=? r) = false /\ (3 <=? r) = false /\ (2.5 <=? r) = false /\
   (1.5 <=? r) = false /\ (r <? 4) = true /\ (r <? 3) = true /\
   (r <? 2.5) = true /\ (r <? 1.5) = true).
Proof.
  destruct (is_nan r) eqn:Hnan.
  - left.
    destruct (@nan_unordered r 4 Hnan) as (_ & ? & ? & _).
    destruct (@nan_unordered r 3 Hnan) as (_ & ? & ? & _).
    destruct (@nan_unordered r 2.5 Hnan) as (_ & ? & ? & _).
    destruct (@nan_unordered r 1.5 Hnan) as (_ & ? & ? & _).
    repeat split; assumption.
  - right.
    destruct (@leb_or_ltb 4 r eq_refl Hnan) as [[H4 L4] | [H4 L4]].
    { left.
      destruct (@leb_above r 4 3 H4 eq_refl).
      destruct (@leb_above r 4 2.5 H4 eq_refl).
      destruct (@leb_above r 4 1.5 H4 eq_refl).
      repeat split; assumption. }
    right.
    destruct (@leb_or_ltb 3 r eq_refl Hnan) as [[H3 L3] | [H3 L3]].
    { left.
      destruct (@leb_above r 3 2.5 H3 eq_refl).
      destruct (@leb_above r 3 1.5 H3 eq_refl).
      repeat split; assumption. }
    right.
    destruct (@leb_or_ltb 2.5 r eq_refl Hnan) as [[H25 L25] | [H25 L25]].
    { left.
      destruct (@leb_above r 2.5 1.5 H25 eq_refl).
      repeat split; assumption. }
    right.
    destruct (@leb_or_ltb 1.5 r eq_refl Hnan) as [[H15 L15] | [H15 L15]].
    { left. repeat split; assumption. }
    right. repeat split; assumption.
Qed.
Ltac in_band m H :=
  destruct H as (Hnan & H4 & H3 & H25 & H15 & L4 & L3 & L25 & L15);
  unfold ShouldScale; cbv zeta;
  rewrite ?H4, ?H3, ?H25, ?H15, ?L4, ?L3, ?L25, ?L15; cbn [andb];
  try destruct
        ((if 0 <? Beta m then sqrt ((1 - Alpha m) / Beta m) else infinity)
         <=? float64_of_int (CurrentN m));
  cbn [Decision TargetN InRetrograde];
  repeat split; intros;
  repeat match goal with
         | H : _ /\ _ |- _ => destruct H
         | H : _ \/ _ |- _ => destruct H
         end;
  try congruence; try reflexivity; auto.

(** X19.  The decision of [ShouldScale] is fixed by the band of r and by
    the retrograde test of the function, which compares the peak it
    computes (sqrt ((1 - α) / β) for β > 0, +∞ otherwise) with the
    current number of nodes: [EmergencyStop] exactly for r >= 4;
    [ShedLoad] exactly for 3 <= r < 4, and for 2.5 <= r < 3 when the
    test holds; [ScaleUp] exactly for 2.5 <= r < 3 when the test fails
    (as it does when the peak is a NaN); [Maintain] exactly for
    1.5 <= r < 2.5; [ScaleDown] exactly for r < 1.5; and no decision at
    all (the empty string) exactly when r is a NaN.  The peak and the
    outcome of the test are returned in [PeakN] and [InRetrograde]. *)
Theorem ShouldScale_decision (m : AutoScalerMetrics) :
  let rec := ShouldScale m in
  let peakN :=
    if 0 <? Beta m then sqrt ((1 - Alpha m) / Beta m) else infinity in
  let inRetrograde := peakN <=? float64_of_int (CurrentN m) in
  PeakN rec = peakN /\
  InRetrograde rec = inRetrograde /\
  (Decision rec = EmergencyStop <-> (4 <=? R m) = true) /\
  (Decision rec = ShedLoad <->
   ((3 <=? R m) = true /\ (R m <? 4) = true) \/
   ((2.5 <=? R m) = true /\ (R m <? 3) = true /\ inRetrograde = true)) /\
  (Decision rec = ScaleUp <->
   (2.5 <=? R m) = true /\ (R m <? 3) = true /\ inRetrograde = false) /\
  (Decision rec = Maintain <->
   (1.5 <=? R m) = true /\ (R m <? 2.5) = true) /\
  (Decision rec = ScaleDown <-> (R m <? 1.5) = true) /\
  (Decision rec = NoDecision <-> is_nan (R m) = true).
Proof.
  cbv zeta.
  split; [apply ShouldScale_PeakN|].
  split; [rewrite ShouldScale_InRetrograde, ShouldScale_PeakN; reflexivity|].
  destruct (band_of (R m)) as [H | [H | [H | [H | [H | H]]]]]; in_band m H.
Qed.

(** The test fails on a peak that is a NaN: with α = 1.5 and β = 0.05, at
    r = 2.7 and 50 nodes, the decision is [ScaleUp], although the peak of
    [CalculatePeakCapacity] is 0. *)
Lemma ScaleUp_beyond_the_peak :
  let m := {| R := 2.7; CurrentN := 50; Alpha := 1.5; Beta := 0.05;
              Lambda := 1000; TargetR := 2 |} in
  Decision (ShouldScale m) = ScaleUp /\
  is_nan (PeakN (ShouldScale m)) = true /\
  InRetrograde (ShouldScale m) = false /\
  TargetN (ShouldScale m) = minInt64 /\
  CalculatePeakCapacity 1.5 0.05 = 0.
Proof. repeat split. Qed.
Ltac hpa_band r Hband :=
  destruct (band_of r)
    as [Hband | [Hband | [Hband | [Hband | [Hband | Hband]]]]];
  destruct Hband as (Hnan & H4 & H3 & H25 & H15 & L4 & L3 & L25 & L15).

(** X20.  The replica count of [KubernetesHPATarget]: it is the current
    count for r >= 4, for 1.5 <= r < 2.5, and for 2.5 <= r < 4 whenever
    the decision is [ShedLoad] outside the retrograde zone or, under 3.0,
    inside it; it is at least 1 for r < 1.5; and it is 0 when r is a
    NaN. *)
Theorem KubernetesHPATarget_bands (currentReplicas : Z)
    (currentR targetR alpha beta : float) :
  let target :=
    KubernetesHPATarget currentReplicas currentR targetR alpha beta in
  let peakN :=
    if 0 <? beta then sqrt ((1 - alpha) / beta) else infinity in
  let inRetrograde := peakN <=? float64_of_int currentReplicas in
  ((4 <=? currentR) = true -> target = currentReplicas) /\
  ((3 <=? currentR) = true -> (currentR <? 4) = true ->
   inRetrograde = false -> target = currentReplicas) /\
  ((2.5 <=? currentR) = true -> (currentR <? 3) = true ->
   inRetrograde = true -> target = currentReplicas) /\
  ((1.5 <=? currentR) = true -> (currentR <? 2.5) = true ->
   target = currentReplicas) /\
  ((currentR <? 1.5) = true -> (1 <= target)%Z) /\
  (is_nan currentR = true -> target = 0%Z).
Proof.
  cbv zeta. unfold KubernetesHPATarget, ShouldScale. cbv zeta.
  cbn [R CurrentN Alpha Beta TargetR].
  hpa_band currentR Hband;
    rewrite ?H4, ?H3, ?H25, ?H15, ?L4, ?L3, ?L25, ?L15; cbn [andb];
    repeat split; intros;
    repeat match goal with
           | H : ?b = _ |- context [if ?b then _ else _] => rewrite H
           end;
    cbn [TargetN]; try congruence; try reflexivity.
  match goal with
  | |- context [if (?t <? 1)%Z then _ else _] =>
      destruct (t <? 1)%Z eqn:Hone; [lia | apply Z.ltb_ge in Hone; lia]
  end.
Qed.

Lemma KubernetesHPATarget_bands_witness :
  KubernetesHPATarget 10 4.5 2 0.3 0.05 = 10%Z /\
  KubernetesHPATarget 3 3.2 2 0.3 0.05 = 3%Z /\
  KubernetesHPATarget 10 2.7 2 0.3 0.05 = 10%Z /\
  KubernetesHPATarget 10 2 2 0.3 0.05 = 10%Z /\
  (1 <= KubernetesHPATarget 10 0.1 2 0.3 0.05)%Z /\
  KubernetesHPATarget 10 nan 2 0.3 0.05 = 0%Z.
Proof.
  split; [|split; [|split; [|split; [|split]]]].
  - destruct (KubernetesHPATarget_bands 10 4.5 2 0.3 0.05) as (H & _).
    apply H. reflexivity.
  - destruct (KubernetesHPATarget_bands 3 3.2 2 0.3 0.05) as (_ & H & _).
    apply H; reflexivity.
  - destruct (KubernetesHPATarget_bands 10 2.7 2 0.3 0.05)
      as (_ & _ & H & _).
    apply H; reflexivity.
  - destruct (KubernetesHPATarget_bands 10 2 2 0.3 0.05)
      as (_ & _ & _ & H & _).
    apply H; reflexivity.
  - destruct (KubernetesHPATarget_bands 10 0.1 2 0.3 0.05)
      as (_ & _ & _ & _ & H & _).
    apply H. reflexivity.
  - destruct (KubernetesHPATarget_bands 10 nan 2 0.3 0.05)
      as (_ & _ & _ & _ & _ & H).
    apply H. reflexivity.
Defined.
End ScalingFacts.

(** ** The HTTP middleware of the example server *)

Module MiddlewareFacts.
Import Runtime Gov Middleware RuntimeFacts GovFacts.
Local Open Scope Q_scope.

(** The metrics of the handler leave r at 1.0 and the deployment gate
    open, whatever the estimate. *)
Lemma estimateMetrics_DNA (estimatedR : Q) :
  CalculateSystemDNA (estimateMetrics estimatedR) == 1 /\
  deployGate (estimateMetrics estimatedR) = None.
Proof.
  split; [|reflexivity].
  unfold CalculateSystemDNA, estimateMetrics. cbn. reflexivity.
Qed.

Lemma handle_neverShed (now elapsedMs : Z) (m : LawBenchMiddleware) :
  neverShed m ->
  neverShed (fst (handle now elapsedMs m)) /\
  snd (handle now elapsedMs m) = Passed /\
  option_map ActType (lastAction (fst (handle now elapsedMs m))) =
    Some ActionStable /\
  requestCount (fst (handle now elapsedMs m)) = (requestCount m + 1)%Z /\
  totalLatencyMs (fst (handle now elapsedMs m)) =
    (totalLatencyMs m + elapsedMs)%Z /\
  currentR (fst (handle now elapsedMs m)) = estimateR m.
Proof.
  intros (Hstd & Hmode & Herr).
  destruct (estimateMetrics_DNA (estimateR m)) as [Hr Hgate].
  pose proof (@CheckStructuralIntegrity_standardThresholds now
                (estimateMetrics (estimateR m)) (governor m) Hstd) as Hstd'.
  destruct Hstd as (Hw & Hd & Hs & _ & _).
  unfold handle. cbv zeta.
  revert Hstd'.
  unfold CheckStructuralIntegrity, zoneAction. rewrite Hgate.
  cbn [recordR setLastCheck setRdynamics saturationThreshold inThrottleMode
       throttleEnteredAt throttleMinDuration throttleExitThreshold
       dangerThreshold warningThreshold].
  rewrite Hw, Hd, Hs, Hmode, orb_false_r.
  assert (Qgeb (CalculateSystemDNA (estimateMetrics (estimateR m))) 3
          = false) as H3 by (apply Qgeb_false; rewrite Hr; reflexivity).
  assert (Qgeb (CalculateSystemDNA (estimateMetrics (estimateR m)))
            (29 # 10) = false) as H29
    by (apply Qgeb_false; rewrite Hr; reflexivity).
  assert (Qgeb (CalculateSystemDNA (estimateMetrics (estimateR m)))
            (28 # 10) = false) as H28
    by (apply Qgeb_false; rewrite Hr; reflexivity).
  rewrite H3, H29, H28. cbn. intros Hstd'.
  repeat split; try assumption; try reflexivity; apply Hstd'.
Qed.
Lemma NewLawBenchMiddleware_neverShed (now : Z) :
  neverShed (NewLawBenchMiddleware now).
Proof.
  repeat split.
Qed.

Lemma serve_neverShed (requests : list (Z * Z)) :
  forall m : LawBenchMiddleware,
  neverShed m ->
  let res := serve requests m in
  neverShed (fst res) /\
  Forall (fun response => response = Passed) (snd res) /\
  length (snd res) = length requests /\
  requestCount (fst res) =
    (requestCount m + Z.of_nat (length requests))%Z /\
  totalLatencyMs (fst res) =
    (totalLatencyMs m + fold_right Z.add 0 (map snd requests))%Z /\
  match requests with
  | [] => lastAction (fst res) = lastAction m
  | _ => option_map ActType (lastAction (fst res)) = Some ActionStable
  end.
Proof.
  induction requests as [|[now elapsedMs] rest IH]; intros m Hm.
  - cbn. repeat split; try apply Hm; try constructor; lia.
  - cbn [serve].
    destruct (@handle_neverShed now elapsedMs m Hm)
      as (Hm1 & Hresp & Hact & Hcount & Htotal & _).
    destruct (handle now elapsedMs m) as [m1 response].
    cbn [fst snd] in *.
    specialize (IH m1 Hm1). cbv zeta in IH.
    destruct (serve rest m1) as [m2 responses]. cbn [fst snd] in *.
    destruct IH as (I1 & I2 & I3 & I4 & I5 & I6).
    split; [exact I1|]. split; [constructor; assumption|].
    split; [cbn [length]; now rewrite I3|].
    split; [rewrite I4, Hcount; cbn [length]; lia|].
    split; [rewrite I5, Htotal; cbn [map fold_right snd]; lia|].
    destruct rest; [now rewrite I6 | exact I6].
Qed.

(** X21.  The middleware of the example server never sheds load.  The
    metrics that its handler gives the governor carry the estimate of r
    in [EstimatedCoupling] only, which [CalculateSystemDNA] does not
    read, so the governor sees r = 1.0 at every request: after any run of
    requests on a new middleware, whatever their latencies, every request
    was passed to the wrapped handler and none answered 503, the error
    count is 0, the governor is outside throttle mode, and the last
    action is [ActionStable]. *)
Theorem middleware_never_sheds (start : Z) (requests : list (Z * Z)) :
  let m := fst (serve requests (NewLawBenchMiddleware start)) in
  let responses := snd (serve requests (NewLawBenchMiddleware start)) in
  Forall (fun response => response = Passed) responses /\
  length responses = length requests /\
  errorCount m = 0%Z /\
  requestCount m = Z.of_nat (length requests) /\
  totalLatencyMs m = fold_right Z.add 0%Z (map snd requests) /\
  inThrottleMode (governor m) = false /\
  match requests with
  | [] => lastAction m = None
  | _ => option_map ActType (lastAction m) = Some ActionStable
  end.
Proof.
  cbv zeta.
  destruct (@serve_neverShed requests (NewLawBenchMiddleware start)
              (NewLawBenchMiddleware_neverShed start))
    as ((_ & Hmode & Herr) & Hall & Hlen & Hcount & Htotal & Hlast).
  repeat split; try assumption.
Qed.

Lemma serve_app (requests1 requests2 : list (Z * Z)) :
  forall m : LawBenchMiddleware,
  fst (serve (requests1 ++ requests2) m) =
  fst (serve requests2 (fst (serve requests1 m))).
Proof.
  induction requests1 as [|[now elapsedMs] rest IH]; intros m;
    [reflexivity|].
  cbn [app serve].
  destruct (handle now elapsedMs m) as [m1 response].
  specialize (IH m1).
  destruct (serve (rest ++ requests2) m1) as [m2 responses].
  destruct (serve rest m1) as [m3 responses3].
  cbn [fst] in *. exact IH.
Qed.

(** X22.  The status that the middleware reports follows the mean
    latency, not the governor: after a request that comes behind at
    least one other, [GetStatus] says SATURATED exactly when the mean
    latency of the requests before it is 150 ms or more, while that
    request, as every one, is passed on. *)
Theorem status_without_shedding (start now elapsedMs : Z)
    (requests : list (Z * Z)) :
  requests <> [] ->
  let total := fold_right Z.add 0%Z (map snd requests) in
  let run := serve (requests ++ [(now, elapsedMs)])
               (NewLawBenchMiddleware start) in
  (statusOf (fst run) = SATURATED <->
   (150 * Z.of_nat (length requests) <= total)%Z) /\
  Forall (fun response => response = Passed) (snd run).
Proof.
  intros Hne. cbv zeta. split.
  - rewrite serve_app.
    destruct (@serve_neverShed requests (NewLawBenchMiddleware start)
                (NewLawBenchMiddleware_neverShed start))
      as (Hm & _ & _ & Hcount & Htotal & _).
    set (m := fst (serve requests (NewLawBenchMiddleware start))) in *.
    cbn [serve].
    destruct (@handle_neverShed now elapsedMs m Hm)
      as (_ & _ & _ & _ & _ & Hcur).
    destruct (handle now elapsedMs m) as [m1 response].
    cbn [fst] in *. unfold statusOf. rewrite Hcur. unfold estimateR.
    destruct Hm as (_ & _ & Herr). rewrite Herr, Hcount, Htotal.
    cbn [NewLawBenchMiddleware requestCount totalLatencyMs].
    rewrite !Z.add_0_l.
    set (n := Z.of_nat (length requests)).
    set (total := fold_right Z.add 0%Z (map snd requests)).
    assert (0 < n)%Z as Hn
      by (subst n; destruct requests; [now elim Hne | cbn; lia]).
    assert ((n >? 0)%Z = true) as -> by (apply Z.gtb_lt; exact Hn).
    assert (0 < inject_Z n) as Hqn
      by (change 0 with (inject_Z 0); now rewrite <- Zlt_Qlt).
    assert ((15 # 10) + inject_Z total / inject_Z n / 100 +
            inject_Z 0 / inject_Z n * 2 ==
            (15 # 10) + inject_Z total / inject_Z n * (1 # 100)) as Hest
      by (change (inject_Z 0) with 0; field; lra).
    assert (inject_Z total / inject_Z n * inject_Z n == inject_Z total)
      as Hdiv by (field; lra).
    assert ((150 * n <= total)%Z <-> 150 * inject_Z n <= inject_Z total)
      as Hz.
    { change 150 with (inject_Z 150).
      rewrite <- inject_Z_mult, <- Zle_Qle. reflexivity. }
    rewrite Hz.
    set (avg := inject_Z total / inject_Z n) in *.
    destruct (Qgeb ((15 # 10) + avg / 100 + inject_Z 0 / inject_Z n * 2) 3)
      eqn:H3.
    + apply Qgeb_iff in H3. rewrite Hest in H3.
      split; [intros _ | reflexivity]. clearbody avg n total. nra.
    + apply Qgeb_false in H3. rewrite Hest in H3.
      split.
      * destruct (Qgeb _ (28 # 10)); discriminate.
      * intros Hge. exfalso. clearbody avg n total. nra.
  - apply (@serve_neverShed (requests ++ [(now, elapsedMs)])
             (NewLawBenchMiddleware start)
             (NewLawBenchMiddleware_neverShed start)).
Qed.

Lemma status_without_shedding_witness :
  let run := serve [(1, 200); (2, 200); (3, 5)]%Z
               (NewLawBenchMiddleware 0) in
  (statusOf (fst run) = SATURATED <->
   (150 * Z.of_nat 2 <= 200 + (200 + 0))%Z) /\
  Forall (fun response => response = Passed) (snd run).
Proof.
  apply (@status_without_shedding 0 3 5 [(1, 200); (2, 200)]%Z).
  discriminate.
Defined.
End MiddlewareFacts.

(** ** The registry of verified types *)

Module RegistryFacts.
Import Registry.
Local Open Scope string_scope.

Lemma lookup_filter (typeName other : string)
    (entries : list (string * LawVerified)) :
  String.eqb other typeName = false ->
  lookup typeName
    (filter (fun e => negb (String.eqb (fst e) other)) entries) =
  lookup typeName entries.
Proof.
  intros Hne. induction entries as [|[k v] rest IH]; [reflexivity|].
  cbn [filter fst lookup].
  destruct (String.eqb k other) eqn:Hk; cbn [negb].
  - apply String.eqb_eq in Hk. subst k. now rewrite Hne.
  - cbn [lookup]. now rewrite IH.
Qed.

Lemma lookup_assign (typeName : string) (v : LawVerified)
    (entries : list (string * LawVerified)) :
  lookup typeName (assign v entries) =
  if String.eqb (TypeName v) typeName then Some v
  else lookup typeName entries.
Proof.
  unfold assign. cbn [lookup].
  destruct (String.eqb (TypeName v) typeName) eqn:Hk; [reflexivity|].
  now apply lookup_filter.
Qed.

Lemma registered_snoc (entries : list LawVerified) (v : LawVerified) :
  registered (entries ++ [v]) = Register v (registered entries).
Proof.
  unfold registered. now rewrite fold_left_app.
Qed.

Lemma contains_In (slice : list string) (s : string) :
  contains slice s = true <-> In s slice.
Proof.
  induction slice as [|item rest IH]; cbn; [split; [discriminate | tauto]|].
  destruct (String.eqb item s) eqn:Hk.
  - apply String.eqb_eq in Hk. tauto.
  - apply String.eqb_neq in Hk. rewrite IH. tauto.
Qed.

Lemma firstMissing_None (laws requiredLaws : list string) :
  firstMissing laws requiredLaws = None <->
  (forall law, In law requiredLaws -> In law laws).
Proof.
  induction requiredLaws as [|required rest IH]; cbn;
    [split; [intros _ law [] | reflexivity]|].
  destruct (contains laws required) eqn:Hc; cbn [negb].
  - apply contains_In in Hc. rewrite IH. split.
    + intros H law [<- | Hin]; auto.
    + intros H law Hin. apply H. now right.
  - split; [discriminate|]. intros H.
    assert (In required laws) as Hin by (apply H; now left).
    apply contains_In in Hin. congruence.
Qed.

(** X23.  The registry keeps, for each type name, the mark registered
    last: after any run of [Register] calls on a new checker,
    [IsVerified] of a name returns the last mark registered under that
    name, and nothing when none was; marks of other names have no
    influence. *)
Theorem IsVerified_last_registration (entries : list LawVerified)
    (typeName : string) :
  IsVerified typeName (registered entries) =
  find (fun v => String.eqb (TypeName v) typeName) (rev entries).
Proof.
  induction entries as [|v entries IH] using rev_ind; [reflexivity|].
  rewrite registered_snoc, rev_app_distr. cbn [rev app find].
  unfold IsVerified, Register. cbn [verified].
  rewrite lookup_assign.
  destruct (String.eqb (TypeName v) typeName); [reflexivity | exact IH].
Qed.

(** X24.  What [CheckType] (and [ValidateBoundary]) accepts.  For a value
    of a registered type the mark of the registry decides, whatever the
    value embeds: the check returns, and passes exactly when every
    required law is among the laws of that mark.  For a value of a type
    that was never registered the field of type [LawVerified] of the
    value itself decides: when it is exported the check passes exactly
    when every required law is among the laws of that mark, so on the
    strength of the value's own word; when it is not exported the check
    panics; without such a field the value is rejected as not in the
    registry, and the nil value always is. *)
Theorem CheckType_accepts (r : RuntimeLawChecker) (v : Value)
    (requiredLaws : list string) :
  ValidateBoundary v requiredLaws r = CheckType v requiredLaws r /\
  (typeOf v = None ->
   CheckType v requiredLaws r = Returns (Some NilValue)) /\
  (forall typeName mark,
     typeOf v = Some typeName ->
     IsVerified typeName r = Some mark ->
     CheckType v requiredLaws r <> Panics /\
     (CheckType v requiredLaws r = Returns None <->
      forall law, In law requiredLaws -> In law (Laws mark))) /\
  (forall typeName mark,
     typeOf v = Some typeName ->
     IsVerified typeName r = None ->
     embedded v = ExportedMark mark ->
     CheckType v requiredLaws r <> Panics /\
     (CheckType v requiredLaws r = Returns None <->
      forall law, In law requiredLaws -> In law (Laws mark))) /\
  (forall typeName mark,
     typeOf v = Some typeName ->
     IsVerified typeName r = None ->
     embedded v = UnexportedMark mark ->
     CheckType v requiredLaws r = Panics) /\
  (forall typeName,
     typeOf v = Some typeName ->
     IsVerified typeName r = None ->
     embedded v = NoMark ->
     CheckType v requiredLaws r = Returns (Some (NotInRegistry typeName))).
Proof.
  unfold ValidateBoundary, CheckType, IsVerified, extractEmbedded,
    checkLaws.
  split; [reflexivity|]. split; [now intros ->|].
  split; [|split; [|split]].
  - intros typeName mark -> ->. split; [discriminate|].
    rewrite <- firstMissing_None.
    destruct (firstMissing (Laws mark) requiredLaws);
      split; congruence.
  - intros typeName mark -> -> ->. split; [discriminate|].
    rewrite <- firstMissing_None.
    destruct (firstMissing (Laws mark) requiredLaws);
      split; congruence.
  - now intros typeName mark -> -> ->.
  - now intros typeName -> -> ->.
Qed.

Lemma CheckType_accepts_witness :
  let r := registered [mark "Config" ["Associative"]] in
  let forged :=
    {| typeOf := Some "Untrusted";
       embedded :=
         ExportedMark (mark "Untrusted" ["Associative"; "Commutative"]) |}
  in
  let config :=
    {| typeOf := Some "Config";
       embedded :=
         UnexportedMark (mark "Config" ["Associative"; "Commutative"]) |}
  in
  let hidden :=
    {| typeOf := Some "Untrusted";
       embedded :=
         UnexportedMark (mark "Untrusted" ["Associative"; "Commutative"]) |}
  in
  (CheckType forged ["Associative"; "Commutative"] r = Returns None <->
   forall law, In law ["Associative"; "Commutative"] ->
               In law ["Associative"; "Commutative"]) /\
  (CheckType config ["Associative"; "Commutative"] r = Returns None <->
   forall law, In law ["Associative"; "Commutative"] ->
               In law ["Associative"]) /\
  CheckType hidden ["Associative"] r = Panics /\
  CheckType {| typeOf := None; embedded := NoMark |} [] r =
    Returns (Some NilValue).
Proof.
  cbv zeta. split; [|split; [|split]].
  - destruct (CheckType_accepts
                (registered [mark "Config" ["Associative"]])
                {| typeOf := Some "Untrusted";
                   embedded :=
                     ExportedMark (mark "Untrusted"
                                     ["Associative"; "Commutative"]) |}
                ["Associative"; "Commutative"]) as (_ & _ & _ & H & _).
    apply (H "Untrusted" (mark "Untrusted" ["Associative"; "Commutative"]));
      reflexivity.
  - destruct (CheckType_accepts
                (registered [mark "Config" ["Associative"]])
                {| typeOf := Some "Config";
                   embedded :=
                     UnexportedMark (mark "Config"
                                       ["Associative"; "Commutative"]) |}
                ["Associative"; "Commutative"]) as (_ & _ & H & _).
    apply (H "Config" (mark "Config" ["Associative"])); reflexivity.
  - destruct (CheckType_accepts
                (registered [mark "Config" ["Associative"]])
                {| typeOf := Some "Untrusted";
                   embedded :=
                     UnexportedMark (mark "Untrusted"
                                       ["Associative"; "Commutative"]) |}
                ["Associative"]) as (_ & _ & _ & _ & H & _).
    apply (H "Untrusted" (mark "Untrusted" ["Associative"; "Commutative"]));
      reflexivity.
  - destruct (CheckType_accepts
                (registered [mark "Config" ["Associative"]])
                {| typeOf := None; embedded := NoMark |} [])
      as (_ & H & _).
    apply H. reflexivity.
Defined.
End RegistryFacts.

(** ** The statistics of one benchmark result *)

Module BenchFacts.
Import USL Bench TailFacts TailWindowFacts.
Local Open Scope Z_scope.

Lemma sorted_nth_In (l : list Z) (i : nat) :
  (i < length l)%nat -> In (nth i (DurationSort.sort l) 0) l.
Proof.
  intros Hi.
  apply (Permutation_in _ (Permutation_sym (DurationSort.Permuted_sort l))).
  apply nth_In. now rewrite sort_length.
Qed.

(** X26.  [CalculateStatistics] of a result with at least one latency:
    P50 <= P95 <= P99 and each of the three is one of the latencies;
    when no latency is negative and their sum is within [int64], the
    mean lies within any bounds that hold for all the latencies; of a
    result without latencies every field is zero. *)
Theorem CalculateStatistics_order (result : Result) :
  (Latencies result = [] ->
   CalculateStatistics result =
   {| Mean := 0; Stddev := 0; P50 := 0; P95 := 0; P99 := 0 |}) /\
  (Latencies result <> [] ->
   let s := CalculateStatistics result in
   P50 s <= P95 s <= P99 s /\
   In (P50 s) (Latencies result) /\
   In (P95 s) (Latencies result) /\
   In (P99 s) (Latencies result) /\
   (forall lo hi : Z,
      0 <= lo ->
      Forall (fun x => lo <= x <= hi) (Latencies result) ->
      fold_left Z.add (Latencies result) 0 <= Int64.maxInt64 ->
      lo <= Mean s <= hi)).
Proof.
  unfold CalculateStatistics. split; [now intros ->|].
  intros Hne. destruct (Latencies result) as [|x rest] eqn:Hl;
    [now elim Hne|].
  rewrite <- Hl in *. clear x rest Hl.
  cbv zeta. cbn [Mean P50 P95 P99].
  rewrite sort_length.
  set (len := Z.of_nat (length (Latencies result))).
  assert (0 < len) as Hlen
    by (subst len; destruct (Latencies result);
        [now elim Hne | cbn [length]; lia]).
  assert (0 <= len * 50 / 100 <= len * 95 / 100) as H1
    by (split; [apply Z.div_pos; lia | apply Z.div_le_mono; lia]).
  assert (len * 95 / 100 <= len * 99 / 100) as H2
    by (apply Z.div_le_mono; lia).
  assert (len * 99 / 100 < len) as H3
    by (apply Z.div_lt_upper_bound; lia).
  pose proof (sort_StronglySorted (Latencies result)) as Hsorted.
  pose proof (sort_length (Latencies result)) as Hsl.
  pose proof (DurationSort.Permuted_sort (Latencies result)) as Hperm.
  split; [split|split; [|split; [|split]]].
  - apply nth_sorted_mono; [exact Hsorted | lia | lia].
  - apply nth_sorted_mono; [exact Hsorted | lia | lia].
  - apply sorted_nth_In. lia.
  - apply sorted_nth_In. lia.
  - apply sorted_nth_In. lia.
  - intros lo hi Hlo Hall Hfits.
    rewrite sum_without_overflow.
    2: lia.
    2: { rewrite Forall_forall in Hall |- *. intros y Hy.
         assert (lo <= y <= hi) as Hb
           by (apply Hall; apply (Permutation_in _
                 (Permutation_sym Hperm)); exact Hy).
         lia. }
    2: { rewrite <- (total_permutation Hperm). lia. }
    apply quot_between; [exact Hlen|].
    rewrite <- (total_permutation Hperm).
    subst len. now apply total_bounds.
Qed.

Lemma CalculateStatistics_order_witness :
  let s := CalculateStatistics (measured [5; 10; 10000; 7; 3; 12]) in
  P50 s <= P95 s <= P99 s /\
  In (P50 s) [5; 10; 10000; 7; 3; 12] /\
  In (P95 s) [5; 10; 10000; 7; 3; 12] /\
  In (P99 s) [5; 10; 10000; 7; 3; 12] /\
  3 <= Mean s <= 10000.
Proof.
  destruct (CalculateStatistics_order (measured [5; 10; 10000; 7; 3; 12]))
    as [_ H].
  destruct H as (H1 & H2 & H3 & H4 & H5); [discriminate|].
  split; [exact H1|]. split; [exact H2|]. split; [exact H3|].
  split; [exact H4|]. apply H5.
  - lia.
  - repeat constructor; lia.
  - vm_compute. discriminate.
Defined.

(** The sum wraps around: of the latencies 2^63 - 1, 2^63 - 1 and 1 ns
    the mean is 0 ns. *)
Lemma CalculateStatistics_wraps_around :
  Mean (CalculateStatistics
          (measured [Int64.maxInt64; Int64.maxInt64; 1])) = 0.
Proof. reflexivity. Qed.
End BenchFacts.

(** ** Binary64: signs, [math.Min] and the conversions *)

Module Float64Facts.
Import Float64 AutoscalerFacts ScalingFacts.
Local Open Scope float_scope.

Lemma binary_round_aux_sign (s : bool) (m e : Z) (l : location) :
  match binary_round_aux prec emax s m e l with
  | S754_zero s' | S754_infinity s' | S754_finite s' _ _ => s' = s
  | S754_nan => True
  end.
Proof.
  unfold binary_round_aux.
  destruct (shr_fexp prec emax m e l) as [mrs' e'].
  destruct (shr_fexp prec emax _ e' loc_Exact) as [mrs'' e''].
  destruct (shr_m mrs''); [reflexivity | | exact I].
  now destruct (e'' <=? emax - prec)%Z.
Qed.




Lemma ltb_zero_true (x : float) :
  (x <? 0) = true -> strictlyNegative (Prim2SF x).
Proof.
  rewrite ltb_spec. unfold SFltb.
  change (Prim2SF 0) with (S754_zero false).
  destruct (Prim2SF x) as [s | s | | s m e]; cbn; try discriminate;
    destruct s; cbn; congruence.
Qed.

Lemma zero_ltb_true (x : float) :
  (0 <? x) = true -> strictlyPositive (Prim2SF x).
Proof.
  rewrite ltb_spec. unfold SFltb.
  change (Prim2SF 0) with (S754_zero false).
  destruct (Prim2SF x) as [s | s | | s m e]; cbn; try discriminate;
    destruct s; cbn; congruence.
Qed.



(** A positive number over a negative one is not positive. *)
Lemma div_notPositive (x y : float) :
  (0 <? x) = true -> (y <? 0) = true -> notPositive (Prim2SF (x / y)).
Proof.
  intros Hx Hy. apply zero_ltb_true in Hx. apply ltb_zero_true in Hy.
  revert Hx Hy.
  rewrite FloatAxioms.div_spec. unfold SF64div, SFdiv.
  destruct (Prim2SF x) as [sx | sx | | sx mx ex],
           (Prim2SF y) as [sy | sy | | sy my ey]; cbn;
    try tauto; try (intros; subst; reflexivity).
  intros -> ->. cbn.
  destruct (SFdiv_core_binary _ _ _ _ _ _) as [[mz ez] lz].
  pose proof (binary_round_aux_sign true mz ez lz) as H.
  now destruct (binary_round_aux _ _ _ _ _ _).
Qed.


(** A number that is not positive is not above a threshold that is not
    negative. *)
Lemma notPositive_not_above (d q : float) :
  (0 <=? d) = true -> notPositive (Prim2SF q) -> (d <? q) = false.
Proof.
  rewrite leb_spec, ltb_spec. unfold SFleb, SFltb.
  change (Prim2SF 0) with (S754_zero false).
  destruct (Prim2SF d) as [sd | sd | | sd md ed],
           (Prim2SF q) as [sq | sq | | sq mq eq]; cbn;
    try discriminate; try reflexivity;
    intros Hd Hq; subst; try reflexivity;
    destruct sd; cbn in *; try discriminate; reflexivity.
Qed.







(** *** [math.Min] *)









(** *** Rounding to binary64 *)

Local Open Scope Z_scope.















Local Open Scope float_scope.

Local Open Scope Z_scope.












Local Open Scope float_scope.

(** *** Operations that give no NaN *)

Lemma finiteNotNegative_notNegative (x : spec_float) :
  finiteNotNegative x -> notNegative x /\ x <> S754_nan.
Proof. destruct x; cbn; intros H; split; try tauto; discriminate. Qed.













End Float64Facts.

(** ** The governor in binary64 *)

Module Gov64Facts.
Import Float64 Runtime64 Gov64 AutoscalerFacts ScalingFacts Float64Facts.
Local Open Scope float_scope.

Lemma NewGovernor64_standardThresholds (now : Z) (initialR : float) :
  standardThresholds (NewGovernor now initialR).
Proof. repeat split. Qed.

(** A binary64 number is a NaN, negative, a zero or positive. *)
Lemma sign_cases (x : float) :
  is_nan x = true \/ (x <? 0) = true \/ (x =? 0) = true \/ (0 <? x) = true.
Proof.
  unfold is_nan. rewrite !FloatAxioms.eqb_spec, !ltb_spec.
  unfold SFeqb, SFltb. rewrite SFcompare_refl.
  change (Prim2SF 0) with (S754_zero false).
  destruct (Prim2SF x) as [s | s | | s m e]; cbn; auto;
    destruct s; cbn; auto.
Qed.

Lemma positive_not_zero (x : float) : (0 <? x) = true -> (x =? 0) = false.
Proof.
  rewrite FloatAxioms.eqb_spec, ltb_spec. unfold SFeqb, SFltb.
  change (Prim2SF 0) with (S754_zero false).
  destruct (Prim2SF x) as [s | s | | s m e]; cbn; try discriminate;
    now destruct s.
Qed.

Lemma div_nan_r (d x y : float) : is_nan y = true -> (d <? x / y) = false.
Proof.
  intros Hnan. apply is_nan_Prim2SF in Hnan.
  rewrite ltb_spec, FloatAxioms.div_spec, Hnan. unfold SFltb, SF64div.
  destruct (Prim2SF x); cbn; now destruct (Prim2SF d).
Qed.

(** [a <= b < x] gives [a < x]. *)
Lemma leb_ltb_trans (a b x : float) :
  (a <=? b) = true -> (b <? x) = true -> (a <? x) = true.
Proof.
  intros Hab Hbx.
  assert (is_nan a = false) as Ha.
  { destruct (is_nan a) eqn:E; [|reflexivity].
    destruct (@nan_unordered a b E) as (H & _). congruence. }
  assert (is_nan x = false) as Hx.
  { destruct (is_nan x) eqn:E; [|reflexivity].
    destruct (@nan_unordered x b E) as (_ & _ & _ & H). congruence. }
  destruct (@leb_or_ltb x a Hx Ha) as [[Hle _] | [_ Hlt]]; [|exact Hlt].
  pose proof (@leb_trans x a b Hle Hab) as Hxb.
  rewrite (@ltb_true_leb_false b x Hbx) in Hxb. discriminate.
Qed.

(** *** The deployment gate *)

(** The gate blocks exactly the deployments of pure debt and those of a
    growing core whose growth ratio, the binary64 quotient of the two
    deltas, exceeds δ. *)
Lemma deployGate64_blocks (metrics : SystemIntegrityMetrics) :
  deployGate metrics <> None <->
  ((DeltaCriticalCore metrics =? 0) = true /\
   (0 <? DeltaComplexity metrics) = true) \/
  ((0 <? DeltaCriticalCore metrics) = true /\
   (FeigenbaumDelta <? DeltaComplexity metrics / DeltaCriticalCore metrics)
   = true).
Proof.
  unfold deployGate. cbv zeta.
  destruct (0 <? DeltaCriticalCore metrics) eqn:Hcore;
  destruct (0 <? DeltaComplexity metrics) eqn:Hcx;
  destruct (DeltaCriticalCore metrics =? 0) eqn:Hzero;
  cbn [orb andb];
  try destruct (FeigenbaumDelta <?
                DeltaComplexity metrics / DeltaCriticalCore metrics)
        eqn:Hratio;
  split; intros H; try discriminate; try congruence; try tauto;
  try (destruct H as [[H1 H2] | [H1 H2]]; congruence).
  exfalso.
  destruct (sign_cases (DeltaCriticalCore metrics))
    as [Hnan | [Hneg | [Hz | Hpos]]]; try congruence.
  - rewrite (@div_nan_r FeigenbaumDelta _ _ Hnan) in Hratio. discriminate.
  - pose proof (div_notPositive Hcx Hneg) as Hq.
    rewrite (@notPositive_not_above FeigenbaumDelta _ eq_refl Hq) in Hratio.
    discriminate.
Qed.

(** Splits an evaluation into the paths the code can take. *)
Ltac gov64_paths :=
  unfold CheckStructuralIntegrity, enterThrottle, zoneAction;
  repeat match goal with
  | |- context [match deployGate ?m with _ => _ end] =>
      destruct (deployGate m) eqn:?
  | |- context [if ?b then _ else _] => destruct b eqn:?
  end.

Lemma CheckStructuralIntegrity64_blocks now metrics g :
  ActType (snd (CheckStructuralIntegrity now metrics g)) =
    Gov.ActionBlockDeploy
  <-> deployGate metrics <> None.
Proof.
  gov64_paths; cbn; split; intros H; congruence.
Qed.

(** C2.  An evaluation returns [ActionBlockDeploy] when the critical core
    does not change and complexity is added, and when the core grows and
    the ratio of the deltas exceeds δ = 4.6692; for metrics that satisfy
    neither condition (both deltas zero included) the action returned is
    not [ActionBlockDeploy].  The deltas, their ratio and δ are the
    binary64 numbers of the code: the ratio is the rounded quotient, δ the
    binary64 number nearest to 4.6692. *)
Theorem deploy_gate_iff (now : Z) (metrics : SystemIntegrityMetrics)
    (g : Governor) :
  let a := snd (CheckStructuralIntegrity now metrics g) in
  let pureDebt :=
    (DeltaCriticalCore metrics =? 0) = true /\
    (0 <? DeltaComplexity metrics) = true in
  let overRatio :=
    (0 <? DeltaCriticalCore metrics) = true /\
    (FeigenbaumDelta <? DeltaComplexity metrics / DeltaCriticalCore metrics)
    = true in
  (pureDebt -> ActType a = Gov.ActionBlockDeploy) /\
  (overRatio -> ActType a = Gov.ActionBlockDeploy) /\
  (~ pureDebt -> ~ overRatio -> ActType a <> Gov.ActionBlockDeploy).
Proof.
  cbv zeta. rewrite CheckStructuralIntegrity64_blocks, deployGate64_blocks.
  tauto.
Qed.

Lemma deploy_gate_iff_witness :
  let act dCore dComplexity :=
    ActType (snd (CheckStructuralIntegrity 5 (deployment dCore dComplexity)
                    (NewGovernor 0 1.5))) in
  act 0 100 = Gov.ActionBlockDeploy /\
  act 50 470 = Gov.ActionBlockDeploy /\
  act 1765 8241.138 = Gov.ActionBlockDeploy /\
  act 50 100 <> Gov.ActionBlockDeploy /\
  act 1 4.6692 <> Gov.ActionBlockDeploy /\
  act (-5) 100 <> Gov.ActionBlockDeploy /\
  act 0 0 <> Gov.ActionBlockDeploy.
Proof.
  cbv zeta.
  split; [|split; [|split; [|split; [|split; [|split]]]]].
  - destruct (deploy_gate_iff 5 (deployment 0 100) (NewGovernor 0 1.5))
      as (Hdebt & _ & _).
    apply Hdebt. split; reflexivity.
  - destruct (deploy_gate_iff 5 (deployment 50 470) (NewGovernor 0 1.5))
      as (_ & Hratio & _).
    apply Hratio. split; reflexivity.
  - destruct (deploy_gate_iff 5 (deployment 1765 8241.138)
                (NewGovernor 0 1.5)) as (_ & Hratio & _).
    apply Hratio. split; reflexivity.
  - destruct (deploy_gate_iff 5 (deployment 50 100) (NewGovernor 0 1.5))
      as (_ & _ & Hpass).
    apply Hpass; intros [H1 H2]; discriminate.
  - destruct (deploy_gate_iff 5 (deployment 1 4.6692) (NewGovernor 0 1.5))
      as (_ & _ & Hpass).
    apply Hpass; intros [H1 H2]; discriminate.
  - destruct (deploy_gate_iff 5 (deployment (-5) 100) (NewGovernor 0 1.5))
      as (_ & _ & Hpass).
    apply Hpass; intros [H1 H2]; discriminate.
  - destruct (deploy_gate_iff 5 (deployment 0 0) (NewGovernor 0 1.5))
      as (_ & _ & Hpass).
    apply Hpass; intros [H1 H2]; discriminate.
Defined.

(** The growth ratio at the limit: a core delta of 1 with a complexity
    delta of 4.6692 has the quotient δ itself and passes; 1765 and
    8241.138, whose decimal quotient is 4.6692, have a rounded quotient
    one step above δ and are blocked. *)
Lemma growth_ratio_at_the_limit :
  (4.6692 / 1 =? FeigenbaumDelta) = true /\
  deployGate (deployment 1 4.6692) = None /\
  8241.138 / 1765 = 4.669200000000001 /\
  deployGate (deployment 1765 8241.138) = Some Gov.GrowthRatioExceeded.
Proof. repeat split. Qed.

(** *** The zones of r *)

(** X4.  The zone of an evaluation outside throttle mode, when the
    deployment gate lets it through and the thresholds are those of
    [NewGovernor], r being the binary64 number that [CalculateSystemDNA]
    returns: r >= 3.0 gives [ActionThrottle], enters throttle mode at
    the clock reading and counts one throttle event; 2.9 <= r < 3.0
    gives [ActionPacing]; 2.8 <= r < 2.9 gives [ActionWarning] and counts
    one warning; r < 2.8 gives [ActionStable], and so does an r that is
    a NaN.  Each row leaves the other counters alone, and only the first
    one sets throttle mode. *)
Theorem zone_selection (now : Z) (metrics : SystemIntegrityMetrics)
    (g : Governor) :
  standardThresholds g ->
  inThrottleMode g = false ->
  deployGate metrics = None ->
  let r := CalculateSystemDNA metrics in
  let g' := fst (CheckStructuralIntegrity now metrics g) in
  let a := snd (CheckStructuralIntegrity now metrics g) in
  ((3 <=? r) = true ->
   ActType a = Gov.ActionThrottle /\ inThrottleMode g' = true /\
   throttleEnteredAt g' = now /\
   throttleEvents g' = (throttleEvents g + 1)%Z /\
   warnings g' = warnings g) /\
  ((2.9 <=? r) = true -> (r <? 3) = true ->
   ActType a = Gov.ActionPacing /\ inThrottleMode g' = false /\
   throttleEvents g' = throttleEvents g /\ warnings g' = warnings g) /\
  ((2.8 <=? r) = true -> (r <? 2.9) = true ->
   ActType a = Gov.ActionWarning /\ inThrottleMode g' = false /\
   throttleEvents g' = throttleEvents g /\
   warnings g' = (warnings g + 1)%Z) /\
  ((r <? 2.8) = true \/ is_nan r = true ->
   ActType a = Gov.ActionStable /\ inThrottleMode g' = false /\
   throttleEvents g' = throttleEvents g /\ warnings g' = warnings g).
Proof.
  intros (Hw & Hd & Hs & _ & _) Hmode Hgate. cbv zeta.
  unfold CheckStructuralIntegrity, enterThrottle, zoneAction.
  rewrite Hgate.
  cbn [recordR saturationThreshold inThrottleMode
       throttleEnteredAt throttleMinDuration throttleExitThreshold
       dangerThreshold warningThreshold].
  rewrite Hw, Hd, Hs, Hmode, orb_false_r. cbn [negb].
  set (r := CalculateSystemDNA metrics).
  split; [|split; [|split]].
  - intros Hr. rewrite Hr. now cbn.
  - intros Hlo Hhi. rewrite (ltb_true_leb_false Hhi), Hlo. now cbn.
  - intros Hlo Hhi.
    destruct (@ltb_below r 2.9 3 Hhi eq_refl) as [H3 _].
    rewrite H3, (ltb_true_leb_false Hhi), Hlo. now cbn.
  - intros [Hhi | Hnan].
    + destruct (@ltb_below r 2.8 3 Hhi eq_refl) as [H3 _].
      destruct (@ltb_below r 2.8 2.9 Hhi eq_refl) as [H29 _].
      rewrite H3, H29, (ltb_true_leb_false Hhi). now cbn.
    + destruct (@nan_unordered r 3 Hnan) as (_ & H3 & _).
      destruct (@nan_unordered r 2.9 Hnan) as (_ & H29 & _).
      destruct (@nan_unordered r 2.8 Hnan) as (_ & H28 & _).
      rewrite H3, H29, H28. now cbn.
Qed.

Lemma zone_selection_witness :
  let g := NewGovernor 0 1.5 in
  let act metrics := ActType (snd (CheckStructuralIntegrity 7 metrics g)) in
  act (violations 200) = Gov.ActionThrottle /\
  act (violations 195) = Gov.ActionPacing /\
  CalculateSystemDNA (service 3 4 3 2 0 0) = 2.9999999999999996 /\
  act (service 3 4 3 2 0 0) = Gov.ActionPacing /\
  act (violations 185) = Gov.ActionWarning /\
  act (violations 100) = Gov.ActionStable.
Proof.
  pose (g := NewGovernor 0 1.5).
  assert (standardThresholds g) as Hstd
    by apply NewGovernor64_standardThresholds.
  cbv zeta. split; [|split; [|split; [|split; [|split]]]].
  - destruct (@zone_selection 7 (violations 200) g Hstd eq_refl eq_refl)
      as (H & _). apply H. reflexivity.
  - destruct (@zone_selection 7 (violations 195) g Hstd eq_refl eq_refl)
      as (_ & H & _). apply H; reflexivity.
  - reflexivity.
  - destruct (@zone_selection 7 (service 3 4 3 2 0 0) g Hstd eq_refl
                eq_refl) as (_ & H & _). apply H; reflexivity.
  - destruct (@zone_selection 7 (violations 185) g Hstd eq_refl eq_refl)
      as (_ & _ & H & _). apply H; reflexivity.
  - destruct (@zone_selection 7 (violations 100) g Hstd eq_refl eq_refl)
      as (_ & _ & _ & H). apply H. left. reflexivity.
Defined.

(** *** Validation of the metrics and of a change *)

(** X7.  [ValidateSystemDNA] on the binary64 r of [CalculateSystemDNA]:
    it reports a coupling that is too low exactly when r < 1.0, the
    unstable region exactly when r >= 3.0, and returns nil otherwise (an
    r that is a NaN included); and it agrees with the governor: an
    evaluation with the thresholds of [NewGovernor], outside throttle
    mode and let through by the deployment gate, returns
    [ActionThrottle] exactly when [ValidateSystemDNA] reports the
    unstable region. *)
Theorem ValidateSystemDNA_agrees_with_governor (now : Z)
    (metrics : SystemIntegrityMetrics) (g : Governor) :
  let r := CalculateSystemDNA metrics in
  (ValidateSystemDNA metrics = Some CouplingTooLow <-> (r <? 1) = true) /\
  (ValidateSystemDNA metrics = Some CouplingUnstable <->
   (3 <=? r) = true) /\
  (ValidateSystemDNA metrics = None <->
   (r <? 1) = false /\ (3 <=? r) = false) /\
  (standardThresholds g -> inThrottleMode g = false ->
   deployGate metrics = None ->
   (ValidateSystemDNA metrics = Some CouplingUnstable <->
    ActType (snd (CheckStructuralIntegrity now metrics g)) =
      Gov.ActionThrottle)).
Proof.
  cbv zeta. unfold ValidateSystemDNA. cbv zeta.
  change (MinR StableDNAConstraint) with 1.
  change (MaxR StableDNAConstraint) with 3.
  set (r := CalculateSystemDNA metrics).
  assert ((r <? 1) = true -> (3 <=? r) = false) as Hlow
    by (intros H; apply (@ltb_below r 1 3 H eq_refl)).
  split; [|split; [|split]].
  - destruct (r <? 1); [tauto|].
    destruct (3 <=? r); split; discriminate.
  - destruct (r <? 1) eqn:H1.
    + rewrite (Hlow eq_refl). split; discriminate.
    + destruct (3 <=? r); split; congruence.
  - destruct (r <? 1); [split; [discriminate | intros [H _]; discriminate]|].
    destruct (3 <=? r); split; try tauto; try discriminate.
    intros [_ H]. discriminate.
  - intros (Hw & Hd & Hsat & _ & _) Hmode Hgate.
    unfold CheckStructuralIntegrity, enterThrottle, zoneAction.
    rewrite Hgate.
    cbn [recordR saturationThreshold inThrottleMode
         throttleEnteredAt throttleMinDuration throttleExitThreshold
         dangerThreshold warningThreshold].
    rewrite Hw, Hd, Hsat, Hmode, orb_false_r. fold r. clearbody r.
    destruct (r <? 1) eqn:H1.
    + rewrite (Hlow eq_refl).
      destruct (2.9 <=? r); [|destruct (2.8 <=? r)]; cbn;
        split; discriminate.
    + destruct (3 <=? r) eqn:H3; cbn.
      * split; reflexivity.
      * destruct (2.9 <=? r); [|destruct (2.8 <=? r)]; cbn;
          split; discriminate.
Qed.

Lemma ValidateSystemDNA_agrees_with_governor_witness :
  (ValidateSystemDNA (violations 220) = Some CouplingUnstable <->
   ActType (snd (CheckStructuralIntegrity 5 (violations 220)
                   (NewGovernor 0 2))) = Gov.ActionThrottle) /\
  (ValidateSystemDNA (service 3 4 3 2 0 0) = Some CouplingUnstable <->
   ActType (snd (CheckStructuralIntegrity 5 (service 3 4 3 2 0 0)
                   (NewGovernor 0 2))) = Gov.ActionThrottle).
Proof.
  split.
  - destruct (@ValidateSystemDNA_agrees_with_governor 5 (violations 220)
                (NewGovernor 0 2)) as (_ & _ & _ & H).
    apply H; [apply NewGovernor64_standardThresholds | reflexivity
             | reflexivity].
  - destruct (@ValidateSystemDNA_agrees_with_governor 5
                (service 3 4 3 2 0 0) (NewGovernor 0 2)) as (_ & _ & _ & H).
    apply H; [apply NewGovernor64_standardThresholds | reflexivity
             | reflexivity].
Defined.

(** The metrics with 4 violations over 3 verified operations and 2
    unsupervised processes over 3 supervised ones: the three rounded
    terms sum to 2.9999999999999996, so the metrics are valid and the
    governor paces. *)
Lemma validation_under_the_boundary :
  let metrics := service 3 4 3 2 0 0 in
  CalculateSystemDNA metrics = 2.9999999999999996 /\
  ValidateSystemDNA metrics = None /\
  ActType (snd (CheckStructuralIntegrity 5 metrics (NewGovernor 0 2))) =
    Gov.ActionPacing.
Proof. repeat split. Qed.

(** X8.  The two limits on the growth of a change, on the binary64
    quotient of the two deltas.  A change that [Validate] of
    [NewCriticalityConstraint] accepts (quotient not above 1/δ) is let
    through by the deployment gate of the governor for the same two
    deltas; and the gate also lets through every change on a growing core
    with a quotient above 1/δ, up to δ, which [Validate] rejects as a
    scaling violation. *)
Theorem validated_change_passes_gate (deltaCritical deltaComplex : float)
    (metrics : SystemIntegrityMetrics) :
  DeltaCriticalCore metrics = deltaCritical ->
  DeltaComplexity metrics = deltaComplex ->
  let c := Criticality.NewCriticalityConstraint deltaCritical deltaComplex in
  (Criticality.Validate c = None -> deployGate metrics = None) /\
  ((0 <? deltaCritical) = true ->
   (CriticalityScalingRatio <? deltaComplex / deltaCritical) = true ->
   (deltaComplex / deltaCritical <=? FeigenbaumDelta) = true ->
   Criticality.Validate c = Some Criticality.CriticalityScalingViolation /\
   deployGate metrics = None).
Proof.
  intros Hcore Hcx c. subst c.
  unfold Criticality.Validate, deployGate. cbv zeta.
  cbn [Criticality.DeltaCriticalCore Criticality.DeltaComplexity
       Criticality.MaxRatio Criticality.NewCriticalityConstraint].
  rewrite Hcore, Hcx. split.
  - destruct (deltaCritical =? 0) eqn:H0; [discriminate|].
    destruct (CriticalityScalingRatio <? deltaComplex / deltaCritical)
      eqn:Hr; [discriminate|].
    intros _. cbn [andb].
    destruct (FeigenbaumDelta <? deltaComplex / deltaCritical) eqn:Hd.
    + rewrite (@leb_ltb_trans CriticalityScalingRatio FeigenbaumDelta _
                 eq_refl Hd) in Hr. discriminate.
    + now destruct ((0 <? deltaCritical) || (0 <? deltaComplex)).
  - intros Hpos Hlo Hhi.
    rewrite (positive_not_zero Hpos), Hlo, Hpos.
    rewrite (leb_true_ltb_false Hhi). cbn. split; reflexivity.
Qed.

Lemma validated_change_passes_gate_witness :
  (Criticality.Validate (Criticality.NewCriticalityConstraint 50 10) = None ->
   deployGate (deployment 50 10) = None) /\
  Criticality.Validate (Criticality.NewCriticalityConstraint 50 100) =
    Some Criticality.CriticalityScalingViolation /\
  deployGate (deployment 50 100) = None.
Proof.
  split.
  - apply (@validated_change_passes_gate 50 10 (deployment 50 10));
      reflexivity.
  - apply (@validated_change_passes_gate 50 100 (deployment 50 100));
      reflexivity.
Defined.

(** The boundary of [Validate] in binary64.  A complexity delta of
    100 · (1/δ) over a core delta of 100 is accepted: the quotient rounds
    to 1/δ.  Over a core delta of 39 the product 39 · (1/δ) is rejected,
    the quotient rounding one step above 1/δ, although the headroom of
    the constraint is 0. *)
Lemma Validate_at_the_boundary :
  Criticality.Validate
    (Criticality.NewCriticalityConstraint 100
       (100 * CriticalityScalingRatio)) = None /\
  Criticality.Validate
    (Criticality.NewCriticalityConstraint 39
       (39 * CriticalityScalingRatio)) =
    Some Criticality.CriticalityScalingViolation /\
  Criticality.Headroom
    (Criticality.NewCriticalityConstraint 39
       (39 * CriticalityScalingRatio)) = 0.
Proof. repeat split. Qed.
End Gov64Facts.

(** ** One recovery pulse in binary64 *)

Module Recovery64Facts.
Import Float64 Runtime64 AutoscalerFacts ScalingFacts Float64Facts.
Local Open Scope float_scope.











(** The same decrease in the arithmetic of the code: the binary64
    difference of the old and the new r is above the binary64 1/δ. *)
Lemma pulse_decrease_above_the_limit :
  let r' := snd (ApplyRecovery healthyMetrics (NewRDynamics 3.5)) in
  3.5 - r' = 0.21416945086952799 /\
  (CriticalityScalingRatio <? 3.5 - r') = true.
Proof. split; reflexivity. Qed.
End Recovery64Facts.

(** ** The USL fitter in binary64 *)

Module USLFitFacts.
Import Float64 USLFit.
Local Open Scope float_scope.






(** What [FitUSL] computes on these measurements. *)
Lemma repeated_concurrency :
  let s := fold_left accumulate repeated zeroSums in
  determinant s = 2325872640 /\
  sumOne s * sumX1X1 s - sumX1 s * sumX1 s = 0 /\
  exists c : USLCoefficients,
    FitUSL repeated = inr c /\
    Beta c = snd (primarySolve s) /\
    (Beta c <? 0) = true /\ (0 <? Alpha c) = true.
Proof.
  cbv zeta. split; [reflexivity|]. split; [reflexivity|].
  eexists. split; [vm_compute; reflexivity|]. repeat split.
Qed.
End USLFitFacts.
